(** * J1939-21 transport controller (j1939.cpp / j1939.h)

    A shallow embedding of [J1939::Controller]: the 29-bit identifier
    codec, the bus arbiter ([bus_busy], [bus_busy_timeout],
    [active_bam_sessions]), the reassembly table
    ([multi_frame_messages]), the receive path ([decode_j1939_message],
    [parse_tp_cm], [parse_tp_dt]) and the transmit path
    ([send_single_frame_message], [send_multi_frame_message],
    [send_data_packet]); and of the part of the sender task of main.cpp
    that drives it (the handling of a line read from the UART and the
    pass over the queue of unsent messages).

    C integers are [Z] with the truncations of the source written out;
    payload bytes are [Byte.byte]; the two [std::map]s are [gmap]s keyed
    by the packed 16-bit session id.  Everything the controller reads
    from its surroundings (the millisecond clock, the outcome of taking
    the bus mutex, the outcome of a transceiver write) comes from an
    oracle carried in the [World]; everything it writes (the JSON
    records on stdout, the frames put on the wire, the log) is appended
    to a list in the [World]. *)

From Stdlib Require Import ZArith String Ascii.
From Stdlib Require Import Strings.Byte.
From stdpp Require Import gmap list sorting.

Local Open Scope Z_scope.

(** ** Machine integers *)

Definition wrap8 (z : Z) : Z := z mod 2 ^ 8.
Definition wrap16 (z : Z) : Z := z mod 2 ^ 16.
Definition wrap32 (z : Z) : Z := z mod 2 ^ 32.

(** Value of a [uint8_t]. *)
Definition u8 (b : byte) : Z := Z.of_N (Byte.to_N b).

(** Conversion to [uint8_t] (keeps the low eight bits). *)
Definition to_byte (z : Z) : byte :=
  match Byte.of_N (Z.to_N (wrap8 z)) with
  | Some b => b
  | None => x00
  end.

(** ** Frames (mcp2515/can.h) *)

Record can_frame := mk_can_frame {
  can_id : Z;
  can_dlc : Z;
  data : list byte
}.

(** Modelled from the spec: mcp2515/can.h is not part of the sources; the
    spec speaks of a 29-bit extended identifier carrying an
    extended-identifier marker bit.  The values are those of the
    SocketCAN layout that header follows. *)
Definition CAN_EFF_FLAG : Z := 0x80000000.

(** Modelled from the spec: the mask of the 29 identifier bits, from the
    same header. *)
Definition CAN_EFF_MASK : Z := 0x1FFFFFFF.

(** [frame->data[i]]; a byte the list does not hold reads as zero. *)
Definition frame_byte (frame : can_frame) (i : nat) : Z :=
  u8 (nth i (data frame) x00).

(** The [n] bytes [frame->data[off] .. frame->data[off+n-1]]. *)
Definition frame_bytes (frame : can_frame) (off n : nat) : list byte :=
  map (fun i => nth i (data frame) x00) (seq off n).

(** ** Constants of j1939.h *)

Definition PGN_TP_CM : Z := 0xEC00.
Definition PGN_TP_DT : Z := 0xEB00.
Definition PGN_REQUEST : Z := 0xEA00.

Definition SESSION_A : Z := 2.
Definition SESSION_B : Z := 3.
Definition SESSION_C : Z := 6.
Definition SESSION_D : Z := 7.
Definition SESSION_E : Z := 10.
Definition SESSION_F : Z := 11.

Definition SESSION_TIMEOUT_MS : Z := 1000.

(** ** Controller state *)

Record MultiFrameMessage := mkMFM {
  mfm_data : list byte;
  total_size : Z;
  mfm_pgn : Z;
  source_addr : Z;
  mfm_session_number : Z;
  packets_received : Z;
  total_packets : Z;
  complete : bool;
  last_activity_time : Z
}.

(** The fields of [Controller] that the protocol code touches, plus the
    function-local [static int session_index] of
    [send_multi_frame_message], which lives as long as the process. *)
Record Controller := mkController {
  source_address : Z;
  bus_busy : bool;
  bus_busy_timeout : Z;
  multi_frame_messages : gmap Z MultiFrameMessage;
  active_bam_sessions : gmap Z bool;
  session_index : Z
}.

(** [Controller::Controller(mcp, source_addr)]. *)
Definition Controller_new (source_addr : Z) : Controller :=
  mkController (wrap8 source_addr) false 0 ∅ ∅ 0.

Definition set_bus_busy (b : bool) (c : Controller) : Controller :=
  mkController (source_address c) b (bus_busy_timeout c)
    (multi_frame_messages c) (active_bam_sessions c) (session_index c).

Definition set_bus_busy_timeout (t : Z) (c : Controller) : Controller :=
  mkController (source_address c) (bus_busy c) t
    (multi_frame_messages c) (active_bam_sessions c) (session_index c).

Definition set_multi_frame_messages (m : gmap Z MultiFrameMessage)
    (c : Controller) : Controller :=
  mkController (source_address c) (bus_busy c) (bus_busy_timeout c)
    m (active_bam_sessions c) (session_index c).

Definition set_active_bam_sessions (m : gmap Z bool) (c : Controller)
    : Controller :=
  mkController (source_address c) (bus_busy c) (bus_busy_timeout c)
    (multi_frame_messages c) m (session_index c).

Definition set_session_index (i : Z) (c : Controller) : Controller :=
  mkController (source_address c) (bus_busy c) (bus_busy_timeout c)
    (multi_frame_messages c) (active_bam_sessions c) i.

(** ** Output *)

(** The [size] member of a record: the literal ["SF"] or [%u]. *)
Inductive SizeField :=
| SF
| Bytes (n : Z).

(** One line written by [printf]: [pgn] is printed with [%05x],
    [sender] with [%02X], [data] is the run of [%02X] conversions. *)
Record SinkRecord := mkRecord {
  rec_pgn : Z;
  rec_sender : Z;
  rec_size : SizeField;
  rec_data : string
}.

Definition hex_digit (n : Z) : ascii :=
  nth (Z.to_nat n)
    ["0"; "1"; "2"; "3"; "4"; "5"; "6"; "7";
     "8"; "9"; "A"; "B"; "C"; "D"; "E"; "F"]%char "0"%char.

(** [printf("%02X", b)]. *)
Definition hex2 (b : byte) : string :=
  String (hex_digit (u8 b / 16)) (String (hex_digit (u8 b mod 16)) EmptyString).

Fixpoint hex_of_bytes (l : list byte) : string :=
  match l with
  | [] => EmptyString
  | b :: rest => (hex2 b ++ hex_of_bytes rest)%string
  end.

Inductive LogLevel := LogW | LogE.

Definition LogEntry : Type := LogLevel * string.

(** ** The world around the controller *)

Record World := mkWorld {
  ctl : Controller;
  timestamps : nat -> Z;      (* successive values of esp_log_timestamp() *)
  ts_read : nat;
  sem_grants : nat -> bool;   (* successive outcomes of xSemaphoreTake *)
  sem_taken : nat;
  tx_results : nat -> bool;   (* successive outcomes of sendMessage *)
  tx_calls : nat;
  stdout : list SinkRecord;
  wire : list can_frame;
  esp_log : list LogEntry;
  slept : Z                   (* milliseconds spent in vTaskDelay *)
}.

Definition M (A : Type) : Type := World -> A * World.

#[export] Instance M_ret : MRet M := fun A a w => (a, w).
#[export] Instance M_bind : MBind M :=
  fun A B f m w => match m w with (a, w') => f a w' end.

Definition get_ctl : M Controller := fun w => (ctl w, w).

Definition modify_ctl (f : Controller -> Controller) : M unit := fun w =>
  (tt, mkWorld (f (ctl w)) (timestamps w) (ts_read w) (sem_grants w)
         (sem_taken w) (tx_results w) (tx_calls w) (stdout w) (wire w)
         (esp_log w) (slept w)).

Definition esp_log_timestamp : M Z := fun w =>
  (wrap32 (timestamps w (ts_read w)),
   mkWorld (ctl w) (timestamps w) (S (ts_read w)) (sem_grants w)
     (sem_taken w) (tx_results w) (tx_calls w) (stdout w) (wire w)
     (esp_log w) (slept w)).

(** [xSemaphoreTake(bus_state_mutex, pdMS_TO_TICKS(100)) == pdTRUE]. *)
Definition xSemaphoreTake : M bool := fun w =>
  (sem_grants w (sem_taken w),
   mkWorld (ctl w) (timestamps w) (ts_read w) (sem_grants w)
     (S (sem_taken w)) (tx_results w) (tx_calls w) (stdout w) (wire w)
     (esp_log w) (slept w)).

Definition xSemaphoreGive : M unit := mret tt.

(** [mcp2515->sendMessage(&frame) == MCP2515::ERROR_OK]; a frame the
    transceiver accepted is on the wire. *)
Definition sendMessage (frame : can_frame) : M bool := fun w =>
  let ok := tx_results w (tx_calls w) in
  (ok,
   mkWorld (ctl w) (timestamps w) (ts_read w) (sem_grants w)
     (sem_taken w) (tx_results w) (S (tx_calls w)) (stdout w)
     (if ok then wire w ++ [frame] else wire w)
     (esp_log w) (slept w)).

Definition printf_record (r : SinkRecord) : M unit := fun w =>
  (tt, mkWorld (ctl w) (timestamps w) (ts_read w) (sem_grants w)
         (sem_taken w) (tx_results w) (tx_calls w) (stdout w ++ [r])
         (wire w) (esp_log w) (slept w)).

Definition esp_log_write (l : LogLevel) (msg : string) : M unit := fun w =>
  (tt, mkWorld (ctl w) (timestamps w) (ts_read w) (sem_grants w)
         (sem_taken w) (tx_results w) (tx_calls w) (stdout w)
         (wire w) (esp_log w ++ [(l, msg)]) (slept w)).

Definition ESP_LOGW (msg : string) : M unit := esp_log_write LogW msg.
Definition ESP_LOGE (msg : string) : M unit := esp_log_write LogE msg.

Definition vTaskDelay (ms : Z) : M unit := fun w =>
  (tt, mkWorld (ctl w) (timestamps w) (ts_read w) (sem_grants w)
         (sem_taken w) (tx_results w) (tx_calls w) (stdout w)
         (wire w) (esp_log w) (slept w + ms)).

(** ** Session management *)

Definition is_valid_session (session : Z) : bool :=
  (session =? SESSION_A) || (session =? SESSION_B) || (session =? SESSION_C)
  || (session =? SESSION_D) || (session =? SESSION_E) || (session =? SESSION_F).

(** [uint16_t session_id = (session_number << 8) | src_addr]. *)
Definition make_session_id (session_number src_addr : Z) : Z :=
  wrap16 (Z.lor (Z.shiftl session_number 8) src_addr).

Definition is_bus_available : M bool :=
  taken ← xSemaphoreTake;
  if (taken : bool) then
    c ← get_ctl;
    available ←
      (if bus_busy c then
         current_time ← esp_log_timestamp;
         if bus_busy_timeout c <? current_time then
           _ ← ESP_LOGW "BAM session timed out, releasing bus";
           _ ← modify_ctl (set_bus_busy false);
           _ ← modify_ctl (set_active_bam_sessions ∅);
           mret true
         else mret false
       else mret true);
    _ ← xSemaphoreGive;
    mret available
  else mret false.

(** The block that follows every erase but one in the source: under the
    bus mutex, drop [session_id] from [active_bam_sessions] and clear
    [bus_busy] when that leaves the map empty. *)
Definition release_bus (session_id : Z) : M unit :=
  taken ← xSemaphoreTake;
  if (taken : bool) then
    c ← get_ctl;
    _ ← (match active_bam_sessions c !! session_id with
         | Some _ =>
             _ ← modify_ctl
                   (set_active_bam_sessions (delete session_id (active_bam_sessions c)));
             c' ← get_ctl;
             if decide (active_bam_sessions c' = ∅)
             then modify_ctl (set_bus_busy false)
             else mret tt
         | None => mret tt
         end);
    xSemaphoreGive
  else mret tt.

Definition erase_session (session_id : Z) : M unit :=
  modify_ctl (fun c =>
    set_multi_frame_messages (delete session_id (multi_frame_messages c)) c).

Definition is_session_valid (session_number src_addr : Z) : M bool :=
  if negb (is_valid_session session_number) then mret false
  else
    let session_id := make_session_id session_number src_addr in
    c ← get_ctl;
    match multi_frame_messages c !! session_id with
    | None => mret true
    | Some mfm =>
        current_time ← esp_log_timestamp;
        if SESSION_TIMEOUT_MS <? wrap32 (current_time - last_activity_time mfm) then
          _ ← erase_session session_id;
          _ ← release_bus session_id;
          mret true
        else mret false
    end.

Definition key_le (a b : Z * MultiFrameMessage) : Prop := fst a <= fst b.

#[export] Instance key_le_dec a b : Decision (key_le a b) :=
  Z_le_dec (fst a) (fst b).

(** [std::map] iterates in ascending key order. *)
Definition items_in_key_order (m : gmap Z MultiFrameMessage)
    : list (Z * MultiFrameMessage) :=
  merge_sort key_le (map_to_list m).

Definition is_stale (current_time : Z) (mfm : MultiFrameMessage) : bool :=
  SESSION_TIMEOUT_MS <? wrap32 (current_time - last_activity_time mfm).

(** First loop of [cleanup_stale_sessions]. *)
Fixpoint collect_stale (current_time : Z)
    (items : list (Z * MultiFrameMessage)) (sessions_to_remove : list Z)
    : M (list Z) :=
  match items with
  | [] => mret sessions_to_remove
  | item :: rest =>
      if is_stale current_time (snd item) then
        _ ← ESP_LOGW "Removing stale session %s (0x%X) from src 0x%02X";
        collect_stale current_time rest (sessions_to_remove ++ [fst item])
      else collect_stale current_time rest sessions_to_remove
  end.

(** Second loop of [cleanup_stale_sessions]. *)
Fixpoint remove_sessions (sessions_to_remove : list Z) : M unit :=
  match sessions_to_remove with
  | [] => mret tt
  | session_id :: rest =>
      _ ← erase_session session_id;
      _ ← release_bus session_id;
      remove_sessions rest
  end.

Definition cleanup_stale_sessions : M unit :=
  current_time ← esp_log_timestamp;
  c ← get_ctl;
  sessions_to_remove ←
    collect_stale current_time (items_in_key_order (multi_frame_messages c)) [];
  remove_sessions sessions_to_remove.

Definition process_complete_message (mfm : MultiFrameMessage) : M unit :=
  printf_record
    (mkRecord (mfm_pgn mfm) (source_addr mfm) (Bytes (total_size mfm))
       (hex_of_bytes (mfm_data mfm))).

(** ** Receive path *)

(** The assignments through [multi_frame_messages[session_id]] that end
    both announce branches of [parse_tp_cm]. *)
Definition open_session (session_id message_size pgn src_addr
    session_number total_packets : Z) : M unit :=
  now ← esp_log_timestamp;
  modify_ctl (fun c =>
    set_multi_frame_messages
      (<[session_id :=
           mkMFM [] message_size pgn src_addr session_number 0
             total_packets false now]> (multi_frame_messages c)) c).

(** The bus-state block of the BAM branch of [parse_tp_cm]. *)
Definition acquire_bus (session_id total_packets : Z) : M unit :=
  taken ← xSemaphoreTake;
  if (taken : bool) then
    _ ← modify_ctl (set_bus_busy true);
    now ← esp_log_timestamp;
    _ ← modify_ctl (set_bus_busy_timeout (wrap32 (now + total_packets * 200 + 500)));
    _ ← modify_ctl (fun c =>
          set_active_bam_sessions (<[session_id := true]> (active_bam_sessions c)) c);
    xSemaphoreGive
  else mret tt.

Definition announced_size (frame : can_frame) : Z :=
  wrap16 (Z.lor (frame_byte frame 1) (Z.shiftl (frame_byte frame 2) 8)).

Definition announced_pgn (frame : can_frame) : Z :=
  wrap32 (Z.lor (Z.lor (frame_byte frame 5) (Z.shiftl (frame_byte frame 6) 8))
            (Z.shiftl (frame_byte frame 7) 16)).

Definition announced_packets (frame : can_frame) : Z :=
  let message_size := announced_size frame in
  let total_packets := frame_byte frame 3 in
  let calculated_packets := wrap16 ((message_size + 6) / 7) in
  if (total_packets =? 0xFF) || (total_packets =? 0)
  then calculated_packets else total_packets.

Definition parse_tp_cm (frame : can_frame) (src_addr : Z) : M unit :=
  let control_byte := frame_byte frame 0 in
  let session_number := Z.land (Z.shiftr control_byte 4) 0x0F in
  let session_id := make_session_id session_number src_addr in
  valid ← is_session_valid session_number src_addr;
  if negb valid then
    ESP_LOGW "Invalid or busy session: %s (0x%X) from src 0x%02X"
  else
    _ ← cleanup_stale_sessions;
    if Z.land control_byte 0x0F =? 0x00 then
      let message_size := announced_size frame in
      let pgn := announced_pgn frame in
      let calculated_packets := wrap16 ((message_size + 6) / 7) in
      let total_packets := announced_packets frame in
      if (message_size =? 0) || (calculated_packets =? 0) then
        ESP_LOGW "Invalid BAM parameters: size=%u, packets=%u"
      else
        _ ← acquire_bus session_id total_packets;
        open_session session_id message_size pgn src_addr session_number
          total_packets
    else if Z.land control_byte 0x0F =? 0x01 then
      let message_size := announced_size frame in
      let pgn := announced_pgn frame in
      let total_packets := announced_packets frame in
      open_session session_id message_size pgn src_addr session_number
        total_packets
    else if control_byte =? 255 then
      _ ← erase_session session_id;
      release_bus session_id
    else mret tt.

(** [resize] when the vector is too short, then [memcpy] of [bytes] at
    [start_pos]. *)
Definition store_bytes (buf : list byte) (start_pos : nat) (bytes : list byte)
    : list byte :=
  let need := (start_pos + length bytes)%nat in
  let buf' := if (length buf <? need)%nat then resize need x00 buf else buf in
  take start_pos buf' ++ bytes ++ drop need buf'.

Definition expected_sequence (packets_received : Z) : Z :=
  if packets_received mod 15 =? 0 then 1
  else wrap8 (packets_received mod 15 + 1).

Definition parse_tp_dt (frame : can_frame) (src_addr : Z) : M unit :=
  let first_byte := frame_byte frame 0 in
  let sequence_number := Z.land first_byte 0x0F in
  let session_number := Z.land (Z.shiftr first_byte 4) 0x0F in
  let session_id := make_session_id session_number src_addr in
  if (sequence_number =? 0) || (15 <? sequence_number) then
    ESP_LOGW "Invalid sequence number: %u"
  else
    c ← get_ctl;
    match multi_frame_messages c !! session_id with
    | None => ESP_LOGW "Received TP.DT for unknown session: %s (0x%X)"
    | Some mfm =>
        now ← esp_log_timestamp;
        let expected_seq := expected_sequence (packets_received mfm) in
        if negb (sequence_number =? expected_seq) then
          _ ← ESP_LOGW "Out of sequence packet: got %u, expected %u";
          _ ← erase_session session_id;
          release_bus session_id
        else
          let start_pos := packets_received mfm * 7 in
          if total_size mfm <=? start_pos then
            _ ← ESP_LOGW "Data position exceeds message size";
            erase_session session_id
          else
            let bytes_to_copy :=
              if total_size mfm - start_pos <? 7
              then total_size mfm - start_pos else 7 in
            let mfm' :=
              mkMFM
                (store_bytes (mfm_data mfm) (Z.to_nat start_pos)
                   (frame_bytes frame 1 (Z.to_nat bytes_to_copy)))
                (total_size mfm) (mfm_pgn mfm) (source_addr mfm)
                (mfm_session_number mfm) (wrap16 (packets_received mfm + 1))
                (total_packets mfm) (complete mfm) now in
            if total_packets mfm' <=? packets_received mfm' then
              _ ← process_complete_message mfm';
              _ ← erase_session session_id;
              release_bus session_id
            else
              modify_ctl (fun c =>
                set_multi_frame_messages
                  (<[session_id := mfm']> (multi_frame_messages c)) c)
    end.

(** The PGN computed from the 29-bit identifier. *)
Definition decode_pgn (id : Z) : Z :=
  let pdu_format := Z.land (Z.shiftr id 16) 0xFF in
  let pgn := Z.land (Z.shiftr id 8) 0x3FFFF in
  let is_pdu1 := pdu_format <? 240 in
  let pgn := if is_pdu1 then Z.land pgn 0x3FF00 else pgn in
  Z.lor pgn (Z.shiftl pdu_format 8).

Definition decode_j1939_message (frame : can_frame) : M unit :=
  if Z.land (can_id frame) CAN_EFF_FLAG =? 0 then mret tt
  else
    let id := Z.land (can_id frame) CAN_EFF_MASK in
    let src_addr := Z.land id 0xFF in
    let pgn := decode_pgn id in
    if pgn =? PGN_TP_CM then parse_tp_cm frame src_addr
    else if pgn =? PGN_TP_DT then parse_tp_dt frame src_addr
    else if pgn =? PGN_REQUEST then mret tt
    else
      printf_record
        (mkRecord pgn src_addr SF
           (hex_of_bytes (frame_bytes frame 0 (Z.to_nat (can_dlc frame))))).

(** ** Transmit path *)

(** The back-off loop in front of both send functions: [tries] rounds of
    sleeping [delay] ms and asking again; the round that finds the bus
    free leaves the loop, the last round that does not fails the call. *)
Fixpoint wait_for_bus (tries : nat) (delay : Z) (abort_msg : string) : M bool :=
  match tries with
  | O => _ ← ESP_LOGE abort_msg; mret false
  | S tries' =>
      _ ← vTaskDelay delay;
      available ← is_bus_available;
      if (available : bool) then mret true
      else wait_for_bus tries' delay abort_msg
  end.

Definition bus_gate (busy_msg : string) (tries : nat) (delay : Z)
    (abort_msg : string) : M bool :=
  available ← is_bus_available;
  if (available : bool) then mret true
  else
    _ ← ESP_LOGW busy_msg;
    wait_for_bus tries delay abort_msg.

Definition single_frame_gate : M bool :=
  bus_gate "Bus is busy with BAM session, delaying single frame send"
    5 100 "Bus still busy after retry, aborting single frame send".

Definition send_single_frame_message (pgn dst : Z) (data : list byte)
    (len : Z) : M bool :=
  proceed ← single_frame_gate;
  if negb proceed then mret false
  else if 8 <? len then
    _ ← ESP_LOGE "Single frame message cannot exceed 8 bytes";
    mret false
  else
    c ← get_ctl;
    let pdu_format := Z.land (Z.shiftr pgn 8) 0xFF in
    let pdu_specific := Z.land pgn 0xFF in
    let frame :=
      mk_can_frame
        (Z.lor (Z.lor (Z.lor (Z.lor 0x18000000 (Z.shiftl pdu_format 16))
                         (Z.shiftl pdu_specific 8)) (source_address c))
           CAN_EFF_FLAG)
        len (take (Z.to_nat len) data) in
    sendMessage frame.

(** [for (retry = 0; retry < 3 && !sent; retry++)] around one frame. *)
Fixpoint send_with_retry (retries : nat) (frame : can_frame) (msg : string)
    : M bool :=
  match retries with
  | O => mret false
  | S retries' =>
      ok ← sendMessage frame;
      if (ok : bool) then mret true
      else
        _ ← ESP_LOGW msg;
        _ ← vTaskDelay 10;
        send_with_retry retries' frame msg
  end.

Definition bam_retry_warning : string := "Failed to send BAM, retry %d".
Definition packet_retry_warning : string := "Failed to send packet %d, retry %d".

Definition working_sessions : list Z := [2; 3; 6; 7; 10; 11].

Definition bam_frame (source_address pgn size this_message_session : Z)
    : can_frame :=
  let total_packets := wrap16 ((size + 6) / 7) in
  mk_can_frame
    (Z.lor (Z.lor (Z.lor 0x18EC0000 (Z.shiftl 0xFF 8)) source_address)
       CAN_EFF_FLAG)
    8
    [ to_byte (Z.lor 0x20 (Z.shiftl (Z.land this_message_session 0x0F) 4));
      to_byte (Z.land size 0xFF);
      to_byte (Z.land (Z.shiftr size 8) 0xFF);
      (if 255 <? total_packets then xff else to_byte (Z.land total_packets 0xFF));
      xff;
      to_byte (Z.land pgn 0xFF);
      to_byte (Z.land (Z.shiftr pgn 8) 0xFF);
      to_byte (Z.land (Z.shiftr pgn 16) 0xFF) ].

(** Sequence field of data frame [seq], before the range check. *)
Definition seq_to_send (seq : Z) : Z :=
  if 15 <? seq then wrap8 ((seq - 1) mod 15 + 1) else wrap8 seq.

Definition data_frame (source_address size this_message_session seq seq_field : Z)
    (data : list byte) : can_frame :=
  let data_offset := wrap16 ((seq - 1) * 7) in
  let bytes_to_send :=
    if size <? data_offset + 7 then wrap8 (size - data_offset) else 7 in
  mk_can_frame
    (Z.lor (Z.lor (Z.lor 0x18EB0000 (Z.shiftl 0xFF 8)) source_address)
       CAN_EFF_FLAG)
    8
    (to_byte (Z.lor seq_field (Z.shiftl (Z.land this_message_session 0x0F) 4))
     :: take (Z.to_nat bytes_to_send) (drop (Z.to_nat data_offset) data)
     ++ replicate (Z.to_nat (7 - bytes_to_send)) xff).

(** The data loop; its body runs for [seq = 1 .. total_packets], hence
    [count] counts the rounds left. *)
Fixpoint send_data_frames (count : nat) (seq size this_message_session : Z)
    (data : list byte) : M bool :=
  match count with
  | O => mret true
  | S count' =>
      seq_field ←
        (if (seq_to_send seq <? 1) || (15 <? seq_to_send seq) then
           _ ← ESP_LOGW "Invalid sequence number %u calculated from seq=%u";
           mret 1
         else mret (seq_to_send seq));
      c ← get_ctl;
      sent ← send_with_retry 3
               (data_frame (source_address c) size this_message_session seq
                  seq_field data)
               packet_retry_warning;
      if negb sent then
        _ ← ESP_LOGE "Failed to send data packet %d after retries";
        mret false
      else
        _ ← vTaskDelay 50;
        send_data_frames count' (wrap16 (seq + 1)) size this_message_session data
  end.

Definition multi_frame_gate : M bool :=
  bus_gate "Bus is busy with another BAM session, delaying multi-frame send"
    10 200 "Bus still busy after extended retry, aborting multi-frame send".

Definition send_multi_frame_message (pgn : Z) (data : list byte) (size : Z)
    : M bool :=
  proceed ← multi_frame_gate;
  if negb proceed then mret false
  else
    c ← get_ctl;
    let total_packets := wrap16 ((size + 6) / 7) in
    let this_message_session :=
      nth (Z.to_nat (session_index c)) working_sessions 0 in
    _ ← modify_ctl (set_session_index ((session_index c + 1) mod 6));
    bam_sent ← send_with_retry 3
                 (bam_frame (source_address c) pgn size this_message_session)
                 bam_retry_warning;
    if negb bam_sent then
      _ ← ESP_LOGE "Failed to send BAM";
      mret false
    else
      _ ← vTaskDelay 10;
      send_data_frames (Z.to_nat total_packets) 1 size this_message_session data.

(** ** One data packet *)

Definition send_data_packet (seq_num dst : Z) (data : list byte)
    (len session_number : Z) : M bool :=
  c ← get_ctl;
  let bytes_to_copy := if 7 <? len then 7 else len in
  let frame :=
    mk_can_frame
      (Z.lor (Z.lor (Z.lor 0x18EB0000 (Z.shiftl dst 8)) (source_address c))
         CAN_EFF_FLAG)
      8
      (to_byte (Z.lor seq_num (Z.shiftl (Z.land session_number 0x0F) 4))
       :: take (Z.to_nat bytes_to_copy) data
       ++ replicate (Z.to_nat (7 - bytes_to_copy)) xff) in
  sendMessage frame.

(** ** The sender task (main.cpp) *)

Definition PGN_PEER_TO_PEER_MESSAGE : Z := 0xEF00.
Definition PGN_GROUP_MESSAGE : Z := 0xEF10.
Definition PGN_EXTRA : Z := 0xEF20.

(** Size of the line buffer and of an entry's buffer. *)
Definition BUF_SIZE : Z := 1024.

(** An entry of [message_queue]; [entry_data] holds the [entry_len]
    bytes copied into the entry's buffer. *)
Record message_entry_t := mk_message_entry {
  entry_pgn : Z;
  entry_data : list byte;
  entry_len : Z;
  is_multi_frame : bool;
  entry_timestamp : Z
}.

(** The end of a line: the terminator that closed it is cut off. *)
Definition strip_line_end (data : list byte) : list byte :=
  match last data with
  | Some b => if (u8 b =? 10) || (u8 b =? 13) then removelast data else data
  | None => data
  end.

(** The optional prefix ["1,"], ["2,"] or ["3,"] of a line selects the
    PGN; the result is [selected_pgn] and the bytes from
    [message_start] on. *)
Definition select_pgn (data : list byte) : Z * list byte :=
  let data_len := Z.of_nat (length data) in
  let d0 := u8 (nth 0 data x00) in
  let d1 := u8 (nth 1 data x00) in
  if (3 <=? data_len) && (49 <=? d0) && (d0 <=? 51) && (d1 =? 44) then
    let pgn_index := wrap8 (d0 - 48) in
    ((if pgn_index =? 1 then PGN_PEER_TO_PEER_MESSAGE
      else if pgn_index =? 2 then PGN_GROUP_MESSAGE
      else if pgn_index =? 3 then PGN_EXTRA
      else PGN_EXTRA),
     drop 2 data)
  else (PGN_EXTRA, data).

(** The attempt to send a line at once.  The takes of [spi_mutex] draw
    their outcomes from the same sequence as those of the bus mutex. *)
Definition send_now (selected_pgn : Z) (message : list byte) : M bool :=
  let message_len := Z.of_nat (length message) in
  available ← is_bus_available;
  if (available : bool) then
    taken ← xSemaphoreTake;
    if (taken : bool) then
      sent ←
        (if message_len <=? 8 then
           send_single_frame_message selected_pgn 0xFF message (wrap8 message_len)
         else
           send_multi_frame_message selected_pgn message (wrap16 message_len));
      _ ← xSemaphoreGive;
      mret sent
    else mret false
  else mret false.

(** What the task does with a line once its terminator has arrived:
    send it, or append it to the queue. *)
Definition handle_line (data : list byte) (message_queue : list message_entry_t)
    : M (list message_entry_t) :=
  let line := strip_line_end data in
  let selected_pgn := fst (select_pgn line) in
  let message := snd (select_pgn line) in
  let message_len := Z.of_nat (length message) in
  sent ← send_now selected_pgn message;
  if negb sent then
    now ← esp_log_timestamp;
    mret (message_queue ++
          [mk_message_entry selected_pgn message message_len
             (8 <? message_len) now])
  else mret message_queue.

(** The loop over [message_queue] that opens every round of the task;
    the result is the queue it leaves and [message_sent]. *)
Fixpoint retry_queue (message_queue : list message_entry_t)
    : M (list message_entry_t * bool) :=
  match message_queue with
  | [] => mret ([], false)
  | it :: rest =>
      available ← is_bus_available;
      if (available : bool) then
        taken ← xSemaphoreTake;
        if (taken : bool) then
          send_result ←
            (if is_multi_frame it then
               send_multi_frame_message (entry_pgn it) (entry_data it)
                 (wrap16 (entry_len it))
             else
               send_single_frame_message (entry_pgn it) 0xFF (entry_data it)
                 (wrap8 (entry_len it)));
          _ ← xSemaphoreGive;
          if (send_result : bool) then mret (rest, true)
          else
            current_time ← esp_log_timestamp;
            if 5000 <? wrap32 (current_time - entry_timestamp it) then
              _ ← ESP_LOGW "Message in queue timed out, removing";
              retry_queue rest
            else
              r ← retry_queue rest;
              mret (it :: fst r, snd r)
        else
          r ← retry_queue rest;
          mret (it :: fst r, snd r)
      else mret (it :: rest, false)
  end.

(** ** Running the controller *)

(** A world around a freshly constructed controller. *)
Definition World_new (source_addr : Z) (ts : nat -> Z) (sem tx : nat -> bool)
    : World :=
  mkWorld (Controller_new source_addr) ts 0 sem 0 tx 0 [] [] [] 0.

(** Frames handed to [decode_j1939_message] one after the other. *)
Fixpoint decode_all (frames : list can_frame) : M unit :=
  match frames with
  | [] => mret tt
  | frame :: rest => _ ← decode_j1939_message frame; decode_all rest
  end.

Definition exec {A} (m : M A) (w : World) : World := snd (m w).
Definition result {A} (m : M A) (w : World) : A := fst (m w).

(** * Vocabulary of the properties *)

(** ** Views of the world *)

(** [keeps proj m]: running [m] never changes the component [proj] of the
    world. *)
Definition keeps {A B} (proj : World -> B) (m : M A) : Prop :=
  forall w, proj (exec m w) = proj w.

(** The reassembly table. *)
Definition table (w : World) : gmap Z MultiFrameMessage :=
  multi_frame_messages (ctl w).

(** The keys that own the bus. *)
Definition owners (w : World) : gmap Z bool := active_bam_sessions (ctl w).

(** Everything but the log, the sleep counter, the oracle positions and
    the controller's maps and bus flags. *)
Record Surroundings := mkSurroundings {
  sur_source_address : Z;
  sur_session_index : Z;
  sur_stdout : list SinkRecord;
  sur_wire : list can_frame;
  sur_tx_results : nat -> bool;
  sur_tx_calls : nat;
  sur_timestamps : nat -> Z;
  sur_sem_grants : nat -> bool
}.

Definition surroundings (w : World) : Surroundings :=
  mkSurroundings (source_address (ctl w)) (session_index (ctl w)) (stdout w)
    (wire w) (tx_results w) (tx_calls w) (timestamps w) (sem_grants w).

(** The surroundings together with the reassembly table: what the bus
    arbiter cannot touch. *)
Definition off_bus (w : World) : Surroundings * gmap Z MultiFrameMessage :=
  (surroundings w, table w).

(** Everything but the log: what a function that only logs cannot
    touch. *)
Definition log_free (w : World) : Controller * nat * nat * Surroundings :=
  (ctl w, ts_read w, sem_taken w, surroundings w).

(** The frames a call puts on the wire. *)
Definition emitted {A} (m : M A) (w : World) : list can_frame :=
  drop (length (wire w)) (wire (exec m w)).

(** ** Messages of the log *)

Definition busy_session_warning : string :=
  "Invalid or busy session: %s (0x%X) from src 0x%02X".

Definition invalid_bam_warning : string :=
  "Invalid BAM parameters: size=%u, packets=%u".

Definition bus_timeout_warning : string :=
  "BAM session timed out, releasing bus".

Definition sequence_warning : string :=
  "Out of sequence packet: got %u, expected %u".

(** ** The identifier codec and the sweep *)

(** The PGN as the specification words it. *)
Definition spec_pgn (id : Z) : Z :=
  let pdu_format := Z.land (Z.shiftr id 16) 0xFF in
  let pdu_specific := Z.land (Z.shiftr id 8) 0xFF in
  if pdu_format <? 240 then Z.shiftl pdu_format 8
  else Z.lor (Z.shiftl pdu_format 8) pdu_specific.

(** The table after the second loop of the sweep has erased [ids]. *)
Definition erase_all (ids : list Z) (m : gmap Z MultiFrameMessage)
    : gmap Z MultiFrameMessage :=
  foldl (fun m k => delete k m) m ids.

(** Keys of the entries the first loop of the sweep selects. *)
Definition stale_keys (now : Z) (m : gmap Z MultiFrameMessage) : list Z :=
  map fst (List.filter (fun item => is_stale now (snd item))
             (items_in_key_order m)).

(** ** Sequences of operations *)

(** Everything the two tasks of the firmware call on the controller. *)
Inductive Operation :=
| Receive (frame : can_frame)
| Sweep
| AskBus
| SendSingle (pgn dst : Z) (payload : list byte) (len : Z)
| SendMulti (pgn : Z) (payload : list byte) (size : Z).

Definition run_operation (op : Operation) : M unit :=
  match op with
  | Receive frame => decode_j1939_message frame
  | Sweep => cleanup_stale_sessions
  | AskBus => _ ← is_bus_available; mret tt
  | SendSingle pgn dst payload len =>
      _ ← send_single_frame_message pgn dst payload len; mret tt
  | SendMulti pgn payload size =>
      _ ← send_multi_frame_message pgn payload size; mret tt
  end.

Fixpoint run_operations (ops : list Operation) : M unit :=
  match ops with
  | [] => mret tt
  | op :: rest => _ ← run_operation op; run_operations rest
  end.

(** The invariant of a session: a counter that is not negative, a
    buffer within the announced size, a size that fits 16 bits. *)
Definition session_ok (mfm : MultiFrameMessage) : Prop :=
  0 <= packets_received mfm
  /\ Z.of_nat (length (mfm_data mfm)) <= total_size mfm <= 65535.

Definition table_ok (w : World) : Prop :=
  forall k mfm, table w !! k = Some mfm -> session_ok mfm.

(** ** Bursts *)

(** Sequence field of the data frame numbered [seq], counting from 1. *)
Definition seq_field (seq : Z) : Z := (seq - 1) mod 15 + 1.

(** Data frame number [k + 1] of the burst that carries [P]. *)
Definition burst_frame (P : list byte) (sa session k : Z) : can_frame :=
  data_frame sa (Z.of_nat (length P)) session (k + 1) (seq_field (k + 1)) P.

(** The [n] data frames that follow data frame number [k]. *)
Fixpoint burst_frames (P : list byte) (sa session : Z) (n : nat) (k : Z)
    : list can_frame :=
  match n with
  | O => []
  | S n' => burst_frame P sa session k :: burst_frames P sa session n' (k + 1)
  end.

(** Bytes carried by data frame number [k + 1]. *)
Definition chunk (P : list byte) (k : Z) : Z :=
  if Z.of_nat (length P) - k * 7 <? 7
  then Z.of_nat (length P) - k * 7 else 7.

(** The receiver holds the session of the burst with its first [k]
    packets absorbed. *)
Definition collecting (P : list byte) (pgn sa session k : Z) (w : World)
    : Prop :=
  exists mfm,
    multi_frame_messages (ctl w) !! make_session_id session sa = Some mfm
    /\ mfm_data mfm = take (Z.to_nat (k * 7)) P
    /\ total_size mfm = Z.of_nat (length P)
    /\ packets_received mfm = k
    /\ total_packets mfm = (Z.of_nat (length P) + 6) / 7
    /\ mfm_pgn mfm =
       announced_pgn (bam_frame sa pgn (Z.of_nat (length P)) session)
    /\ source_addr mfm = sa.

(** ** Checks by enumeration *)

(** [check_from p z n]: [p] holds at [z], [z + 1], ..., [z + n - 1]. *)
Fixpoint check_from (p : Z -> bool) (z : Z) (n : nat) : bool :=
  match n with
  | O => true
  | S n' => p z && check_from p (z + 1) n'
  end.

(** The identifier [base | 0xFF << 8 | sa | CAN_EFF_FLAG] is extended,
    comes from [sa] and decodes to [pgn]. *)
Definition ext_id_ok (base pgn : Z) (sa : Z) : bool :=
  let id := Z.lor (Z.lor (Z.lor base (Z.shiftl 0xFF 8)) sa) CAN_EFF_FLAG in
  negb (Z.land id CAN_EFF_FLAG =? 0)
  && (Z.land (Z.land id CAN_EFF_MASK) 0xFF =? sa)
  && (decode_pgn (Z.land id CAN_EFF_MASK) =? pgn).

(** The first byte built from a sequence field and a session tag, packed
    in [z], gives both back. *)
Definition first_byte_ok (z : Z) : bool :=
  let field := z mod 16 in
  let session := z / 16 in
  let b := u8 (to_byte (Z.lor field (Z.shiftl (Z.land session 0x0F) 4))) in
  (Z.land b 0x0F =? field) && (Z.land (Z.shiftr b 4) 0x0F =? session).

(** ** Frames and worlds of the examples *)

Definition frame_of (id : Z) (bytes : list Z) : can_frame :=
  mk_can_frame id 8 (map to_byte bytes).

(** A BAM announce of 21 bytes in 3 packets from source 0x32, tag 2. *)
Definition announce_21 : can_frame :=
  frame_of 0x98ECFF32 [0x20; 21; 0; 3; 0xFF; 0x20; 0xEF; 0x00].

(** The abort frame of the same source. *)
Definition abort_frame : can_frame :=
  frame_of 0x98ECFF32 [0xFF; 0xFF; 0xFF; 0xFF; 0xFF; 0x20; 0xEF; 0x00].

(** A BAM announce of 7 bytes that claims 3 packets. *)
Definition announce_7_in_3 : can_frame :=
  frame_of 0x98ECFF32 [0x20; 7; 0; 3; 0xFF; 0x20; 0xEF; 0x00].

(** A BAM announce whose size bytes are both 0xFF. *)
Definition announce_65535 : can_frame :=
  frame_of 0x98ECFF32 [0x20; 0xFF; 0xFF; 0xFF; 0xFF; 0x20; 0xEF; 0x00].

(** An RTS announce (tag 2) and a BAM announce (tag 6) of size 0. *)
Definition rts_of_nothing : can_frame :=
  frame_of 0x98ECFF32 [0x21; 0; 0; 0; 0xFF; 0x20; 0xEF; 0x00].

Definition bam_of_nothing : can_frame :=
  frame_of 0x98ECFF32 [0x60; 0; 0; 0; 0xFF; 0x20; 0xEF; 0x00].

(** Data frames of tag 2 from source 0x32 with sequence fields 0 to 3. *)
Definition data_seq0 : can_frame :=
  frame_of 0x98EBFF32 [0x20; 1; 2; 3; 4; 5; 6; 7].

Definition data_seq1 : can_frame :=
  frame_of 0x98EBFF32 [0x21; 1; 2; 3; 4; 5; 6; 7].

Definition data_seq2 : can_frame :=
  frame_of 0x98EBFF32 [0x22; 8; 9; 10; 11; 12; 13; 14].

Definition data_seq3 : can_frame :=
  frame_of 0x98EBFF32 [0x23; 1; 2; 3; 4; 5; 6; 7].

(** A fresh controller at address 0x10: the clock stands at 5 ms, the
    mutex is always granted, the transceiver always accepts. *)
Definition quiet_world : World :=
  World_new 0x10 (fun _ => 5) (fun _ => true) (fun _ => true).

(** The same around a controller at address 0x32. *)
Definition sender_world : World :=
  World_new 0x32 (fun _ => 5) (fun _ => true) (fun _ => true).

(** [quiet_world] after [announce_21]. *)
Definition announced_world : World :=
  exec (decode_j1939_message announce_21) quiet_world.

(** A busy bus whose deadline, 100 ms, lies after the clock, 5 ms. *)
Definition busy_world : World :=
  mkWorld (mkController 0x10 true 100 ∅ {[ 0x0232 := true ]} 0)
    (fun _ => 5) 0 (fun _ => true) 0 (fun _ => true) 0 [] [] [] 0.

Definition idle_session (last : Z) : MultiFrameMessage :=
  mkMFM [] 21 0xEF20 0x32 2 0 3 false last.

(** At 5000 ms, one session last heard at 0 ms and one at 4500 ms. *)
Definition sweep_world : World :=
  mkWorld
    (mkController 0x10 true 9000
       (<[0x0232 := idle_session 0]> (<[0x0332 := idle_session 4500]> ∅))
       {[ 0x0232 := true ]} 0)
    (fun _ => 5000) 0 (fun _ => true) 0 (fun _ => true) 0 [] [] [] 0.

(** A payload of 21 bytes. *)
Definition hello : list byte :=
  map to_byte [72; 101; 108; 108; 111; 44; 32; 74; 49; 57; 51; 57; 32;
               119; 111; 114; 108; 100; 33; 33; 10].

(** ** Invariants *)

(** [preserves I m]: running [m] in a world where [I] holds leaves a
    world where [I] holds. *)
Definition preserves {A} (I : World -> Prop) (m : M A) : Prop :=
  forall w, I w -> I (exec m w).

(** The two halves of the bus state that have to agree. *)
Definition bus_view (w : World) : bool * gmap Z bool :=
  (bus_busy (ctl w), owners w).

(** The bus is flagged busy exactly when some session owns it. *)
Definition bus_consistent (w : World) : Prop :=
  bus_busy (ctl w) = true <-> owners w <> ∅.

(** The bus is busy and its deadline lies after every reading of the
    clock. *)
Definition bus_held (w : World) : Prop :=
  bus_busy (ctl w) = true
  /\ forall n, wrap32 (timestamps w n) <= bus_busy_timeout (ctl w).

(** What a call that finds the bus held cannot touch. *)
Definition held_view (w : World)
    : Controller * (nat -> Z) * list can_frame * nat * list SinkRecord :=
  (ctl w, timestamps w, wire w, tx_calls w, stdout w).

(** The transmit side of the world. *)
Definition tx_view (w : World) : list can_frame * nat * Z * Z :=
  (wire w, tx_calls w, source_address (ctl w), session_index (ctl w)).

(** The receive side of the world. *)
Definition rx_view (w : World) : gmap Z MultiFrameMessage * list SinkRecord :=
  (table w, stdout w).

(** What a stored session always satisfies: it sits under the key of
    its own tag and source, its tag is one of the six, its buffer holds
    exactly the bytes of the packets absorbed so far, and it is not
    marked complete. *)
Definition session_sound (k : Z) (mfm : MultiFrameMessage) : Prop :=
  k = make_session_id (mfm_session_number mfm) (source_addr mfm)
  /\ is_valid_session (mfm_session_number mfm) = true
  /\ 0 <= total_size mfm <= 65535
  /\ 0 <= packets_received mfm <= total_packets mfm
  /\ Z.of_nat (length (mfm_data mfm)) =
     Z.min (7 * packets_received mfm) (total_size mfm)
  /\ complete mfm = false.

Definition table_sound (w : World) : Prop :=
  forall k mfm, table w !! k = Some mfm -> session_sound k mfm.

(** The bus mutex is never contended. *)
Definition always_granted (w : World) : Prop :=
  forall n, sem_grants w n = true.

(** The oracles: what no call can change. *)
Definition oracles (w : World) : (nat -> Z) * (nat -> bool) * (nat -> bool) :=
  (timestamps w, sem_grants w, tx_results w).

(** The burst of [P]: the announce, then the data frames. *)
Definition burst (P : list byte) (pgn sa session : Z) : list can_frame :=
  bam_frame sa pgn (Z.of_nat (length P)) session
  :: burst_frames P sa session (Z.to_nat ((Z.of_nat (length P) + 6) / 7)) 0.

(** ** What the receiver makes of a PGN *)

(** The PGN of the record a single frame sent with [pgn] produces: the
    low byte survives only from PDU format 240 on. *)
Definition received_pgn (pgn : Z) : Z :=
  let pdu_format := Z.land (Z.shiftr pgn 8) 0xFF in
  let pdu_specific := Z.land pgn 0xFF in
  if pdu_format <? 240 then Z.shiftl pdu_format 8
  else Z.lor (Z.shiftl pdu_format 8) pdu_specific.

(** The identifier [send_single_frame_message] builds. *)
Definition single_frame_id_of (pgn sa : Z) : Z :=
  Z.lor (Z.lor (Z.lor (Z.lor 0x18000000
                         (Z.shiftl (Z.land (Z.shiftr pgn 8) 0xFF) 16))
                  (Z.shiftl (Z.land pgn 0xFF) 8)) sa)
    CAN_EFF_FLAG.

(** [hex_digit] gives sixteen different characters. *)
Definition hex_digits_differ (z : Z) : bool :=
  let a := z / 16 in
  let b := z mod 16 in
  negb (Ascii.eqb (hex_digit a) (hex_digit b)) || (a =? b).

(** The index into the tag pool names one of its six tags and the
    source address is [sa]. *)
Definition sender_ok (sa : Z) (w : World) : Prop :=
  0 <= session_index (ctl w) < 6 /\ source_address (ctl w) = sa.

(** ** Keys of valid tags *)

(** [k] is the key of one of the six tags and a source-address byte. *)
Definition key_of_valid_tag (k : Z) : Prop :=
  exists session_number src_addr,
    is_valid_session session_number = true
    /\ 0 <= src_addr < 256
    /\ k = make_session_id session_number src_addr.

(** Every key of the table and every owner of the bus is such a key. *)
Definition keys_ok (w : World) : Prop :=
  (forall k mfm, table w !! k = Some mfm -> key_of_valid_tag k)
  /\ (forall k b, owners w !! k = Some b -> key_of_valid_tag k).

(** The table and the owners of the bus. *)
Definition keys_view (w : World) : gmap Z MultiFrameMessage * gmap Z bool :=
  (table w, owners w).

(** * Properties *)

(** ** The state monad *)

Lemma bind_run {A B} (m : M A) (f : A -> M B) (w : World) :
  (m ≫= f) w = f (fst (m w)) (snd (m w)).
Proof. unfold mbind, M_bind. destruct (m w); reflexivity. Qed.

Lemma exec_bind {A B} (m : M A) (f : A -> M B) (w : World) :
  exec (m ≫= f) w = exec (f (result m w)) (exec m w).
Proof. unfold exec, result. rewrite bind_run. reflexivity. Qed.

Lemma result_bind {A B} (m : M A) (f : A -> M B) (w : World) :
  result (m ≫= f) w = result (f (result m w)) (exec m w).
Proof. unfold exec, result. rewrite bind_run. reflexivity. Qed.

Lemma exec_ret {A} (a : A) (w : World) : exec (mret a : M A) w = w.
Proof. reflexivity. Qed.

Lemma result_ret {A} (a : A) (w : World) : result (mret a : M A) w = a.
Proof. reflexivity. Qed.

Lemma keeps_ret {A B} (proj : World -> B) (a : A) :
  keeps proj (mret a : M A).
Proof. intros w. reflexivity. Qed.

Lemma keeps_bind {A B C} (proj : World -> C) (m : M A) (f : A -> M B) :
  keeps proj m -> (forall a, keeps proj (f a)) -> keeps proj (m ≫= f).
Proof.
  intros Hm Hf w. rewrite exec_bind, Hf. apply Hm.
Qed.

(** ** Bytes and bit fields *)

Lemma u8_range (b : byte) : 0 <= u8 b < 256.
Proof.
  unfold u8. pose proof (Byte.to_N_bounded b) as H. lia.
Qed.

Lemma u8_to_byte (z : Z) : u8 (to_byte z) = z mod 256.
Proof.
  unfold u8, to_byte, wrap8.
  change (2 ^ 8) with 256.
  pose proof (Z.mod_pos_bound z 256 ltac:(lia)) as Hr.
  destruct (Byte.of_N (Z.to_N (z mod 256))) as [b|] eqn:E.
  - apply Byte.to_of_N in E. rewrite E. lia.
  - apply Byte.of_N_None_iff in E. lia.
Qed.

Lemma testbit_ones_low (n m : Z) :
  0 <= n -> Z.testbit (Z.ones n) m = (0 <=? m) && (m <? n).
Proof.
  intros Hn. destruct (Z.leb_spec 0 m) as [Hm|Hm]; simpl.
  - apply Z.testbit_ones_nonneg; lia.
  - apply Z.testbit_neg_r; lia.
Qed.

(** Rewrites the bit at a position into the bits of the operands. *)
Ltac bit_spec :=
  repeat first
    [ rewrite Z.lor_spec | rewrite Z.land_spec
    | rewrite Z.shiftr_spec by lia
    | rewrite Z.shiftl_spec by lia
    | rewrite testbit_ones_low by lia ].

(** Decides the comparisons and the out-of-range bits left by
    [bit_spec] once the position is confined to an interval. *)
Ltac bit_decide :=
  repeat match goal with
  | |- context [Z.testbit ?a ?i] =>
      rewrite (Z.testbit_neg_r a i) by lia
  | |- context [?a <=? ?b] =>
      first [ rewrite (proj2 (Z.leb_le a b)) by lia
            | rewrite (proj2 (Z.leb_gt a b)) by lia ]
  | |- context [?a <? ?b] =>
      first [ rewrite (proj2 (Z.ltb_lt a b)) by lia
            | rewrite (proj2 (Z.ltb_ge a b)) by lia ]
  end.

Ltac bit_index id n :=
  repeat match goal with
  | |- context [Z.testbit id ?i] =>
      lazymatch i with
      | n + 8 => fail
      | _ => replace i with (n + 8) by lia
      end
  end.

(** ** The identifier codec *)

Lemma decode_pgn_bits (id : Z) :
  decode_pgn id =
  Z.lor (Z.shiftl (Z.land (Z.shiftr id 24) 3) 16) (spec_pgn id).
Proof.
  unfold decode_pgn, spec_pgn.
  change 0xFF with (Z.ones 8). change 0x3FFFF with (Z.ones 18).
  change 3 with (Z.ones 2).
  change 0x3FF00 with (Z.shiftl (Z.ones 10) 8).
  destruct (Z.land (Z.shiftr id 16) (Z.ones 8) <? 240);
    apply Z.bits_inj'; intros n Hn; bit_spec;
    (destruct (Z.ltb_spec n 8);
      [| destruct (Z.ltb_spec n 16); [| destruct (Z.ltb_spec n 18)]]);
    bit_decide; bit_spec; bit_decide; bit_index id n;
    destruct (Z.testbit id (n + 8)); reflexivity.
Qed.

(** C3 (as amended).  For every identifier the PGN computed by decode is
    the value the specification gives, [pdu_format << 8] below 240 and
    [(pdu_format << 8) | pdu_specific] from 240 on, with the two
    data-page bits 24 and 25 of the identifier placed at bits 16 and 17;
    it is exactly the specification's value when those two bits are
    zero. *)
Theorem decode_pgn_keeps_data_page (id : Z) :
  decode_pgn id =
    Z.lor (Z.shiftl (Z.land (Z.shiftr id 24) 3) 16) (spec_pgn id)
  /\ (Z.land (Z.shiftr id 24) 3 = 0 -> decode_pgn id = spec_pgn id).
Proof.
  split; [apply decode_pgn_bits|].
  intros Hdp. rewrite decode_pgn_bits, Hdp. reflexivity.
Qed.

Lemma decode_pgn_keeps_data_page_witness :
  Z.land (Z.shiftr 0x18FEDA32 24) 3 = 0 /\ decode_pgn 0x18FEDA32 = 0xFEDA.
Proof.
  split; [reflexivity|].
  rewrite (proj2 (decode_pgn_keeps_data_page 0x18FEDA32)); reflexivity.
Defined.

(** C3 as first stated fails on a 29-bit identifier whose data-page bit
    is set: decode yields 0x1F004 where the stated formula gives 0xF004. *)
Lemma decode_pgn_data_page_counterexample :
  0 <= 0x19F00400 < 2 ^ 29
  /\ decode_pgn 0x19F00400 = 0x1F004
  /\ spec_pgn 0x19F00400 = 0xF004
  /\ decode_pgn 0x19F00400 <> spec_pgn 0x19F00400.
Proof.
  repeat split; try reflexivity; try lia; vm_compute; discriminate.
Qed.

(** ** TP.CM: the abort control byte *)

(** A control byte 0xFF carries session tag 15, which
    [is_valid_session] refuses: [parse_tp_cm] returns after the warning
    and never reaches its [control_byte == 255] branch. *)
Lemma parse_tp_cm_abort_rejected (frame : can_frame) (src_addr : Z) (w : World) :
  frame_byte frame 0 = 0xFF ->
  parse_tp_cm frame src_addr w = ESP_LOGW busy_session_warning w.
Proof.
  intros H. unfold parse_tp_cm. rewrite H.
  rewrite bind_run. reflexivity.
Qed.

(** After an announce has opened session 0x0232 and taken the bus, the
    abort frame of that source changes nothing in the controller: the
    session of tag 2 stays in the table, its key stays among the bus
    owners and the bus stays busy; the only effect is the warning. *)
Lemma abort_frame_keeps_other_sessions :
  let w1 := exec (decode_j1939_message announce_21) quiet_world in
  let w2 := exec (decode_j1939_message abort_frame) w1 in
  ctl w2 = ctl w1
  /\ is_Some (multi_frame_messages (ctl w2) !! 0x0232)
  /\ active_bam_sessions (ctl w2) !! 0x0232 = Some true
  /\ bus_busy (ctl w2) = true
  /\ esp_log w2 = esp_log w1 ++ [(LogW, busy_session_warning)].
Proof.
  vm_compute. repeat split; eauto.
Qed.

(** ** Running monadic code inside a proof *)

Ltac mrun :=
  cbv [mbind M_bind mret M_ret get_ctl modify_ctl esp_log_timestamp
       xSemaphoreTake xSemaphoreGive sendMessage printf_record esp_log_write
       ESP_LOGW ESP_LOGE vTaskDelay exec result];
  cbn [fst snd ctl timestamps ts_read sem_grants sem_taken tx_results tx_calls
       stdout wire esp_log slept source_address bus_busy bus_busy_timeout
       multi_frame_messages active_bam_sessions session_index
       set_bus_busy set_bus_busy_timeout set_multi_frame_messages
       set_active_bam_sessions set_session_index].

Tactic Notation "mrun" "in" hyp(H) :=
  cbv [mbind M_bind mret M_ret get_ctl modify_ctl esp_log_timestamp
       xSemaphoreTake xSemaphoreGive sendMessage printf_record esp_log_write
       ESP_LOGW ESP_LOGE vTaskDelay exec result] in H;
  cbn [fst snd ctl timestamps ts_read sem_grants sem_taken tx_results tx_calls
       stdout wire esp_log slept source_address bus_busy bus_busy_timeout
       multi_frame_messages active_bam_sessions session_index
       set_bus_busy set_bus_busy_timeout set_multi_frame_messages
       set_active_bam_sessions set_session_index] in H.

(** ** The bus arbiter *)

Lemma is_bus_available_granted (w : World) :
  sem_grants w (sem_taken w) = true ->
  let now := wrap32 (timestamps w (ts_read w)) in
  let w' := exec is_bus_available w in
  (bus_busy (ctl w) = false ->
     result is_bus_available w = true /\ ctl w' = ctl w)
  /\ (bus_busy (ctl w) = true -> bus_busy_timeout (ctl w) < now ->
        result is_bus_available w = true
        /\ bus_busy (ctl w') = false
        /\ active_bam_sessions (ctl w') = ∅
        /\ esp_log w' = esp_log w ++ [(LogW, bus_timeout_warning)])
  /\ (bus_busy (ctl w) = true -> now <= bus_busy_timeout (ctl w) ->
        result is_bus_available w = false /\ ctl w' = ctl w).
Proof.
  intros Hsem now w'. subst now w'.
  unfold is_bus_available. mrun. rewrite Hsem. mrun.
  split; [|split]; intros Hb; try intros Ht; rewrite Hb; mrun.
  - split; reflexivity.
  - destruct (Z.ltb_spec (bus_busy_timeout (ctl w))
                (wrap32 (timestamps w (ts_read w)))); try lia.
    mrun. repeat split; reflexivity.
  - destruct (Z.ltb_spec (bus_busy_timeout (ctl w))
                (wrap32 (timestamps w (ts_read w)))); try lia.
    mrun. repeat split; reflexivity.
Qed.

Lemma announced_size_range (frame : can_frame) :
  0 <= announced_size frame < 65536.
Proof.
  unfold announced_size, wrap16. change (2 ^ 16) with 65536.
  apply Z.mod_pos_bound. lia.
Qed.

Lemma calculated_packets_positive (size : Z) :
  0 < size < 65536 -> 0 < wrap16 ((size + 6) / 7) <= 9363.
Proof.
  intros H. unfold wrap16. change (2 ^ 16) with 65536.
  assert (1 <= (size + 6) / 7 <= 9363).
  { split; [apply Z.div_le_lower_bound | apply Z.div_le_upper_bound]; lia. }
  rewrite Z.mod_small; lia.
Qed.

(** The controller after the bus-state block of a BAM announce. *)
Lemma acquire_bus_granted (session_id tp : Z) (w : World) :
  sem_grants w (sem_taken w) = true ->
  let now := wrap32 (timestamps w (ts_read w)) in
  ctl (exec (acquire_bus session_id tp) w) =
    set_active_bam_sessions (<[session_id := true]> (active_bam_sessions (ctl w)))
      (set_bus_busy_timeout (wrap32 (now + tp * 200 + 500))
         (set_bus_busy true (ctl w))).
Proof.
  intros Hsem now. unfold acquire_bus. mrun. rewrite Hsem. mrun. reflexivity.
Qed.

Lemma open_session_bus (session_id size pgn src sn tp : Z) (w : World) :
  let c := ctl w in
  let c' := ctl (exec (open_session session_id size pgn src sn tp) w) in
  bus_busy c' = bus_busy c
  /\ bus_busy_timeout c' = bus_busy_timeout c
  /\ active_bam_sessions c' = active_bam_sessions c.
Proof. unfold open_session. mrun. repeat split. Qed.

(** What [parse_tp_cm] does with a BAM announce that passed the session
    check and announces a non-empty message. *)
Lemma parse_tp_cm_bam_run (frame : can_frame) (src_addr : Z) (w : World) :
  let sn := Z.land (Z.shiftr (frame_byte frame 0) 4) 0x0F in
  let session_id := make_session_id sn src_addr in
  let w2 := exec cleanup_stale_sessions (exec (is_session_valid sn src_addr) w) in
  result (is_session_valid sn src_addr) w = true ->
  Z.land (frame_byte frame 0) 0x0F = 0 ->
  announced_size frame <> 0 ->
  exec (parse_tp_cm frame src_addr) w =
  exec (open_session session_id (announced_size frame) (announced_pgn frame)
          src_addr sn (announced_packets frame))
    (exec (acquire_bus session_id (announced_packets frame)) w2).
Proof.
  intros sn session_id w2 Hvalid Hcode Hsize.
  unfold parse_tp_cm. fold sn. fold session_id.
  rewrite exec_bind, Hvalid. cbn [negb].
  rewrite exec_bind. fold w2. rewrite Hcode. cbn [Z.eqb].
  pose proof (announced_size_range frame) as Hr.
  pose proof (calculated_packets_positive (announced_size frame) ltac:(lia)) as Hc.
  destruct (Z.eqb_spec (announced_size frame) 0); [contradiction|].
  destruct (Z.eqb_spec (wrap16 ((announced_size frame + 6) / 7)) 0); [lia|].
  cbn [orb]. rewrite exec_bind. reflexivity.
Qed.

(** C7.  With the bus mutex taken, [is_bus_available] answers true when
    the bus is not busy and false when it is, except that a busy bus
    whose deadline lies before the current time is released by force
    ([bus_busy] cleared, owners emptied, a warning logged) and the answer
    is true.  A BAM announce that is admitted takes the bus: under the
    mutex it sets [bus_busy], records the key as owner and sets the
    deadline to now + total_packets * 200 + 500 in the 32-bit
    millisecond arithmetic of the code, where now is the clock value
    read in that block. *)
Theorem bus_arbiter_available_and_acquire
    (w : World) (frame : can_frame) (src_addr : Z) :
  (sem_grants w (sem_taken w) = true ->
   let now := wrap32 (timestamps w (ts_read w)) in
   let w' := exec is_bus_available w in
   (bus_busy (ctl w) = false ->
      result is_bus_available w = true /\ ctl w' = ctl w)
   /\ (bus_busy (ctl w) = true -> bus_busy_timeout (ctl w) < now ->
         result is_bus_available w = true
         /\ bus_busy (ctl w') = false
         /\ active_bam_sessions (ctl w') = ∅
         /\ esp_log w' = esp_log w ++ [(LogW, bus_timeout_warning)])
   /\ (bus_busy (ctl w) = true -> now <= bus_busy_timeout (ctl w) ->
         result is_bus_available w = false /\ ctl w' = ctl w))
  /\
  (let sn := Z.land (Z.shiftr (frame_byte frame 0) 4) 0x0F in
   let session_id := make_session_id sn src_addr in
   let w2 := exec cleanup_stale_sessions (exec (is_session_valid sn src_addr) w) in
   let now := wrap32 (timestamps w2 (ts_read w2)) in
   let packets := announced_packets frame in
   let w' := exec (parse_tp_cm frame src_addr) w in
   result (is_session_valid sn src_addr) w = true ->
   Z.land (frame_byte frame 0) 0x0F = 0 ->
   announced_size frame <> 0 ->
   sem_grants w2 (sem_taken w2) = true ->
   bus_busy (ctl w') = true
   /\ active_bam_sessions (ctl w') !! session_id = Some true
   /\ bus_busy_timeout (ctl w') = wrap32 (now + packets * 200 + 500)
   /\ (now + packets * 200 + 500 < 2 ^ 32 ->
       bus_busy_timeout (ctl w') = now + packets * 200 + 500)).
Proof.
  split; [apply is_bus_available_granted|].
  intros sn session_id w2 now packets w' Hvalid Hcode Hsize Hsem.
  subst w'. rewrite parse_tp_cm_bam_run by assumption.
  fold sn session_id w2 packets.
  destruct (open_session_bus session_id (announced_size frame)
              (announced_pgn frame) src_addr sn packets
              (exec (acquire_bus session_id packets) w2))
    as (Hb & Ht & Ho).
  rewrite Hb, Ht, Ho, (acquire_bus_granted _ _ _ Hsem). fold now.
  cbn [bus_busy bus_busy_timeout active_bam_sessions set_active_bam_sessions
       set_bus_busy_timeout set_bus_busy].
  repeat split.
  - apply lookup_insert_eq.
  - intros Hlt. unfold wrap32 at 1. apply Z.mod_small.
    assert (0 <= now) by (apply Z.mod_pos_bound; lia).
    assert (0 <= packets).
    { unfold packets, announced_packets.
      pose proof (u8_range (nth 3 (data frame) x00)).
      pose proof (announced_size_range frame).
      pose proof (calculated_packets_positive (announced_size frame)).
      unfold frame_byte.
      destruct (_ || _); lia. }
    lia.
Qed.

Lemma bus_arbiter_available_and_acquire_witness :
  result is_bus_available busy_world = false
  /\ bus_busy_timeout (ctl (exec (parse_tp_cm announce_21 0x32) quiet_world))
     = 5 + 3 * 200 + 500.
Proof.
  pose proof (bus_arbiter_available_and_acquire busy_world announce_21 0x32)
    as [Ha _].
  pose proof (bus_arbiter_available_and_acquire quiet_world announce_21 0x32)
    as [_ Hb].
  split.
  - apply (proj2 (proj2 (Ha eq_refl))); [reflexivity | vm_compute; discriminate].
  - apply Hb; try reflexivity; vm_compute; congruence.
Defined.

(** ** What the arbiter and the sweep leave alone *)

Create HintDb keeps.

Ltac keeps_go :=
  repeat first
    [ apply keeps_ret
    | apply keeps_bind; [ | intros ? ]
    | match goal with
      | |- keeps _ (if ?b then _ else _) => destruct b
      | |- keeps _ (match ?o with _ => _ end) => destruct o
      end
    | solve [ auto with keeps ]
    | (intros ?; reflexivity) ].

Lemma keeps_is_bus_available : keeps off_bus is_bus_available.
Proof. unfold is_bus_available. keeps_go. Qed.

Lemma keeps_release_bus k : keeps off_bus (release_bus k).
Proof. unfold release_bus. keeps_go. Qed.

Lemma keeps_acquire_bus k tp : keeps off_bus (acquire_bus k tp).
Proof. unfold acquire_bus. keeps_go. Qed.

#[export] Hint Resolve keeps_is_bus_available keeps_release_bus keeps_acquire_bus : keeps.

Lemma keeps_wait_for_bus n delay msg : keeps off_bus (wait_for_bus n delay msg).
Proof. induction n; cbn [wait_for_bus]; keeps_go. Qed.

#[export] Hint Resolve keeps_wait_for_bus : keeps.

Lemma keeps_bus_gate busy n delay msg : keeps off_bus (bus_gate busy n delay msg).
Proof. unfold bus_gate. keeps_go. Qed.

#[export] Hint Resolve keeps_bus_gate : keeps.

Lemma off_bus_surroundings {A} (m : M A) :
  keeps off_bus m -> keeps surroundings m.
Proof. intros H w. specialize (H w). unfold off_bus in H. congruence. Qed.

Lemma off_bus_table {A} (m : M A) : keeps off_bus m -> keeps table m.
Proof. intros H w. specialize (H w). unfold off_bus in H. congruence. Qed.

Lemma keeps_erase_session k : keeps surroundings (erase_session k).
Proof. unfold erase_session. keeps_go. Qed.

#[export] Hint Resolve keeps_erase_session off_bus_surroundings : keeps.

Lemma keeps_is_session_valid sn src : keeps surroundings (is_session_valid sn src).
Proof. unfold is_session_valid. keeps_go. Qed.

Lemma keeps_collect_stale now items acc :
  keeps surroundings (collect_stale now items acc).
Proof.
  revert acc. induction items as [|item rest IH]; intros acc;
    cbn [collect_stale]; keeps_go.
Qed.

Lemma keeps_remove_sessions ids : keeps surroundings (remove_sessions ids).
Proof. induction ids; cbn [remove_sessions]; keeps_go. Qed.

#[export] Hint Resolve keeps_is_session_valid keeps_collect_stale keeps_remove_sessions : keeps.

Lemma keeps_cleanup_stale_sessions : keeps surroundings cleanup_stale_sessions.
Proof. unfold cleanup_stale_sessions. keeps_go. Qed.

(** ** Transmission of one frame *)

Lemma result_sendMessage frame w :
  result (sendMessage frame) w = tx_results w (tx_calls w).
Proof. reflexivity. Qed.

Lemma result_get_ctl w : result get_ctl w = ctl w.
Proof. reflexivity. Qed.

Lemma exec_get_ctl w : exec get_ctl w = w.
Proof. reflexivity. Qed.

Lemma send_with_retry_wire n frame msg w :
  wire (exec (send_with_retry n frame msg) w) =
  if result (send_with_retry n frame msg) w then wire w ++ [frame] else wire w.
Proof.
  revert w. induction n as [|n IH]; intros w; [reflexivity|].
  cbn [send_with_retry]. rewrite exec_bind, result_bind.
  rewrite !result_sendMessage.
  destruct (tx_results w (tx_calls w)) eqn:E.
  - mrun. rewrite E. reflexivity.
  - rewrite !exec_bind, !result_bind. rewrite IH.
    mrun. rewrite E. reflexivity.
Qed.

Lemma send_with_retry_succeeds n frame msg w :
  (exists k, (k < n)%nat /\ tx_results w (tx_calls w + k) = true) ->
  result (send_with_retry n frame msg) w = true.
Proof.
  revert w. induction n as [|n IH]; intros w [k [Hk Ht]]; [lia|].
  cbn [send_with_retry]. rewrite result_bind.
  rewrite !result_sendMessage.
  destruct (tx_results w (tx_calls w)) eqn:E; [reflexivity|].
  rewrite !result_bind. apply IH.
  destruct k as [|k].
  - rewrite Nat.add_0_r in Ht. congruence.
  - exists k. split; [lia|]. mrun.
    rewrite <- Ht. f_equal. lia.
Qed.

(** The run of [send_multi_frame_message] on size 0: the announce as
    [bam_frame] builds it, and no data frame. *)
Lemma send_empty_payload_run (pgn : Z) (data : list byte) (w : World) :
  let session := nth (Z.to_nat (session_index (ctl w))) working_sessions 0 in
  let announce := bam_frame (source_address (ctl w)) pgn 0 session in
  let w' := exec (send_multi_frame_message pgn data 0) w in
  result multi_frame_gate w = true ->
  (exists k, (k < 3)%nat /\ tx_results w (tx_calls w + k) = true) ->
  result (send_multi_frame_message pgn data 0) w = true
  /\ wire w' = wire w ++ [announce].
Proof.
  intros session announce w' Hgate Htx. subst w'.
  pose proof (off_bus_surroundings _ (keeps_bus_gate _ _ _ _ : keeps off_bus multi_frame_gate) w) as Hs.
  unfold send_multi_frame_message.
  rewrite exec_bind, result_bind, Hgate. cbn [negb].
  set (w1 := exec multi_frame_gate w) in *.
  assert (Hsa : source_address (ctl w1) = source_address (ctl w)) by (injection Hs; auto).
  assert (Hsi : session_index (ctl w1) = session_index (ctl w)) by (injection Hs; auto).
  assert (Hwire : wire w1 = wire w) by (injection Hs; auto).
  assert (Htr : tx_results w1 = tx_results w) by (injection Hs; auto).
  assert (Htc : tx_calls w1 = tx_calls w) by (injection Hs; auto).
  rewrite exec_bind, result_bind, !result_get_ctl, !exec_get_ctl.
  rewrite Hsa, Hsi. fold session. fold announce.
  rewrite exec_bind, result_bind.
  rewrite exec_bind, result_bind.
  set (w2 := exec (modify_ctl _) _).
  assert (Hsent : result (send_with_retry 3 announce bam_retry_warning) w2 = true).
  { apply send_with_retry_succeeds. subst w2. mrun. rewrite Htr, Htc. exact Htx. }
  rewrite Hsent. cbn [negb].
  change (Z.to_nat (wrap16 ((0 + 6) / 7))) with 0%nat.
  cbn [send_data_frames].
  split; [reflexivity|].
  rewrite exec_bind. mrun.
  change (snd (send_with_retry 3 announce bam_retry_warning w2)) with
    (exec (send_with_retry 3 announce bam_retry_warning) w2).
  rewrite send_with_retry_wire, Hsent. subst w2. mrun. rewrite Hwire. reflexivity.
Qed.

(** C10.  Called with size 0 while the bus gate lets the call through
    and one of the three attempts to transmit the announce succeeds,
    [send_multi_frame_message] returns true and puts exactly one frame
    on the wire and no data frame.  That frame is the BAM announce: the
    extended identifier 0x18ECFF00 with the source address in its low
    byte, eight data bytes, control code 0x20 with the session tag in
    the high nibble, the two size bytes 0, the packet count 0, 0xFF and
    the three bytes of the PGN; a receiver reads from it an announced
    size of 0. *)
Theorem send_multi_frame_empty_payload (pgn : Z) (data : list byte) (w : World) :
  let session := nth (Z.to_nat (session_index (ctl w))) working_sessions 0 in
  let announce :=
    mk_can_frame
      (Z.lor (Z.lor 0x18ECFF00 (source_address (ctl w))) 0x80000000)
      8
      [ to_byte (Z.lor 0x20 (Z.shiftl (Z.land session 0x0F) 4));
        x00; x00; x00; xff;
        to_byte (Z.land pgn 0xFF);
        to_byte (Z.land (Z.shiftr pgn 8) 0xFF);
        to_byte (Z.land (Z.shiftr pgn 16) 0xFF) ] in
  let w' := exec (send_multi_frame_message pgn data 0) w in
  result multi_frame_gate w = true ->
  (exists k, (k < 3)%nat /\ tx_results w (tx_calls w + k) = true) ->
  result (send_multi_frame_message pgn data 0) w = true
  /\ wire w' = wire w ++ [announce]
  /\ frame_byte announce 1 = 0 /\ frame_byte announce 2 = 0
  /\ frame_byte announce 3 = 0
  /\ announced_size announce = 0.
Proof.
  intros session announce w' Hgate Htx.
  destruct (send_empty_payload_run pgn data w Hgate Htx) as [Hres Hwire].
  split; [exact Hres|]. split; [exact Hwire|].
  repeat split.
Qed.

Lemma send_multi_frame_empty_payload_witness :
  result (send_multi_frame_message 0xFEDA [] 0) quiet_world = true
  /\ wire (exec (send_multi_frame_message 0xFEDA [] 0) quiet_world) =
     [frame_of 0x98ECFF10 [0x20; 0; 0; 0; 0xFF; 0xDA; 0xFE; 0]].
Proof.
  destruct (send_multi_frame_empty_payload 0xFEDA [] quiet_world)
    as (Hr & Hw & _).
  - reflexivity.
  - exists 0%nat. split; [lia | reflexivity].
  - split; [exact Hr | exact Hw].
Defined.

(** ** The session table under erase and sweep *)

Lemma table_erase_session k w :
  table (exec (erase_session k) w) = delete k (table w).
Proof. reflexivity. Qed.

Lemma table_release_bus k w : table (exec (release_bus k) w) = table w.
Proof. apply (off_bus_table _ (keeps_release_bus k)). Qed.

Lemma lookup_erase_all ids m k :
  erase_all ids m !! k = if decide (k ∈ ids) then None else m !! k.
Proof.
  unfold erase_all. revert m. induction ids as [|i ids IH]; intros m; cbn [foldl].
  - destruct (decide (k ∈ [])) as [Hin|_]; [inversion Hin | reflexivity].
  - rewrite IH, lookup_delete.
    destruct (decide (k ∈ i :: ids)) as [H|H]; rewrite elem_of_cons in H;
      destruct (decide (k ∈ ids)), (decide (i = k));
      subst; try reflexivity; exfalso; intuition congruence.
Qed.

Lemma erase_all_subseteq ids m : erase_all ids m ⊆ m.
Proof.
  apply map_subseteq_spec. intros k v. rewrite lookup_erase_all.
  destruct (decide (k ∈ ids)); [discriminate | auto].
Qed.

Lemma table_remove_sessions ids w :
  table (exec (remove_sessions ids) w) = erase_all ids (table w).
Proof.
  revert w. induction ids as [|i ids IH]; intros w; [reflexivity|].
  cbn [remove_sessions]. rewrite !exec_bind, IH, table_release_bus.
  reflexivity.
Qed.

Lemma keeps_all_collect_stale now items acc :
  keeps log_free (collect_stale now items acc).
Proof.
  revert acc. induction items as [|item rest IH]; intros acc;
    cbn [collect_stale]; keeps_go.
Qed.

Lemma ctl_collect_stale now items acc w :
  ctl (exec (collect_stale now items acc) w) = ctl w.
Proof.
  pose proof (keeps_all_collect_stale now items acc w) as Hk.
  unfold log_free in Hk. congruence.
Qed.

Lemma ts_read_collect_stale now items acc w :
  ts_read (exec (collect_stale now items acc) w) = ts_read w.
Proof.
  pose proof (keeps_all_collect_stale now items acc w) as Hk.
  unfold log_free in Hk. congruence.
Qed.

Lemma result_collect_stale now items acc w :
  result (collect_stale now items acc) w =
  acc ++ map fst (List.filter (fun item => is_stale now (snd item)) items).
Proof.
  revert acc w. induction items as [|item rest IH]; intros acc w;
    cbn [collect_stale List.filter].
  - cbn. rewrite app_nil_r. reflexivity.
  - destruct (is_stale now item.2).
    + rewrite result_bind, IH. cbn [map]. rewrite <- app_assoc. reflexivity.
    + apply IH.
Qed.

(** The table after a sweep: the stale keys erased. *)
Lemma table_cleanup_stale_sessions w :
  table (exec cleanup_stale_sessions w) =
  erase_all (stale_keys (wrap32 (timestamps w (ts_read w))) (table w)) (table w).
Proof.
  unfold cleanup_stale_sessions.
  rewrite !exec_bind, table_remove_sessions, ?result_bind.
  rewrite result_collect_stale.
  unfold table at 1. rewrite ctl_collect_stale. reflexivity.
Qed.

Lemma ts_read_release_bus k w : ts_read (exec (release_bus k) w) = ts_read w.
Proof.
  assert (keeps ts_read (release_bus k)) as H by (unfold release_bus; keeps_go).
  apply H.
Qed.

Lemma ts_read_remove_sessions ids w :
  ts_read (exec (remove_sessions ids) w) = ts_read w.
Proof.
  revert w. induction ids as [|i ids IH]; intros w; [reflexivity|].
  cbn [remove_sessions]. rewrite !exec_bind, IH, ts_read_release_bus.
  reflexivity.
Qed.

Lemma ts_read_cleanup_stale_sessions w :
  ts_read (exec cleanup_stale_sessions w) = S (ts_read w).
Proof.
  unfold cleanup_stale_sessions.
  rewrite !exec_bind, ts_read_remove_sessions.
  rewrite ts_read_collect_stale. reflexivity.
Qed.

Lemma elem_of_items_in_key_order m k v :
  (k, v) ∈ items_in_key_order m <-> m !! k = Some v.
Proof.
  unfold items_in_key_order. rewrite merge_sort_Permutation.
  apply elem_of_map_to_list.
Qed.

Lemma elem_of_stale_keys now m k :
  k ∈ stale_keys now m <-> exists v, m !! k = Some v /\ is_stale now v = true.
Proof.
  unfold stale_keys. rewrite list_elem_of_fmap. split.
  - intros [[k' v] [-> Hin]]. apply list_elem_of_In, filter_In in Hin.
    destruct Hin as [Hin Hs]. apply list_elem_of_In, elem_of_items_in_key_order in Hin.
    eauto.
  - intros [v [Hl Hs]]. exists (k, v). split; [reflexivity|].
    apply list_elem_of_In, filter_In. split; [|exact Hs].
    apply list_elem_of_In, elem_of_items_in_key_order. exact Hl.
Qed.

Lemma stale_keys_nil now m :
  (forall k v, m !! k = Some v -> is_stale now v = false) ->
  stale_keys now m = [].
Proof.
  intros H. destruct (stale_keys now m) as [|k l] eqn:E; [reflexivity|].
  assert (k ∈ stale_keys now m) as Hin by (rewrite E; set_solver).
  apply elem_of_stale_keys in Hin as [v [Hl Hs]].
  rewrite (H _ _ Hl) in Hs. discriminate.
Qed.

(** C9.  Two sweeps one after the other that read the same clock value
    leave the session table as the first sweep left it: the second
    removes nothing. *)
Theorem cleanup_stale_sessions_idempotent (w : World) :
  let w1 := exec cleanup_stale_sessions w in
  let w2 := exec cleanup_stale_sessions w1 in
  timestamps w (S (ts_read w)) = timestamps w (ts_read w) ->
  multi_frame_messages (ctl w2) = multi_frame_messages (ctl w1).
Proof.
  intros w1 w2 Hnow. change (table w2 = table w1). subst w2.
  rewrite table_cleanup_stale_sessions.
  assert (Hts : timestamps w1 = timestamps w).
  { pose proof (keeps_cleanup_stale_sessions w) as Hk. fold w1 in Hk.
    injection Hk; auto. }
  assert (Hrd : ts_read w1 = S (ts_read w)) by apply ts_read_cleanup_stale_sessions.
  rewrite Hts, Hrd, Hnow.
  rewrite stale_keys_nil; [reflexivity|].
  intros k v Hl. subst w1. rewrite table_cleanup_stale_sessions in Hl.
  rewrite lookup_erase_all in Hl.
  destruct (decide (k ∈ _)) as [|Hnin]; [discriminate|].
  destruct (is_stale _ v) eqn:Hs; [|reflexivity].
  exfalso. apply Hnin. apply elem_of_stale_keys. eauto.
Qed.

Lemma cleanup_stale_sessions_idempotent_witness :
  multi_frame_messages
    (ctl (exec cleanup_stale_sessions (exec cleanup_stale_sessions sweep_world)))
  = multi_frame_messages (ctl (exec cleanup_stale_sessions sweep_world))
  /\ multi_frame_messages (ctl (exec cleanup_stale_sessions sweep_world))
     = <[0x0332 := idle_session 4500]> ∅.
Proof.
  split.
  - apply (cleanup_stale_sessions_idempotent sweep_world). reflexivity.
  - vm_compute. reflexivity.
Defined.

(** ** TP.CM: announces of an empty message *)

(** Two tables equal by computation are included in one another. *)
Ltac same_table :=
  match goal with
  | |- ?a ⊆ ?b => replace a with b by reflexivity; reflexivity
  end.

Lemma table_cleanup_subseteq w :
  table (exec cleanup_stale_sessions w) ⊆ table w.
Proof. rewrite table_cleanup_stale_sessions. apply erase_all_subseteq. Qed.

Lemma table_is_session_valid_subseteq sn src w :
  table (exec (is_session_valid sn src) w) ⊆ table w.
Proof.
  unfold is_session_valid.
  destruct (negb (is_valid_session sn)); [reflexivity|].
  rewrite exec_bind, result_get_ctl, exec_get_ctl.
  destruct (multi_frame_messages (ctl w) !! make_session_id sn src); [|reflexivity].
  rewrite exec_bind.
  destruct (SESSION_TIMEOUT_MS <? _); [|reflexivity].
  rewrite !exec_bind. rewrite exec_ret, table_release_bus, table_erase_session.
  apply delete_subseteq.
Qed.

Lemma stdout_parse_tp_cm frame src w :
  stdout (exec (parse_tp_cm frame src) w) = stdout w.
Proof.
  assert (keeps surroundings (parse_tp_cm frame src)) as H.
  { unfold parse_tp_cm, open_session. keeps_go.
    all: try apply keeps_cleanup_stale_sessions. }
  specialize (H w). unfold surroundings in H. congruence.
Qed.

(** C4 as first stated fails twice: an RTS announce of size 0 opens a
    session without any warning, and a BAM announce of size 0 arriving
    while a stale session sits in the table changes the table. *)
Lemma announce_of_nothing_counterexample :
  (announced_size rts_of_nothing = 0
   /\ multi_frame_messages (ctl (exec (parse_tp_cm rts_of_nothing 0x32) quiet_world))
        !! 0x0232 = Some (mkMFM [] 0 0xEF20 0x32 2 0 0 false 5)
   /\ esp_log (exec (parse_tp_cm rts_of_nothing 0x32) quiet_world) = [])
  /\ (announced_size bam_of_nothing = 0
      /\ multi_frame_messages (ctl sweep_world) !! 0x0232 = Some (idle_session 0)
      /\ multi_frame_messages (ctl (exec (parse_tp_cm bam_of_nothing 0x32) sweep_world))
           !! 0x0232 = None).
Proof. vm_compute. repeat split; reflexivity. Qed.

(** ** TP.DT: sequence errors and overflow *)

Lemma exec_bind_get_ctl {A} (f : Controller -> M A) (w : World) :
  exec (get_ctl ≫= f) w = exec (f (ctl w)) w.
Proof. reflexivity. Qed.

Lemma result_bind_get_ctl {A} (f : Controller -> M A) (w : World) :
  result (get_ctl ≫= f) w = result (f (ctl w)) w.
Proof. reflexivity. Qed.

Lemma land_15_range (z : Z) : 0 <= Z.land z 0x0F <= 15.
Proof.
  change (Z.land z 0x0F) with (Z.land z (Z.ones 4)).
  rewrite Z.land_ones by lia.
  pose proof (Z.mod_pos_bound z (2 ^ 4) eq_refl) as H.
  change (2 ^ 4) with 16 in *. lia.
Qed.

Lemma expected_sequence_mod (n : Z) : expected_sequence n = n mod 15 + 1.
Proof.
  unfold expected_sequence, wrap8.
  pose proof (Z.mod_pos_bound n 15 ltac:(lia)).
  destruct (Z.eqb_spec (n mod 15) 0) as [->|]; [reflexivity|].
  apply Z.mod_small. lia.
Qed.

Lemma owners_release_bus_granted k w :
  sem_grants w (sem_taken w) = true ->
  owners (exec (release_bus k) w) = delete k (owners w).
Proof.
  intros Hsem. unfold release_bus, owners. mrun. rewrite Hsem. mrun.
  destruct (active_bam_sessions (ctl w) !! k) eqn:E; mrun.
  - destruct (decide (delete k (active_bam_sessions (ctl w)) = ∅)); reflexivity.
  - symmetry. apply delete_id. exact E.
Qed.

(** C5 (as amended).  For a session in the table, a TP.DT frame whose
    sequence field is not 0 and differs from
    [(packets_received % 15) + 1] destroys the session: its table entry
    is removed, nothing is written to stdout, and, the bus mutex being
    taken, its key is removed from the bus owners. *)
Theorem out_of_sequence_destroys_session (frame : can_frame) (src_addr : Z)
    (w : World) (mfm : MultiFrameMessage) :
  let sequence_number := Z.land (frame_byte frame 0) 0x0F in
  let session_id :=
    make_session_id (Z.land (Z.shiftr (frame_byte frame 0) 4) 0x0F) src_addr in
  let w' := exec (parse_tp_dt frame src_addr) w in
  multi_frame_messages (ctl w) !! session_id = Some mfm ->
  sequence_number <> 0 ->
  sequence_number <> packets_received mfm mod 15 + 1 ->
  multi_frame_messages (ctl w') !! session_id = None
  /\ stdout w' = stdout w
  /\ (sem_grants w (sem_taken w) = true ->
      active_bam_sessions (ctl w') !! session_id = None).
Proof.
  intros sequence_number session_id w' Hlive Hnz Hseq. subst w'.
  unfold parse_tp_dt. fold sequence_number. fold session_id.
  pose proof (land_15_range (frame_byte frame 0)) as Hr. fold sequence_number in Hr.
  destruct (Z.eqb_spec sequence_number 0); [contradiction|].
  destruct (Z.ltb_spec 15 sequence_number); [lia|]. cbn [orb].
  rewrite exec_bind_get_ctl, Hlive.
  rewrite exec_bind, expected_sequence_mod.
  destruct (Z.eqb_spec sequence_number (packets_received mfm mod 15 + 1));
    [contradiction|]. cbn [negb].
  rewrite !exec_bind.
  split; [|split].
  - change (table (exec (release_bus session_id)
       (exec (erase_session session_id)
          (exec (ESP_LOGW sequence_warning) (exec esp_log_timestamp w))))
       !! session_id = None).
    rewrite table_release_bus, table_erase_session. apply lookup_delete_eq.
  - pose proof (off_bus_surroundings _ (keeps_release_bus session_id)
      (exec (erase_session session_id)
          (exec (ESP_LOGW sequence_warning) (exec esp_log_timestamp w)))) as Hk.
    unfold surroundings in Hk. injection Hk as _ _ Hout _ _ _ _ _.
    exact Hout.
  - intros Hsem.
    change (owners (exec (release_bus session_id)
       (exec (erase_session session_id)
          (exec (ESP_LOGW sequence_warning) (exec esp_log_timestamp w))))
       !! session_id = None).
    rewrite owners_release_bus_granted by exact Hsem. apply lookup_delete_eq.
Qed.

(** C5 as first stated fails for sequence field 0: with no packet
    received the expected field is 1, the frame is dropped by the range
    check and the session and its bus ownership stay. *)
Lemma sequence_zero_counterexample :
  let w' := exec (decode_j1939_message data_seq0) announced_world in
  (exists mfm, multi_frame_messages (ctl announced_world) !! 0x0232 = Some mfm
     /\ Z.land (frame_byte data_seq0 0) 0x0F <> packets_received mfm mod 15 + 1)
  /\ is_Some (multi_frame_messages (ctl w') !! 0x0232)
  /\ active_bam_sessions (ctl w') !! 0x0232 = Some true.
Proof.
  vm_compute. repeat split; eauto.
  eexists. split; [reflexivity|]. discriminate.
Qed.

Lemma out_of_sequence_destroys_session_witness :
  let w' := exec (parse_tp_dt data_seq3 0x32) announced_world in
  multi_frame_messages (ctl w') !! 0x0232 = None
  /\ stdout w' = []
  /\ active_bam_sessions (ctl w') !! 0x0232 = None.
Proof.
  destruct (out_of_sequence_destroys_session data_seq3 0x32 announced_world
              (mkMFM [] 21 0xEF20 0x32 2 0 3 false 5))
    as (Ht & Hs & Ho).
  - reflexivity.
  - vm_compute. discriminate.
  - vm_compute. discriminate.
  - split; [exact Ht|]. split; [exact Hs|]. apply Ho. reflexivity.
Defined.

(** The overflow path of [parse_tp_dt]: a frame in sequence that finds
    [packets_received * 7 >= total_size] erases the session and leaves
    the bus flag, the deadline and the owners as they are. *)
Lemma parse_tp_dt_overflow (frame : can_frame) (src_addr : Z) (w : World)
    (mfm : MultiFrameMessage) :
  let sequence_number := Z.land (frame_byte frame 0) 0x0F in
  let session_id :=
    make_session_id (Z.land (Z.shiftr (frame_byte frame 0) 4) 0x0F) src_addr in
  let w' := exec (parse_tp_dt frame src_addr) w in
  multi_frame_messages (ctl w) !! session_id = Some mfm ->
  sequence_number <> 0 ->
  sequence_number = packets_received mfm mod 15 + 1 ->
  total_size mfm <= packets_received mfm * 7 ->
  multi_frame_messages (ctl w') !! session_id = None
  /\ active_bam_sessions (ctl w') = active_bam_sessions (ctl w)
  /\ bus_busy (ctl w') = bus_busy (ctl w)
  /\ bus_busy_timeout (ctl w') = bus_busy_timeout (ctl w).
Proof.
  intros sequence_number session_id w' Hlive Hnz Hseq Hover. subst w'.
  unfold parse_tp_dt. fold sequence_number. fold session_id.
  pose proof (land_15_range (frame_byte frame 0)) as Hr. fold sequence_number in Hr.
  destruct (Z.eqb_spec sequence_number 0); [contradiction|].
  destruct (Z.ltb_spec 15 sequence_number); [lia|]. cbn [orb].
  rewrite exec_bind_get_ctl, Hlive.
  rewrite exec_bind, expected_sequence_mod.
  destruct (Z.eqb_spec sequence_number (packets_received mfm mod 15 + 1));
    [|contradiction]. cbn [negb].
  destruct (Z.leb_spec (total_size mfm) (packets_received mfm * 7)); [|lia].
  unfold erase_session. mrun. repeat split. apply lookup_delete_eq.
Qed.

(** C6.  The announce takes the bus for key 0x0232; the first data
    frame fills the 7 announced bytes; the second finds
    [packets_received * 7 >= total_size], and the session is erased
    while its key stays among the bus owners and the bus stays busy. *)
Theorem overflow_keeps_bus_owner :
  let w' := exec (decode_all [announce_7_in_3; data_seq1; data_seq2]) quiet_world in
  multi_frame_messages (ctl w') !! 0x0232 = None
  /\ active_bam_sessions (ctl w') !! 0x0232 = Some true
  /\ bus_busy (ctl w') = true
  /\ stdout w' = []
  /\ last (esp_log w') = Some (LogW, "Data position exceeds message size"%string).
Proof. vm_compute. repeat split; reflexivity. Qed.

(** ** Bounded reassembly buffers *)

Lemma table_ok_subseteq w w' : table w' ⊆ table w -> table_ok w -> table_ok w'.
Proof.
  intros Hsub Hok k mfm Hl. apply (Hok k).
  eapply lookup_weaken; eassumption.
Qed.

Lemma table_ok_same w w' : table w' = table w -> table_ok w -> table_ok w'.
Proof. intros Heq. apply table_ok_subseteq. rewrite Heq. reflexivity. Qed.

Lemma length_store_bytes buf start bytes :
  length (store_bytes buf start bytes) =
  Nat.max (length buf) (start + length bytes).
Proof.
  unfold store_bytes.
  destruct (Nat.ltb_spec (length buf) (start + length bytes)).
  - rewrite !length_app, length_take, length_drop, length_resize. lia.
  - rewrite !length_app, length_take, length_drop. lia.
Qed.

Lemma length_frame_bytes frame off n : length (frame_bytes frame off n) = n.
Proof. unfold frame_bytes. rewrite length_map, length_seq. reflexivity. Qed.

Lemma table_ok_open_session k size pgn src sn tp w :
  0 <= size <= 65535 -> table_ok w ->
  table_ok (exec (open_session k size pgn src sn tp) w).
Proof.
  intros Hsize Hok k' mfm. unfold open_session, table. mrun.
  rewrite lookup_insert. destruct (decide (k = k')).
  - intros [= <-]. unfold session_ok. cbn. lia.
  - apply Hok.
Qed.

Lemma table_ok_parse_tp_cm frame src w :
  table_ok w -> table_ok (exec (parse_tp_cm frame src) w).
Proof.
  intros Hok. unfold parse_tp_cm. rewrite exec_bind.
  assert (table_ok (exec (is_session_valid (Z.land (frame_byte frame 0 ≫ 4) 15) src) w)) as H1.
  { eapply table_ok_subseteq; [apply table_is_session_valid_subseteq | exact Hok]. }
  destruct (result (is_session_valid _ src) w); cbn [negb]; [|exact H1].
  rewrite exec_bind.
  assert (table_ok (exec cleanup_stale_sessions
            (exec (is_session_valid (Z.land (frame_byte frame 0 ≫ 4) 15) src) w))) as H2.
  { eapply table_ok_subseteq; [apply table_cleanup_subseteq | exact H1]. }
  pose proof (announced_size_range frame) as Hr.
  destruct (Z.land (frame_byte frame 0) 15 =? 0).
  - destruct (_ || _); [exact H2|].
    rewrite exec_bind. apply table_ok_open_session; [lia|].
    eapply table_ok_same; [|exact H2].
    apply (off_bus_table _ (keeps_acquire_bus _ _)).
  - destruct (Z.land (frame_byte frame 0) 15 =? 1).
    + apply table_ok_open_session; [lia | exact H2].
    + destruct (frame_byte frame 0 =? 255); [|exact H2].
      rewrite exec_bind. eapply table_ok_subseteq; [|exact H2].
      rewrite table_release_bus, table_erase_session. apply delete_subseteq.
Qed.

(** A data frame keeps every buffer within its announced size. *)
Lemma table_ok_parse_tp_dt frame src w :
  table_ok w -> table_ok (exec (parse_tp_dt frame src) w).
Proof.
  intros Hok. unfold parse_tp_dt.
  destruct (_ || _); [exact Hok|].
  rewrite exec_bind_get_ctl.
  set (session_id := make_session_id _ src).
  destruct (multi_frame_messages (ctl w) !! session_id) as [mfm|] eqn:Hl;
    [|exact Hok].
  destruct (Hok _ _ Hl) as (Hpr & Hlen & Hts).
  rewrite exec_bind.
  destruct (negb _).
  { rewrite !exec_bind. eapply table_ok_subseteq; [|exact Hok].
    rewrite table_release_bus, table_erase_session. apply delete_subseteq. }
  destruct (Z.leb_spec (total_size mfm) (packets_received mfm * 7)) as [|Hstart].
  { rewrite !exec_bind. eapply table_ok_subseteq; [|exact Hok].
    rewrite table_erase_session. apply delete_subseteq. }
  cbn [total_packets packets_received].
  destruct (total_packets mfm <=? wrap16 (packets_received mfm + 1)).
  { rewrite !exec_bind. eapply table_ok_subseteq; [|exact Hok].
    rewrite table_release_bus, table_erase_session. apply delete_subseteq. }
  intros k' m'. unfold table. mrun. rewrite lookup_insert.
  destruct (decide (session_id = k')); [|apply Hok].
  intros [= <-]. unfold session_ok. cbn [packets_received mfm_data total_size].
  rewrite length_store_bytes, length_frame_bytes.
  split; [apply Z.mod_pos_bound; lia|].
  split; [|exact Hts].
  destruct (Z.ltb_spec (total_size mfm - packets_received mfm * 7) 7); lia.
Qed.

Lemma table_ok_decode frame w :
  table_ok w -> table_ok (exec (decode_j1939_message frame) w).
Proof.
  intros Hok. unfold decode_j1939_message.
  destruct (_ =? 0); [exact Hok|].
  destruct (_ =? PGN_TP_CM); [apply table_ok_parse_tp_cm; exact Hok|].
  destruct (_ =? PGN_TP_DT); [apply table_ok_parse_tp_dt; exact Hok|].
  destruct (_ =? PGN_REQUEST); exact Hok.
Qed.

Lemma keeps_table_send_with_retry n frame msg :
  keeps table (send_with_retry n frame msg).
Proof. induction n; cbn [send_with_retry]; keeps_go. Qed.

#[export] Hint Resolve keeps_table_send_with_retry off_bus_table : keeps.

Lemma keeps_table_send_data_frames n seq size sess payload :
  keeps table (send_data_frames n seq size sess payload).
Proof.
  revert seq. induction n; intros seq; cbn [send_data_frames]; keeps_go.
Qed.

#[export] Hint Resolve keeps_table_send_data_frames : keeps.

Lemma keeps_table_send_single pgn dst payload len :
  keeps table (send_single_frame_message pgn dst payload len).
Proof. unfold send_single_frame_message, single_frame_gate. keeps_go. Qed.

Lemma keeps_table_send_multi pgn payload size :
  keeps table (send_multi_frame_message pgn payload size).
Proof. unfold send_multi_frame_message, multi_frame_gate. keeps_go. Qed.

Lemma table_ok_run_operation op w :
  table_ok w -> table_ok (exec (run_operation op) w).
Proof.
  intros Hok. destruct op; cbn [run_operation].
  - apply table_ok_decode; exact Hok.
  - eapply table_ok_subseteq; [apply table_cleanup_subseteq | exact Hok].
  - rewrite exec_bind. eapply table_ok_same; [|exact Hok].
    apply (off_bus_table _ keeps_is_bus_available).
  - rewrite exec_bind. eapply table_ok_same; [|exact Hok].
    apply keeps_table_send_single.
  - rewrite exec_bind. eapply table_ok_same; [|exact Hok].
    apply keeps_table_send_multi.
Qed.

Lemma table_ok_run_operations ops w :
  table_ok w -> table_ok (exec (run_operations ops) w).
Proof.
  revert w. induction ops as [|op ops IH]; intros w Hok; [exact Hok|].
  cbn [run_operations]. rewrite exec_bind. apply IH, table_ok_run_operation, Hok.
Qed.

(** C8 (as amended).  Whatever operations a freshly constructed
    controller has gone through, every session in its table holds a
    buffer no longer than its [total_size], and [total_size] is at most
    65535, the largest value the two size bytes of an announce can
    carry. *)
Theorem session_buffers_bounded (source : Z) (ts : nat -> Z)
    (sem tx : nat -> bool) (ops : list Operation) (k : Z)
    (mfm : MultiFrameMessage) :
  let w := exec (run_operations ops) (World_new source ts sem tx) in
  multi_frame_messages (ctl w) !! k = Some mfm ->
  Z.of_nat (length (mfm_data mfm)) <= total_size mfm
  /\ total_size mfm <= 65535.
Proof.
  intros w Hl.
  assert (table_ok w) as Hok.
  { apply table_ok_run_operations. intros k' m' Hl'. discriminate. }
  destruct (Hok _ _ Hl) as (_ & H1 & H2). split; assumption.
Qed.

(** C8 as first stated fails on the bound 1785: an announce whose size
    bytes are 0xFF 0xFF opens a session with [total_size] 65535. *)
Lemma total_size_counterexample :
  exists mfm,
    multi_frame_messages
      (ctl (exec (run_operations [Receive announce_65535]) quiet_world))
      !! 0x0232 = Some mfm
    /\ total_size mfm = 65535 /\ ~ total_size mfm <= 1785.
Proof.
  eexists. split; [vm_compute; reflexivity|]. split; [reflexivity|].
  cbn. lia.
Qed.

Lemma session_buffers_bounded_witness :
  exists mfm,
    multi_frame_messages
      (ctl (exec (run_operations [Receive announce_21; Receive data_seq1])
              quiet_world)) !! 0x0232 = Some mfm
    /\ Z.of_nat (length (mfm_data mfm)) <= total_size mfm
    /\ total_size mfm <= 65535.
Proof.
  eexists. split; [vm_compute; reflexivity|].
  apply (session_buffers_bounded 0x10 (fun _ => 5) (fun _ => true)
           (fun _ => true) [Receive announce_21; Receive data_seq1] 0x0232).
  vm_compute. reflexivity.
Defined.

(** ** Round trip: checks by enumeration *)

Lemma check_from_sound (p : Z -> bool) (n : nat) (z0 z : Z) :
  check_from p z0 n = true -> z0 <= z < z0 + Z.of_nat n -> p z = true.
Proof.
  revert z0. induction n as [|n IH]; intros z0 Hc Hz; [lia|].
  cbn [check_from] in Hc. apply andb_prop in Hc as [H0 Hrest].
  destruct (Z.eq_dec z z0) as [->|Hne]; [exact H0|].
  apply (IH (z0 + 1)); [exact Hrest | lia].
Qed.

(** The identifiers of announce and data frames, as decode takes them
    apart. *)
Lemma transport_id (base pgn sa : Z) :
  check_from (ext_id_ok base pgn) 0 256 = true ->
  0 <= sa < 256 ->
  let id := Z.lor (Z.lor (Z.lor base (Z.shiftl 0xFF 8)) sa) CAN_EFF_FLAG in
  (Z.land id CAN_EFF_FLAG =? 0) = false
  /\ Z.land (Z.land id CAN_EFF_MASK) 0xFF = sa
  /\ decode_pgn (Z.land id CAN_EFF_MASK) = pgn.
Proof.
  intros Hc Hsa id.
  pose proof (check_from_sound _ _ _ sa Hc ltac:(lia)) as H.
  unfold ext_id_ok in H. fold id in H.
  apply andb_prop in H as [H H3]. apply andb_prop in H as [H1 H2].
  apply negb_true_iff in H1. apply Z.eqb_eq in H2, H3. auto.
Qed.

Lemma first_byte_fields (field session : Z) :
  0 <= field < 16 -> 0 <= session < 16 ->
  let b := u8 (to_byte (Z.lor field (Z.shiftl (Z.land session 0x0F) 4))) in
  Z.land b 0x0F = field /\ Z.land (Z.shiftr b 4) 0x0F = session.
Proof.
  intros Hf Hs b.
  assert (check_from first_byte_ok 0 256 = true) as Hc by (vm_compute; reflexivity).
  pose proof (check_from_sound _ _ _ (session * 16 + field) Hc ltac:(lia)) as H.
  unfold first_byte_ok in H.
  replace ((session * 16 + field) mod 16) with field in H
    by (symmetry; rewrite Z.add_comm, Z.mod_add by lia; apply Z.mod_small; lia).
  replace ((session * 16 + field) / 16) with session in H
    by (symmetry; rewrite Z.add_comm, Z.div_add by lia;
        rewrite Z.div_small by lia; lia).
  fold b in H. apply andb_prop in H as [H1 H2].
  apply Z.eqb_eq in H1, H2. auto.
Qed.

(** ** Round trip: byte fields *)

(** A field shifted above the bits of another is added to it by [lor]. *)
Lemma lor_shiftl_add (a b n : Z) :
  0 <= n -> 0 <= b < 2 ^ n -> Z.lor (Z.shiftl a n) b = a * 2 ^ n + b.
Proof.
  intros Hn Hb.
  assert (Z.land (Z.shiftl a n) b = 0) as Hdisjoint.
  { apply Z.bits_inj'. intros i Hi. rewrite Z.land_spec, Z.bits_0.
    destruct (Z.lt_ge_cases i n).
    - rewrite Z.shiftl_spec_low by lia. reflexivity.
    - replace b with (b mod 2 ^ n) by (apply Z.mod_small; lia).
      rewrite Z.mod_pow2_bits_high by lia. apply andb_false_r. }
  pose proof (Z.add_lor_land (Z.shiftl a n) b) as Hadd.
  rewrite Hdisjoint in Hadd. rewrite Z.shiftl_mul_pow2 in * by lia. lia.
Qed.

Lemma land_255 (z : Z) : Z.land z 0xFF = z mod 256.
Proof.
  change 0xFF with (Z.ones 8). rewrite (Z.land_ones z 8) by lia. reflexivity.
Qed.

Lemma shiftr_8 (z : Z) : Z.shiftr z 8 = z / 256.
Proof. rewrite (Z.shiftr_div_pow2 z 8) by lia. reflexivity. Qed.

Lemma shiftr_16 (z : Z) : Z.shiftr z 16 = z / 65536.
Proof. rewrite (Z.shiftr_div_pow2 z 16) by lia. reflexivity. Qed.

Lemma packet_count_bounds (size : Z) :
  0 < size < 65536 ->
  1 <= (size + 6) / 7 <= 9363
  /\ 7 * ((size + 6) / 7 - 1) < size <= 7 * ((size + 6) / 7).
Proof. intros H. Z.div_mod_to_equations. lia. Qed.

Section Announce.
Variables (sa pgn size session : Z).
Hypothesis size_range : 0 < size < 65536.

Let f := bam_frame sa pgn size session.
Let tp := (size + 6) / 7.

Lemma announced_size_bam_frame : announced_size f = size.
Proof.
  unfold announced_size, f, bam_frame, frame_byte. cbn [data nth].
  rewrite !u8_to_byte, !land_255, shiftr_8, !Z.mod_mod by lia.
  pose proof (Z.mod_pos_bound size 256 eq_refl) as Hlo.
  rewrite Z.lor_comm, (lor_shiftl_add _ _ 8)
    by (change (2 ^ 8) with 256; lia).
  unfold wrap16. change (2 ^ 8) with 256. change (2 ^ 16) with 65536.
  rewrite Z.mod_small; Z.div_mod_to_equations; lia.
Qed.

Lemma announced_packets_bam_frame : announced_packets f = tp.
Proof.
  unfold announced_packets. rewrite announced_size_bam_frame.
  unfold f, bam_frame, frame_byte. cbn [data nth].
  pose proof (packet_count_bounds size size_range) as [Ht _]. fold tp in Ht. fold tp.
  assert (wrap16 tp = tp) as -> by (apply Z.mod_small; change (2 ^ 16) with 65536; lia).
  destruct (Z.ltb_spec 255 tp).
  - reflexivity.
  - rewrite u8_to_byte, land_255, Z.mod_mod, Z.mod_small by lia.
    destruct (Z.eqb_spec tp 255) as [->|]; [reflexivity|].
    destruct (Z.eqb_spec tp 0); [lia|]. reflexivity.
Qed.
End Announce.

(** ** Round trip: the frames of a burst *)

Lemma frame_bytes_middle (id dlc : Z) (b0 : byte) (l pad : list byte) :
  frame_bytes (mk_can_frame id dlc (b0 :: l ++ pad)) 1 (length l) = l.
Proof.
  unfold frame_bytes. cbn [data].
  apply nth_ext with (d := x00) (d' := x00).
  - rewrite length_map, length_seq. reflexivity.
  - intros i Hi. rewrite length_map, length_seq in Hi.
    rewrite (nth_indep _ x00 (nth 0%nat (b0 :: l ++ pad) x00))
      by (rewrite length_map, length_seq; exact Hi).
    rewrite (map_nth (fun i => nth i (b0 :: l ++ pad) x00)).
    rewrite seq_nth by exact Hi. cbn [Nat.add nth].
    apply app_nth1. exact Hi.
Qed.

Lemma store_bytes_append (P : list byte) (n m : nat) :
  (n + m <= length P)%nat ->
  store_bytes (take n P) n (take m (drop n P)) = take (n + m) P.
Proof.
  intros Hlen. unfold store_bytes.
  assert (length (take n P) = n) as Hn by (rewrite length_take; lia).
  assert (length (take m (drop n P)) = m) as Hm
    by (rewrite length_take, length_drop; lia).
  rewrite Hn, Hm.
  destruct (Nat.ltb_spec n (n + m)).
  - rewrite take_resize_le by lia.
    rewrite resize_all_alt by (symmetry; exact Hn).
    rewrite (drop_ge (resize _ _ _)) by (rewrite length_resize; lia).
    rewrite app_nil_r. apply take_take_drop.
  - assert (m = 0)%nat as -> by lia.
    rewrite Nat.add_0_r. cbn [take app]. apply take_drop.
Qed.

Lemma valid_session_cases (s : Z) :
  is_valid_session s = true ->
  s = 2 \/ s = 3 \/ s = 6 \/ s = 7 \/ s = 10 \/ s = 11.
Proof.
  unfold is_valid_session, SESSION_A, SESSION_B, SESSION_C, SESSION_D,
    SESSION_E, SESSION_F.
  intros H. repeat (apply orb_prop in H as [H|H]); apply Z.eqb_eq in H; auto 7.
Qed.

Lemma working_session_valid (i : Z) :
  0 <= i < 6 -> is_valid_session (nth (Z.to_nat i) working_sessions 0) = true.
Proof.
  intros Hi.
  assert (i = 0 \/ i = 1 \/ i = 2 \/ i = 3 \/ i = 4 \/ i = 5) as Hc by lia.
  destruct Hc as [->|[->|[->|[->|[->| ->]]]]]; reflexivity.
Qed.

Lemma seq_field_range (seq : Z) : 1 <= seq_field seq <= 15.
Proof. unfold seq_field. Z.div_mod_to_equations. lia. Qed.

Lemma seq_to_send_field (seq : Z) :
  1 <= seq -> seq_to_send seq = seq_field seq.
Proof.
  intros Hseq. unfold seq_to_send, seq_field, wrap8. change (2 ^ 8) with 256.
  destruct (Z.ltb_spec 15 seq).
  - rewrite Z.mod_small; [reflexivity|]. Z.div_mod_to_equations. lia.
  - rewrite (Z.mod_small (seq - 1) 15) by lia. rewrite Z.mod_small; lia.
Qed.

Lemma keeps_ctl_send_with_retry n frame msg :
  keeps ctl (send_with_retry n frame msg).
Proof. induction n; cbn [send_with_retry]; keeps_go. Qed.

Lemma bam_control_byte (sa pgn size s : Z) :
  is_valid_session s = true ->
  let control_byte := frame_byte (bam_frame sa pgn size s) 0 in
  Z.land control_byte 0x0F = 0 /\ Z.land (Z.shiftr control_byte 4) 0x0F = s.
Proof.
  intros H. unfold frame_byte, bam_frame. cbn [data nth].
  destruct (valid_session_cases s H) as [->|[->|[->|[->|[->| ->]]]]];
    split; reflexivity.
Qed.

Lemma transport_cm_id_check : check_from (ext_id_ok 0x18EC0000 PGN_TP_CM) 0 256 = true.
Proof. vm_compute. reflexivity. Qed.

Lemma transport_dt_id_check : check_from (ext_id_ok 0x18EB0000 PGN_TP_DT) 0 256 = true.
Proof. vm_compute. reflexivity. Qed.

Section RoundTrip.
Variables (P : list byte) (pgn sa session : Z).
Hypothesis P_range : 0 < Z.of_nat (length P) < 65536.
Hypothesis sa_range : 0 <= sa < 256.
Hypothesis session_valid : is_valid_session session = true.

Let size := Z.of_nat (length P).
Let tp := (size + 6) / 7.
Let key := make_session_id session sa.

Lemma tp_bounds : 1 <= tp <= 9363 /\ 7 * (tp - 1) < size <= 7 * tp.
Proof. exact (packet_count_bounds size P_range). Qed.

Lemma session_range : 0 <= session < 16.
Proof. destruct (valid_session_cases _ session_valid) as [?|[?|[?|[?|[?|?]]]]]; lia. Qed.

Lemma chunk_range k : 0 <= k < tp -> 0 < chunk P k <= 7 /\ k * 7 + chunk P k <= size.
Proof.
  intros Hk. pose proof tp_bounds. unfold chunk. fold size.
  destruct (Z.ltb_spec (size - k * 7) 7); lia.
Qed.

Lemma burst_frame_data k :
  0 <= k < tp ->
  data (burst_frame P sa session k) =
  to_byte (Z.lor (seq_field (k + 1)) (Z.shiftl (Z.land session 0x0F) 4))
  :: take (Z.to_nat (chunk P k)) (drop (Z.to_nat (k * 7)) P)
  ++ replicate (Z.to_nat (7 - chunk P k)) xff.
Proof.
  intros Hk. pose proof tp_bounds. pose proof (chunk_range k Hk) as Hc.
  unfold burst_frame, data_frame. cbn [data]. fold size.
  replace (k + 1 - 1) with k by lia.
  assert (wrap16 (k * 7) = k * 7) as ->
    by (apply Z.mod_small; change (2 ^ 16) with 65536; lia).
  assert ((if size <? k * 7 + 7 then wrap8 (size - k * 7) else 7) = chunk P k) as ->.
  { unfold chunk. fold size. unfold wrap8. change (2 ^ 8) with 256.
    destruct (Z.ltb_spec size (k * 7 + 7)), (Z.ltb_spec (size - k * 7) 7);
      try lia. apply Z.mod_small. lia. }
  reflexivity.
Qed.

Lemma burst_frame_payload k :
  0 <= k < tp ->
  frame_bytes (burst_frame P sa session k) 1 (Z.to_nat (chunk P k)) =
  take (Z.to_nat (chunk P k)) (drop (Z.to_nat (k * 7)) P).
Proof.
  intros Hk. pose proof (chunk_range k Hk) as Hc. unfold size in Hc.
  pose proof (burst_frame_data k Hk) as Hd.
  destruct (burst_frame P sa session k) as [id dlc bytes]. cbn [data] in Hd. subst bytes.
  set (l := take (Z.to_nat (chunk P k)) (drop (Z.to_nat (k * 7)) P)).
  assert (length l = Z.to_nat (chunk P k)) as <-
    by (unfold l; rewrite length_take, length_drop; lia).
  apply frame_bytes_middle.
Qed.

(** A data loop that returns true has put its frames on the wire, one
    each and in order. *)
Lemma send_data_frames_wire n : forall k w,
  0 <= k -> k + Z.of_nat n <= 65534 ->
  source_address (ctl w) = sa ->
  result (send_data_frames n (k + 1) size session P) w = true ->
  wire (exec (send_data_frames n (k + 1) size session P) w) =
  wire w ++ burst_frames P sa session n k.
Proof.
  induction n as [|n IH]; intros k w Hk Hn Hsa Hres.
  { cbn. rewrite app_nil_r. reflexivity. }
  cbn [send_data_frames burst_frames] in *.
  pose proof (seq_field_range (k + 1)) as Hf.
  rewrite seq_to_send_field in * by lia.
  destruct (Z.ltb_spec (seq_field (k + 1)) 1); [lia|].
  destruct (Z.ltb_spec 15 (seq_field (k + 1))); [lia|].
  cbn [orb] in *.
  rewrite exec_bind, exec_bind_get_ctl in *.
  rewrite result_bind, result_bind_get_ctl in Hres.
  rewrite exec_ret, result_ret in *. rewrite Hsa in *.
  change (data_frame sa size session (k + 1) (seq_field (k + 1)) P)
  with (burst_frame P sa session k) in *.
  rewrite exec_bind in *. rewrite result_bind in Hres.
  pose proof (send_with_retry_wire 3 (burst_frame P sa session k) packet_retry_warning w) as Hw.
  pose proof (keeps_ctl_send_with_retry 3 (burst_frame P sa session k) packet_retry_warning w) as Hc.
  destruct (result (send_with_retry 3 (burst_frame P sa session k) packet_retry_warning) w);
    cbn [negb] in *.
  2: { rewrite result_bind in Hres. discriminate Hres. }
  rewrite exec_bind in *. rewrite result_bind in Hres.
  assert (wrap16 (k + 1 + 1) = k + 1 + 1) as Hwrap
    by (apply Z.mod_small; change (2 ^ 16) with 65536; lia).
  rewrite Hwrap in *.
  rewrite IH; [| lia | lia | | exact Hres].
  - change (wire (exec (vTaskDelay 50) ?w0)) with (wire w0).
    rewrite Hw, <- app_assoc. reflexivity.
  - change (ctl (exec (vTaskDelay 50) ?w0)) with (ctl w0).
    rewrite Hc. exact Hsa.
Qed.

(** PGN, as the receiver reads it from the announce. *)
Let rpgn := announced_pgn (bam_frame sa pgn size session).

(** What the receiver does with data frame number [k + 1] when it has
    absorbed the [k] frames before it. *)
Lemma decode_burst_frame k w mfm :
  0 <= k < tp ->
  multi_frame_messages (ctl w) !! key = Some mfm ->
  mfm_data mfm = take (Z.to_nat (k * 7)) P ->
  total_size mfm = size ->
  packets_received mfm = k ->
  total_packets mfm = tp ->
  exec (decode_j1939_message (burst_frame P sa session k)) w =
  exec
    (let mfm' :=
       mkMFM (take (Z.to_nat ((k + 1) * 7)) P) size (mfm_pgn mfm)
         (source_addr mfm) (mfm_session_number mfm) (k + 1) tp
         (complete mfm) (result esp_log_timestamp w) in
     if tp <=? k + 1 then
       _ ← process_complete_message mfm';
       _ ← erase_session key;
       release_bus key
     else
       modify_ctl (fun c =>
         set_multi_frame_messages
           (<[key := mfm']> (multi_frame_messages c)) c))
    (exec esp_log_timestamp w).
Proof.
  intros Hk Hl Hdata Hsize Hpr Htp.
  pose proof tp_bounds as Hb. pose proof (chunk_range k Hk) as Hc.
  pose proof session_range as Hs.
  pose proof (seq_field_range (k + 1)) as Hf.
  destruct (transport_id _ _ sa transport_dt_id_check sa_range)
    as (Hflag & Hsrc & Hpgn).
  unfold decode_j1939_message.
  change (can_id (burst_frame P sa session k)) with
    (Z.lor (Z.lor (Z.lor 0x18EB0000 (Z.shiftl 0xFF 8)) sa) CAN_EFF_FLAG).
  rewrite Hflag, Hsrc, Hpgn.
  change (PGN_TP_DT =? PGN_TP_CM) with false.
  change (PGN_TP_DT =? PGN_TP_DT) with true. cbn iota.
  unfold parse_tp_dt.
  assert (frame_byte (burst_frame P sa session k) 0 =
          u8 (to_byte (Z.lor (seq_field (k + 1))
                         (Z.shiftl (Z.land session 0x0F) 4)))) as Hfirst
    by reflexivity.
  rewrite Hfirst.
  destruct (first_byte_fields (seq_field (k + 1)) session ltac:(lia) Hs)
    as [Hfield Hsess].
  rewrite Hfield, Hsess. fold key.
  destruct (Z.eqb_spec (seq_field (k + 1)) 0); [lia|].
  destruct (Z.ltb_spec 15 (seq_field (k + 1))); [lia|]. cbn [orb].
  rewrite exec_bind_get_ctl, Hl, exec_bind.
  rewrite Hpr, Hsize, Htp, Hdata, expected_sequence_mod.
  unfold seq_field at 1. replace (k + 1 - 1) with k by lia.
  rewrite Z.eqb_refl. cbn [negb].
  destruct (Z.leb_spec size (k * 7)); [lia|].
  change (if size - k * 7 <? 7 then size - k * 7 else 7) with (chunk P k).
  rewrite burst_frame_payload by exact Hk.
  rewrite store_bytes_append by (unfold size in *; lia).
  assert (take (Z.to_nat (k * 7) + Z.to_nat (chunk P k)) P =
          take (Z.to_nat ((k + 1) * 7)) P) as ->.
  { unfold chunk, size in *.
    destruct (Z.ltb_spec (Z.of_nat (length P) - k * 7) 7).
    - rewrite !take_ge by lia. reflexivity.
    - f_equal. lia. }
  assert (wrap16 (k + 1) = k + 1) as ->
    by (apply Z.mod_small; change (2 ^ 16) with 65536; lia).
  reflexivity.
Qed.

Lemma stdout_release_bus k w : stdout (exec (release_bus k) w) = stdout w.
Proof.
  pose proof (off_bus_surroundings _ (keeps_release_bus k) w) as H.
  unfold surroundings in H. congruence.
Qed.

(** Fed the remaining data frames, the receiver emits the record of the
    whole payload, once, with the last of them. *)
Lemma decode_burst n : forall k w,
  0 <= k -> k + Z.of_nat (S n) = tp -> collecting P pgn sa session k w ->
  stdout (exec (decode_all (burst_frames P sa session (S n) k)) w) =
  stdout w ++ [mkRecord rpgn sa (Bytes size) (hex_of_bytes P)].
Proof.
  pose proof tp_bounds as Hb.
  induction n as [|n IH]; intros k w Hk Hn (mfm & Hl & Hd & Hs & Hp & Ht & Hg & Ha).
  - cbn [burst_frames decode_all]. rewrite exec_bind, exec_ret.
    rewrite (decode_burst_frame k w mfm) by (assumption || lia).
    cbv zeta. destruct (Z.leb_spec tp (k + 1)); [|lia].
    rewrite !exec_bind, stdout_release_bus.
    change (stdout (exec (erase_session key) ?w0)) with (stdout w0).
    unfold process_complete_message. mrun.
    rewrite Hg, Ha, take_ge by (unfold size in *; lia). reflexivity.
  - cbn [burst_frames decode_all]. rewrite exec_bind.
    rewrite (decode_burst_frame k w mfm) by (assumption || lia).
    cbv zeta. destruct (Z.leb_spec tp (k + 1)); [lia|].
    rewrite (IH (k + 1)); [reflexivity | lia | lia |].
    eexists. split; [unfold modify_ctl; mrun; apply lookup_insert_eq|].
    cbn [mfm_data total_size packets_received total_packets mfm_pgn
         source_addr].
    repeat split; assumption.
Qed.

(** The announce opens the session of the burst on a receiver whose key
    is free, and emits nothing. *)
Lemma decode_bam_frame w :
  multi_frame_messages (ctl w) !! key = None ->
  collecting P pgn sa session 0 (exec (decode_j1939_message (bam_frame sa pgn size session)) w)
  /\ stdout (exec (decode_j1939_message (bam_frame sa pgn size session)) w)
     = stdout w.
Proof.
  intros Hfree. pose proof tp_bounds as Hb.
  destruct (transport_id _ _ sa transport_cm_id_check sa_range)
    as (Hflag & Hsrc & Hpgn).
  destruct (bam_control_byte sa pgn size session session_valid) as [Hcode Hsess].
  unfold decode_j1939_message.
  change (can_id (bam_frame sa pgn size session)) with
    (Z.lor (Z.lor (Z.lor 0x18EC0000 (Z.shiftl 0xFF 8)) sa) CAN_EFF_FLAG).
  rewrite Hflag, Hsrc, Hpgn.
  change (PGN_TP_CM =? PGN_TP_CM) with true. cbn iota.
  split; [|apply stdout_parse_tp_cm].
  assert (result (is_session_valid session sa) w = true) as Hvalid.
  { unfold is_session_valid. rewrite session_valid. cbn [negb].
    rewrite result_bind_get_ctl. fold key. rewrite Hfree. reflexivity. }
  rewrite parse_tp_cm_bam_run; rewrite ?Hsess; try assumption.
  2: { rewrite announced_size_bam_frame by (unfold size in *; lia).
       unfold size in *. lia. }
  rewrite announced_size_bam_frame, announced_packets_bam_frame
    by (unfold size in *; lia).
  fold key. fold rpgn. fold tp.
  eexists. split; [unfold open_session; mrun; apply lookup_insert_eq|].
  repeat split.
Qed.
End RoundTrip.

(** ** Round trip: identifiers and the embedded PGN *)

Lemma announced_pgn_bam_frame (sa pgn size session : Z) :
  announced_pgn (bam_frame sa pgn size session) = Z.land pgn 0xFFFFFF.
Proof.
  unfold announced_pgn, bam_frame, frame_byte. cbn [data nth].
  rewrite !u8_to_byte, !land_255, shiftr_8, shiftr_16, !Z.mod_mod by lia.
  pose proof (Z.mod_pos_bound pgn 256 eq_refl).
  pose proof (Z.mod_pos_bound (pgn / 256) 256 eq_refl).
  pose proof (Z.mod_pos_bound (pgn / 65536) 256 eq_refl).
  rewrite (Z.lor_comm (pgn mod 256)), (lor_shiftl_add _ _ 8)
    by (change (2 ^ 8) with 256; lia).
  rewrite Z.lor_comm, (lor_shiftl_add _ _ 16)
    by (change (2 ^ 8) with 256; change (2 ^ 16) with 65536; lia).
  change 0xFFFFFF with (Z.ones 24). rewrite (Z.land_ones pgn 24) by lia.
  unfold wrap32.
  change (2 ^ 8) with 256. change (2 ^ 16) with 65536.
  change (2 ^ 24) with 16777216. change (2 ^ 32) with 4294967296.
  rewrite Z.mod_small; Z.div_mod_to_equations; lia.
Qed.

Lemma lor_add_aligned (a b n : Z) :
  0 <= n -> a mod 2 ^ n = 0 -> 0 <= b < 2 ^ n -> Z.lor a b = a + b.
Proof.
  intros Hn Ha Hb.
  assert (0 < 2 ^ n) as Hpos by (apply Z.pow_pos_nonneg; lia).
  pose proof (Z.div_mod a (2 ^ n) ltac:(lia)) as Hdm.
  rewrite Ha, Z.add_0_r in Hdm.
  rewrite Hdm at 1. rewrite Z.mul_comm, <- Z.shiftl_mul_pow2 by lia.
  rewrite lor_shiftl_add by lia. lia.
Qed.

(** The identifier of a single frame with a broadcast-range PGN, as
    decode takes it apart. *)
Lemma single_frame_id (pf ps sa : Z) :
  240 <= pf < 256 -> 0 <= ps < 256 -> 0 <= sa < 256 ->
  let id :=
    Z.lor (Z.lor (Z.lor (Z.lor 0x18000000 (Z.shiftl pf 16)) (Z.shiftl ps 8)) sa)
      CAN_EFF_FLAG in
  (Z.land id CAN_EFF_FLAG =? 0) = false
  /\ Z.land (Z.land id CAN_EFF_MASK) 0xFF = sa
  /\ decode_pgn (Z.land id CAN_EFF_MASK) = pf * 256 + ps.
Proof.
  intros Hpf Hps Hsa id.
  assert (Z.lor (Z.lor (Z.lor 0x18000000 (Z.shiftl pf 16)) (Z.shiftl ps 8)) sa
          = 0x18000000 + pf * 65536 + ps * 256 + sa) as Hlow.
  { rewrite !Z.shiftl_mul_pow2 by lia.
    change (2 ^ 16) with 65536. change (2 ^ 8) with 256.
    rewrite (lor_add_aligned 402653184 (pf * 65536) 24).
    2: lia. 2: reflexivity. 2: change (2 ^ 24) with 16777216; lia.
    rewrite (lor_add_aligned _ (ps * 256) 16).
    2: lia. 2: change (2 ^ 16) with 65536; Z.div_mod_to_equations; lia.
    2: change (2 ^ 16) with 65536; lia.
    rewrite (lor_add_aligned _ sa 8).
    2: lia. 2: change (2 ^ 8) with 256; Z.div_mod_to_equations; lia.
    2: change (2 ^ 8) with 256; lia.
    reflexivity. }
  split; [|split].
  - apply Z.eqb_neq. unfold id. rewrite Z.land_lor_distr_l, Z.land_diag.
    intros H0. apply Z.lor_eq_0_iff in H0 as [_ H0]. discriminate H0.
  - unfold id. rewrite Hlow.
    change CAN_EFF_FLAG with (Z.shiftl 1 31).
    rewrite Z.lor_comm, (lor_shiftl_add _ _ 31)
      by (change (2 ^ 31) with 2147483648; lia).
    change CAN_EFF_MASK with (Z.ones 29). rewrite Z.land_ones, land_255 by lia.
    change (2 ^ 31) with 2147483648. change (2 ^ 29) with 536870912.
    Z.div_mod_to_equations. lia.
  - unfold id. rewrite Hlow.
    change CAN_EFF_FLAG with (Z.shiftl 1 31).
    rewrite Z.lor_comm, (lor_shiftl_add _ _ 31)
      by (change (2 ^ 31) with 2147483648; lia).
    change CAN_EFF_MASK with (Z.ones 29). rewrite Z.land_ones by lia.
    change (2 ^ 31) with 2147483648. change (2 ^ 29) with 536870912.
    set (y := 402653184 + pf * 65536 + ps * 256 + sa).
    assert ((1 * 2147483648 + y) mod 536870912 = y) as ->
      by (unfold y; Z.div_mod_to_equations; lia).
    rewrite decode_pgn_bits. unfold spec_pgn.
    rewrite !land_255, shiftr_8, shiftr_16.
    rewrite (Z.shiftr_div_pow2 y 24) by lia. change (2 ^ 24) with 16777216.
    assert (y / 16777216 = 24) as -> by (unfold y; Z.div_mod_to_equations; lia).
    assert (y / 65536 mod 256 = pf) as ->
      by (unfold y; Z.div_mod_to_equations; lia).
    assert (y / 256 mod 256 = ps) as ->
      by (unfold y; Z.div_mod_to_equations; lia).
    destruct (Z.ltb_spec pf 240); [lia|].
    change (Z.shiftl (Z.land 24 3) 16) with 0. rewrite Z.lor_0_l.
    rewrite (lor_shiftl_add _ _ 8) by (change (2 ^ 8) with 256; lia).
    reflexivity.
Qed.

Lemma frame_bytes_all (id dlc : Z) (l : list byte) :
  frame_bytes (mk_can_frame id dlc l) 0 (length l) = l.
Proof.
  unfold frame_bytes. cbn [data].
  apply nth_ext with (d := x00) (d' := x00).
  - rewrite length_map, length_seq. reflexivity.
  - intros i Hi. rewrite length_map, length_seq in Hi.
    rewrite (nth_indep _ x00 (nth 0%nat l x00))
      by (rewrite length_map, length_seq; exact Hi).
    rewrite (map_nth (fun i => nth i l x00)).
    rewrite seq_nth by exact Hi. reflexivity.
Qed.

(** ** Round trip *)

(** The frames of a multi-frame send that returned true: the announce,
    then the data frames. *)
Lemma send_multi_frame_emits (P : list byte) (pgn : Z) (w : World) :
  let size := Z.of_nat (length P) in
  let sa := source_address (ctl w) in
  let session := nth (Z.to_nat (session_index (ctl w))) working_sessions 0 in
  0 < size < 65536 ->
  result (send_multi_frame_message pgn P size) w = true ->
  emitted (send_multi_frame_message pgn P size) w =
  bam_frame sa pgn size session
  :: burst_frames P sa session (Z.to_nat ((size + 6) / 7)) 0.
Proof.
  intros size sa session Hsize Hres.
  pose proof (packet_count_bounds size Hsize) as Hb.
  pose proof (off_bus_surroundings _
                (keeps_bus_gate _ _ _ _ : keeps off_bus multi_frame_gate) w) as Hs.
  unfold emitted. revert Hres. unfold send_multi_frame_message.
  rewrite exec_bind, result_bind.
  destruct (result multi_frame_gate w); cbn [negb]; [|discriminate].
  set (w1 := exec multi_frame_gate w) in *.
  assert (Hsa : source_address (ctl w1) = sa) by (injection Hs; auto).
  assert (Hsi : session_index (ctl w1) = session_index (ctl w)) by (injection Hs; auto).
  assert (Hwire : wire w1 = wire w) by (injection Hs; auto).
  rewrite exec_bind_get_ctl, result_bind_get_ctl, Hsa, Hsi. fold session.
  rewrite !exec_bind, !result_bind.
  set (w2 := exec (modify_ctl _) w1).
  pose proof (send_with_retry_wire 3 (bam_frame sa pgn size session)
                bam_retry_warning w2) as Hw.
  pose proof (keeps_ctl_send_with_retry 3 (bam_frame sa pgn size session)
                bam_retry_warning w2) as Hc.
  destruct (result (send_with_retry 3 _ bam_retry_warning) w2); cbn [negb].
  2: { rewrite result_bind. discriminate. }
  rewrite exec_bind, result_bind.
  assert (wrap16 ((size + 6) / 7) = (size + 6) / 7) as ->
    by (apply Z.mod_small; change (2 ^ 16) with 65536; lia).
  change (send_data_frames ?n 1 ?a ?b ?c) with (send_data_frames n (0 + 1) a b c).
  intros Hres.
  rewrite (send_data_frames_wire P sa session); [| lia | lia | | exact Hres].
  - change (wire (exec (vTaskDelay 10) ?w0)) with (wire w0).
    rewrite Hw. subst w2. change (wire (exec (modify_ctl ?f) ?w0)) with (wire w0).
    rewrite Hwire, <- app_assoc, drop_app_length. reflexivity.
  - change (ctl (exec (vTaskDelay 10) ?w0)) with (ctl w0).
    rewrite Hc. subst w2. cbn. exact Hsa.
Qed.

(** The frame of a single-frame send that returned true. *)
Lemma send_single_frame_emits (P : list byte) (pgn dst : Z) (w : World) :
  let size := Z.of_nat (length P) in
  let pdu_format := Z.land (Z.shiftr pgn 8) 0xFF in
  let pdu_specific := Z.land pgn 0xFF in
  result (send_single_frame_message pgn dst P size) w = true ->
  emitted (send_single_frame_message pgn dst P size) w =
  [ mk_can_frame
      (Z.lor (Z.lor (Z.lor (Z.lor 0x18000000 (Z.shiftl pdu_format 16))
                       (Z.shiftl pdu_specific 8)) (source_address (ctl w)))
         CAN_EFF_FLAG)
      size P ].
Proof.
  intros size pdu_format pdu_specific.
  pose proof (off_bus_surroundings _
                (keeps_bus_gate _ _ _ _ : keeps off_bus single_frame_gate) w) as Hs.
  unfold emitted, send_single_frame_message.
  rewrite exec_bind, result_bind.
  destruct (result single_frame_gate w); cbn [negb]; [|discriminate].
  set (w1 := exec single_frame_gate w) in *.
  assert (Hsa : source_address (ctl w1) = source_address (ctl w)) by (injection Hs; auto).
  assert (Hwire : wire w1 = wire w) by (injection Hs; auto).
  destruct (8 <? size).
  { rewrite result_bind. discriminate. }
  rewrite exec_bind_get_ctl, result_bind_get_ctl, Hsa.
  fold pdu_format pdu_specific.
  replace (take (Z.to_nat size) P) with P
    by (unfold size; rewrite Nat2Z.id, firstn_all; reflexivity).
  rewrite result_sendMessage. intros Hok.
  unfold exec, sendMessage. cbn [snd wire]. rewrite Hok, Hwire.
  apply drop_app_length.
Qed.

(** C2 (as amended).  Let [P] be a payload of 1 to 1785 bytes sent by a
    controller whose source address is a byte.  If
    [send_multi_frame_message] returns true, then feeding the frames it
    put on the wire, in order, to [decode_j1939_message] on a controller
    that holds no session under the burst's key makes the sink emit
    exactly one record: its size is [|P|], its data the uppercase hex of
    [P], its sender the source address, its PGN the low 24 bits of the
    PGN sent.  If [|P| <= 8], the PGN is in the broadcast range and
    [send_single_frame_message] returns true, then decoding the one
    frame it sent makes the sink emit exactly one record whose data is
    the uppercase hex of [P] and whose size is the literal "SF". *)
Theorem bam_round_trip (P : list byte) (pgn dst : Z) (ws wr : World) :
  let size := Z.of_nat (length P) in
  let sa := source_address (ctl ws) in
  let session := nth (Z.to_nat (session_index (ctl ws))) working_sessions 0 in
  1 <= size <= 1785 ->
  0 <= sa < 256 ->
  0 <= session_index (ctl ws) < 6 ->
  (result (send_multi_frame_message pgn P size) ws = true ->
   multi_frame_messages (ctl wr) !! make_session_id session sa = None ->
   stdout (exec (decode_all (emitted (send_multi_frame_message pgn P size) ws)) wr)
   = stdout wr ++ [mkRecord (Z.land pgn 0xFFFFFF) sa (Bytes size) (hex_of_bytes P)])
  /\
  (size <= 8 ->
   240 <= Z.land (Z.shiftr pgn 8) 0xFF ->
   result (send_single_frame_message pgn dst P size) ws = true ->
   stdout (exec (decode_all (emitted (send_single_frame_message pgn dst P size) ws)) wr)
   = stdout wr ++ [mkRecord (Z.land pgn 0xFFFF) sa SF (hex_of_bytes P)]).
Proof.
  intros size sa session Hsize Hsa Hidx.
  assert (0 < Z.of_nat (length P) < 65536) as Hrange by (unfold size in *; lia).
  pose proof (working_session_valid _ Hidx) as Hvalid. fold session in Hvalid.
  split.
  - intros Hres Hfree.
    rewrite send_multi_frame_emits by assumption.
    fold size sa session.
    cbn [decode_all]. rewrite exec_bind.
    destruct (decode_bam_frame P pgn sa session Hrange Hsa Hvalid wr Hfree)
      as [Hcol Hout].
    fold size in Hcol, Hout.
    pose proof (packet_count_bounds size Hrange) as Hb.
    destruct (Z.to_nat ((size + 6) / 7)) as [|n] eqn:En; [lia|].
    rewrite (decode_burst P pgn sa session Hrange Hsa Hvalid n 0);
      [ | lia | fold size; lia | exact Hcol ].
    fold size. rewrite Hout, announced_pgn_bam_frame. reflexivity.
  - intros Hsmall Hpf Hres.
    rewrite send_single_frame_emits by assumption. fold size sa.
    cbn [decode_all]. rewrite exec_bind, exec_ret.
    set (pf := Z.land (Z.shiftr pgn 8) 0xFF) in *.
    set (ps := Z.land pgn 0xFF).
    assert (pf < 256 /\ 0 <= ps < 256) as [Hpf' Hps].
    { unfold pf, ps. rewrite !land_255. split; apply Z.mod_pos_bound; lia. }
    destruct (single_frame_id pf ps sa ltac:(lia) Hps Hsa) as (Hflag & Hsrc & Hpgn).
    unfold decode_j1939_message. cbn [can_id can_dlc].
    rewrite Hflag, Hsrc, Hpgn.
    assert (pf * 256 + ps = Z.land pgn 0xFFFF) as Hlow.
    { unfold pf, ps. rewrite !land_255, shiftr_8.
      change 0xFFFF with (Z.ones 16). rewrite Z.land_ones by lia.
      change (2 ^ 16) with 65536. Z.div_mod_to_equations. lia. }
    unfold PGN_TP_CM, PGN_TP_DT, PGN_REQUEST.
    destruct (Z.eqb_spec (pf * 256 + ps) 60416); [lia|].
    destruct (Z.eqb_spec (pf * 256 + ps) 60160); [lia|].
    destruct (Z.eqb_spec (pf * 256 + ps) 59904); [lia|].
    unfold size. rewrite Nat2Z.id, frame_bytes_all, Hlow. reflexivity.
Qed.

Lemma bam_round_trip_witness :
  stdout (exec (decode_all (emitted (send_multi_frame_message 0xEF20 hello 21)
                              sender_world)) quiet_world)
  = [mkRecord 0xEF20 0x32 (Bytes 21) (hex_of_bytes hello)]
  /\ stdout (exec (decode_all (emitted (send_single_frame_message 0xFF20 0xFF
                                          (take 3 hello) 3)
                                 sender_world)) quiet_world)
     = [mkRecord 0xFF20 0x32 SF "48656C"].
Proof.
  split.
  - pose proof (bam_round_trip hello 0xEF20 0xFF sender_world quiet_world)
      as H.
    destruct H as [H _]; [vm_compute; split; discriminate
                         | vm_compute; split; [discriminate | reflexivity]
                         | vm_compute; split; [discriminate | reflexivity] |].
    apply H; reflexivity.
  - pose proof (bam_round_trip (take 3 hello) 0xFF20 0xFF sender_world quiet_world)
      as H.
    destruct H as [_ H]; [vm_compute; split; discriminate
                         | vm_compute; split; [discriminate | reflexivity]
                         | vm_compute; split; [discriminate | reflexivity] |].
    apply H; [vm_compute; discriminate | vm_compute; discriminate | reflexivity].
Defined.

(** C2 as first stated fails on the single-frame path: the record the
    decoder emits for a 3-byte payload carries the size "SF", not 3. *)
Lemma single_frame_size_counterexample :
  let P := take 3 hello in
  let frames := emitted (send_single_frame_message 0xFF20 0xFF P 3) sender_world in
  result (send_single_frame_message 0xFF20 0xFF P 3) sender_world = true
  /\ stdout (exec (decode_all frames) quiet_world)
     = [mkRecord 0xFF20 0x32 SF (hex_of_bytes P)]
  /\ forall r, In r (stdout (exec (decode_all frames) quiet_world)) ->
       rec_size r <> Bytes (Z.of_nat (length P)).
Proof.
  vm_compute. split; [reflexivity|]. split; [reflexivity|].
  intros r [<-|[]]. discriminate.
Qed.

(** * Further properties *)

(** ** Invariants of monadic code *)

Lemma preserves_ret {A} (I : World -> Prop) (a : A) : preserves I (mret a : M A).
Proof. intros w H. exact H. Qed.

Lemma preserves_bind {A B} (I : World -> Prop) (m : M A) (f : A -> M B) :
  preserves I m -> (forall a, preserves I (f a)) -> preserves I (m ≫= f).
Proof. intros Hm Hf w H. rewrite exec_bind. apply Hf, Hm, H. Qed.

(** ** The bus arbiter, whatever the mutex does *)

(** X1.  [is_bus_available] answers true exactly when the bus mutex was
    granted and the bus is either not busy or busy past its deadline.
    An answer true leaves [bus_busy] cleared; an answer false, also the
    one given because the mutex was not granted, leaves the controller
    as it was. *)
Theorem is_bus_available_answer (w : World) :
  let now := wrap32 (timestamps w (ts_read w)) in
  let w' := exec is_bus_available w in
  result is_bus_available w =
    sem_grants w (sem_taken w)
    && (negb (bus_busy (ctl w)) || (bus_busy_timeout (ctl w) <? now))
  /\ (result is_bus_available w = true -> bus_busy (ctl w') = false)
  /\ (result is_bus_available w = false -> ctl w' = ctl w).
Proof.
  unfold is_bus_available. mrun.
  destruct (sem_grants w (sem_taken w)); mrun;
    [destruct (bus_busy (ctl w)) eqn:Hbusy; mrun;
       [destruct (bus_busy_timeout (ctl w) <? _); mrun|]|];
    cbn [andb orb negb];
    (split; [reflexivity|]; split; intros; first [discriminate | congruence]).
Qed.

(** ** The busy flag and the owners agree *)

Lemma preserves_keeps_bus_view {A} (m : M A) :
  keeps bus_view m -> preserves bus_consistent m.
Proof.
  intros Hk w H. specialize (Hk w). unfold bus_view in Hk.
  unfold bus_consistent in *. injection Hk as -> ->. exact H.
Qed.

Lemma bus_consistent_is_bus_available : preserves bus_consistent is_bus_available.
Proof.
  intros w H. unfold bus_consistent, owners in *.
  unfold is_bus_available. mrun.
  destruct (sem_grants w (sem_taken w)); mrun; [|exact H].
  destruct (bus_busy (ctl w)) eqn:Hbusy; mrun; [|rewrite Hbusy; exact H].
  destruct (bus_busy_timeout (ctl w) <? _); mrun; [|rewrite Hbusy; exact H].
  split; [discriminate | intros Hne; contradiction Hne; reflexivity].
Qed.

Lemma bus_consistent_release_bus k : preserves bus_consistent (release_bus k).
Proof.
  intros w H. unfold bus_consistent, owners in *.
  unfold release_bus. mrun.
  destruct (sem_grants w (sem_taken w)); mrun; [|exact H].
  destruct (active_bam_sessions (ctl w) !! k) eqn:Hk; mrun; [|exact H].
  destruct (decide (delete k (active_bam_sessions (ctl w)) = ∅)) as [He|Hne]; mrun.
  - split; [discriminate | intros Hne; contradiction].
  - split; [intros _; exact Hne|]. intros _. apply H.
    intros He. rewrite He in Hk. rewrite lookup_empty in Hk. discriminate.
Qed.

Lemma bus_consistent_acquire_bus k tp : preserves bus_consistent (acquire_bus k tp).
Proof.
  intros w H. unfold bus_consistent, owners in *.
  unfold acquire_bus. mrun.
  destruct (sem_grants w (sem_taken w)); mrun; [|exact H].
  split; [|reflexivity]. intros _. apply insert_non_empty.
Qed.


Create HintDb bus.

#[export] Hint Resolve bus_consistent_is_bus_available bus_consistent_release_bus
  bus_consistent_acquire_bus : bus.

Ltac bus_go :=
  repeat first
    [ solve [ auto with bus ]
    | apply preserves_ret
    | apply preserves_bind; [ | intros ? ]
    | match goal with
      | |- preserves _ (if ?b then _ else _) => destruct b
      | |- preserves _ (match ?o with _ => _ end) => destruct o
      end
    | (apply preserves_keeps_bus_view; intros ?; reflexivity) ].

Lemma bus_consistent_is_session_valid sn src :
  preserves bus_consistent (is_session_valid sn src).
Proof. unfold is_session_valid. bus_go. Qed.

Lemma bus_consistent_collect_stale now items acc :
  preserves bus_consistent (collect_stale now items acc).
Proof.
  revert acc. induction items as [|item rest IH]; intros acc;
    cbn [collect_stale]; bus_go.
Qed.

Lemma bus_consistent_remove_sessions ids :
  preserves bus_consistent (remove_sessions ids).
Proof. induction ids; cbn [remove_sessions]; bus_go. Qed.

#[export] Hint Resolve bus_consistent_is_session_valid
  bus_consistent_collect_stale bus_consistent_remove_sessions : bus.

Lemma bus_consistent_cleanup : preserves bus_consistent cleanup_stale_sessions.
Proof. unfold cleanup_stale_sessions. bus_go. Qed.

#[export] Hint Resolve bus_consistent_cleanup : bus.

Lemma bus_consistent_parse_tp_cm frame src :
  preserves bus_consistent (parse_tp_cm frame src).
Proof. unfold parse_tp_cm. bus_go. Qed.

Lemma bus_consistent_parse_tp_dt frame src :
  preserves bus_consistent (parse_tp_dt frame src).
Proof. unfold parse_tp_dt, process_complete_message. bus_go. Qed.

#[export] Hint Resolve bus_consistent_parse_tp_cm bus_consistent_parse_tp_dt : bus.

Lemma bus_consistent_decode frame :
  preserves bus_consistent (decode_j1939_message frame).
Proof. unfold decode_j1939_message. bus_go. Qed.

Lemma bus_consistent_wait_for_bus n delay msg :
  preserves bus_consistent (wait_for_bus n delay msg).
Proof. induction n; cbn [wait_for_bus]; bus_go. Qed.

#[export] Hint Resolve bus_consistent_decode bus_consistent_wait_for_bus : bus.

Lemma bus_consistent_bus_gate busy n delay msg :
  preserves bus_consistent (bus_gate busy n delay msg).
Proof. unfold bus_gate. bus_go. Qed.

Lemma bus_consistent_send_with_retry n frame msg :
  preserves bus_consistent (send_with_retry n frame msg).
Proof. induction n; cbn [send_with_retry]; bus_go. Qed.

#[export] Hint Resolve bus_consistent_bus_gate bus_consistent_send_with_retry : bus.

Lemma bus_consistent_send_data_frames n seq size sess payload :
  preserves bus_consistent (send_data_frames n seq size sess payload).
Proof.
  revert seq. induction n; intros seq; cbn [send_data_frames]; bus_go.
Qed.

#[export] Hint Resolve bus_consistent_send_data_frames : bus.

Lemma bus_consistent_send_single pgn dst payload len :
  preserves bus_consistent (send_single_frame_message pgn dst payload len).
Proof. unfold send_single_frame_message, single_frame_gate. bus_go. Qed.

Lemma bus_consistent_send_multi pgn payload size :
  preserves bus_consistent (send_multi_frame_message pgn payload size).
Proof. unfold send_multi_frame_message, multi_frame_gate. bus_go. Qed.

#[export] Hint Resolve bus_consistent_send_single bus_consistent_send_multi : bus.

Lemma bus_consistent_run_operation op :
  preserves bus_consistent (run_operation op).
Proof. destruct op; cbn [run_operation]; bus_go. Qed.

Lemma bus_consistent_run_operations ops :
  preserves bus_consistent (run_operations ops).
Proof.
  induction ops as [|op ops IH]; cbn [run_operations];
    [apply preserves_ret|].
  apply preserves_bind; [apply bus_consistent_run_operation | intros _; exact IH].
Qed.

(** X2.  Whatever operations a freshly constructed controller has gone
    through, [bus_busy] is set exactly when [active_bam_sessions] is not
    empty. *)
Theorem bus_flag_matches_owners (source : Z) (ts : nat -> Z)
    (sem tx : nat -> bool) (ops : list Operation) :
  let w := exec (run_operations ops) (World_new source ts sem tx) in
  bus_busy (ctl w) = true <-> active_bam_sessions (ctl w) <> ∅.
Proof.
  apply (bus_consistent_run_operations ops (World_new source ts sem tx)).
  split; [discriminate | intros H; contradiction H; reflexivity].
Qed.

(** ** A held bus *)

Lemma is_bus_available_held (w : World) :
  bus_held w ->
  result is_bus_available w = false
  /\ held_view (exec is_bus_available w) = held_view w
  /\ slept (exec is_bus_available w) = slept w
  /\ esp_log (exec is_bus_available w) = esp_log w.
Proof.
  intros [Hbusy Hclock]. unfold is_bus_available. mrun.
  destruct (sem_grants w (sem_taken w)); mrun; [|repeat split].
  rewrite Hbusy. mrun.
  destruct (Z.ltb_spec (bus_busy_timeout (ctl w)) (wrap32 (timestamps w (ts_read w))))
    as [Hlt|_]; [|repeat split].
  specialize (Hclock (ts_read w)). lia.
Qed.

Lemma bus_held_view w w' : held_view w' = held_view w -> bus_held w -> bus_held w'.
Proof.
  unfold held_view, bus_held. intros Hv. injection Hv as -> -> _ _ _. auto.
Qed.

Lemma wait_for_bus_held n delay msg : forall w,
  bus_held w ->
  result (wait_for_bus n delay msg) w = false
  /\ held_view (exec (wait_for_bus n delay msg) w) = held_view w
  /\ slept (exec (wait_for_bus n delay msg) w) = slept w + Z.of_nat n * delay
  /\ esp_log (exec (wait_for_bus n delay msg) w) = esp_log w ++ [(LogE, msg)].
Proof.
  induction n as [|n IH]; intros w Hheld; cbn [wait_for_bus].
  - mrun. repeat split. lia.
  - rewrite !exec_bind, !result_bind.
    set (w1 := exec (vTaskDelay delay) w).
    assert (bus_held w1) as H1 by exact Hheld.
    destruct (is_bus_available_held w1 H1) as (Hr & Hv & Hs & Hl).
    rewrite Hr.
    destruct (IH (exec is_bus_available w1) (bus_held_view _ _ Hv H1))
      as (Hr' & Hv' & Hs' & Hl').
    split; [exact Hr'|]. split; [rewrite Hv', Hv; reflexivity|].
    split; [rewrite Hs', Hs; unfold w1; mrun; lia|].
    rewrite Hl', Hl. reflexivity.
Qed.

Lemma bus_gate_held busy n delay msg w :
  bus_held w ->
  result (bus_gate busy n delay msg) w = false
  /\ held_view (exec (bus_gate busy n delay msg) w) = held_view w
  /\ slept (exec (bus_gate busy n delay msg) w) = slept w + Z.of_nat n * delay
  /\ esp_log (exec (bus_gate busy n delay msg) w) =
     esp_log w ++ [(LogW, busy); (LogE, msg)].
Proof.
  intros Hheld. unfold bus_gate. rewrite !exec_bind, !result_bind.
  destruct (is_bus_available_held w Hheld) as (Hr & Hv & Hs & Hl).
  rewrite Hr. rewrite !exec_bind, !result_bind.
  set (w1 := exec (ESP_LOGW busy) (exec is_bus_available w)).
  assert (held_view w1 = held_view w) as Hv1 by exact Hv.
  destruct (wait_for_bus_held n delay msg w1 (bus_held_view _ _ Hv1 Hheld))
    as (Hr' & Hv' & Hs' & Hl').
  split; [exact Hr'|]. split; [rewrite Hv'; exact Hv1|].
  split; [rewrite Hs'; unfold w1; mrun; rewrite <- Hs; reflexivity|].
  rewrite Hl'. unfold w1. mrun. rewrite <- app_assoc.
  change (esp_log (snd (is_bus_available w))) with (esp_log (exec is_bus_available w)).
  rewrite Hl. reflexivity.
Qed.

(** X3.  While the bus is busy and its deadline lies after every reading
    of the clock, [send_single_frame_message] gives up after 5 waits of
    100 ms and [send_multi_frame_message] after 10 waits of 200 ms: both
    return false, never call the transceiver, put nothing on the wire
    and leave the controller, the index into the tag pool included, as it
    was. *)
Theorem send_on_held_bus (pgn dst : Z) (payload : list byte) (len : Z)
    (w : World) :
  let w1 := exec (send_single_frame_message pgn dst payload len) w in
  let w2 := exec (send_multi_frame_message pgn payload len) w in
  bus_held w ->
  (result (send_single_frame_message pgn dst payload len) w = false
   /\ ctl w1 = ctl w /\ wire w1 = wire w /\ tx_calls w1 = tx_calls w
   /\ slept w1 = slept w + 500)
  /\ (result (send_multi_frame_message pgn payload len) w = false
      /\ ctl w2 = ctl w /\ wire w2 = wire w /\ tx_calls w2 = tx_calls w
      /\ slept w2 = slept w + 2000).
Proof.
  intros w1 w2 Hheld. split.
  - subst w1. unfold send_single_frame_message, single_frame_gate.
    rewrite exec_bind, result_bind.
    destruct (bus_gate_held
                "Bus is busy with BAM session, delaying single frame send" 5 100
                "Bus still busy after retry, aborting single frame send" w Hheld)
      as (Hr & Hv & Hs & _).
    rewrite Hr. cbn [negb]. rewrite exec_ret, result_ret.
    unfold held_view in Hv. injection Hv as Hc _ Hw Ht _.
    repeat split; assumption.
  - subst w2. unfold send_multi_frame_message, multi_frame_gate.
    rewrite exec_bind, result_bind.
    destruct (bus_gate_held
                "Bus is busy with another BAM session, delaying multi-frame send"
                10 200
                "Bus still busy after extended retry, aborting multi-frame send"
                w Hheld)
      as (Hr & Hv & Hs & _).
    rewrite Hr. cbn [negb]. rewrite exec_ret, result_ret.
    unfold held_view in Hv. injection Hv as Hc _ Hw Ht _.
    repeat split; assumption.
Qed.

Lemma send_on_held_bus_witness :
  result (send_single_frame_message 0xEF00 0xFF hello 8) busy_world = false
  /\ wire (exec (send_multi_frame_message 0xEF00 hello 21) busy_world) = [].
Proof.
  assert (bus_held busy_world) as H.
  { split; [reflexivity|]. intros n. vm_compute. discriminate. }
  split.
  - apply (send_on_held_bus 0xEF00 0xFF hello 8 busy_world H).
  - apply (send_on_held_bus 0xEF00 0xFF hello 21 busy_world H).
Defined.

(** ** Oversized single frames *)

Lemma keeps_tx_view_bus_gate busy n delay msg :
  keeps tx_view (bus_gate busy n delay msg).
Proof.
  intros w.
  pose proof (off_bus_surroundings _ (keeps_bus_gate busy n delay msg) w) as H.
  unfold surroundings in H. unfold tx_view. injection H. congruence.
Qed.

(** X4.  [send_single_frame_message] called with a length above 8 returns
    false whatever the state of the bus, without calling the transceiver
    and without putting a frame on the wire. *)
Theorem oversized_single_frame_refused (pgn dst : Z) (payload : list byte)
    (len : Z) (w : World) :
  let w' := exec (send_single_frame_message pgn dst payload len) w in
  8 < len ->
  result (send_single_frame_message pgn dst payload len) w = false
  /\ wire w' = wire w /\ tx_calls w' = tx_calls w.
Proof.
  intros w' Hlen. subst w'. unfold send_single_frame_message.
  rewrite exec_bind, result_bind.
  pose proof (keeps_tx_view_bus_gate
                "Bus is busy with BAM session, delaying single frame send" 5 100
                "Bus still busy after retry, aborting single frame send" w) as Hk.
  fold single_frame_gate in Hk. unfold tx_view in Hk. injection Hk as Hw Ht _ _.
  destruct (result single_frame_gate w); cbn [negb].
  - destruct (Z.ltb_spec 8 len); [|lia].
    rewrite exec_bind, result_bind. mrun. auto.
  - rewrite exec_ret, result_ret. auto.
Qed.

Lemma oversized_single_frame_refused_witness :
  result (send_single_frame_message 0xEF00 0xFF hello 21) quiet_world = false
  /\ wire (exec (send_single_frame_message 0xEF00 0xFF hello 21) quiet_world) = [].
Proof.
  pose proof (oversized_single_frame_refused 0xEF00 0xFF hello 21 quiet_world) as H.
  destruct H as (Hr & Hw & _); [lia|]. split; [exact Hr | exact Hw].
Defined.

(** ** Acceptance of a session *)

Lemma is_session_valid_run (sn src : Z) (w : World) :
  let key := make_session_id sn src in
  let now := wrap32 (timestamps w (ts_read w)) in
  let w' := exec (is_session_valid sn src) w in
  result (is_session_valid sn src) w =
    is_valid_session sn
    && match table w !! key with
       | None => true
       | Some mfm => is_stale now mfm
       end
  /\ (result (is_session_valid sn src) w = false -> ctl w' = ctl w)
  /\ (result (is_session_valid sn src) w = true ->
      table w' = delete key (table w)).
Proof.
  intros key now w'. subst w'. unfold is_session_valid, table.
  destruct (is_valid_session sn); cbn [negb andb].
  2: { rewrite exec_ret, result_ret. repeat split; intros; discriminate. }
  rewrite exec_bind_get_ctl, result_bind_get_ctl. fold key.
  destruct (multi_frame_messages (ctl w) !! key) as [mfm|] eqn:Hl.
  2: { rewrite exec_ret, result_ret.
       split; [reflexivity|]. split; [discriminate|].
       intros _. symmetry. apply delete_id. exact Hl. }
  rewrite exec_bind, result_bind.
  change (result esp_log_timestamp w) with now. unfold is_stale.
  destruct (SESSION_TIMEOUT_MS <? wrap32 (now - last_activity_time mfm)).
  - rewrite !exec_bind, !result_bind, exec_ret, result_ret.
    split; [reflexivity|]. split; [discriminate|]. intros _.
    change (multi_frame_messages (ctl ?x)) with (table x).
    rewrite table_release_bus, table_erase_session. reflexivity.
  - rewrite exec_ret, result_ret.
    split; [reflexivity|]. split; [reflexivity|discriminate].
Qed.

(** X5.  [is_session_valid] answers true exactly when the tag is one of
    the six and the key either holds no session or holds one idle for
    more than [SESSION_TIMEOUT_MS].  An answer false leaves the
    controller as it was; after an answer true the table is the table
    before without the key. *)
Theorem is_session_valid_answer (sn src : Z) (w : World) :
  let key := make_session_id sn src in
  let now := wrap32 (timestamps w (ts_read w)) in
  let w' := exec (is_session_valid sn src) w in
  result (is_session_valid sn src) w =
    is_valid_session sn
    && match multi_frame_messages (ctl w) !! key with
       | None => true
       | Some mfm => is_stale now mfm
       end
  /\ (result (is_session_valid sn src) w = false -> ctl w' = ctl w)
  /\ (result (is_session_valid sn src) w = true ->
      multi_frame_messages (ctl w') = delete key (multi_frame_messages (ctl w))).
Proof. apply is_session_valid_run. Qed.

(** ** The sweep, entry by entry *)

(** X6.  After [cleanup_stale_sessions] a key holds what it held before
    unless that session had been idle for more than
    [SESSION_TIMEOUT_MS] at the clock value the sweep read, in which
    case the key is free; the sweep writes nothing to stdout and puts
    nothing on the wire. *)
Theorem cleanup_stale_sessions_lookup (w : World) (k : Z) :
  let now := wrap32 (timestamps w (ts_read w)) in
  let w' := exec cleanup_stale_sessions w in
  multi_frame_messages (ctl w') !! k =
    match multi_frame_messages (ctl w) !! k with
    | Some mfm => if is_stale now mfm then None else Some mfm
    | None => None
    end
  /\ stdout w' = stdout w /\ wire w' = wire w.
Proof.
  intros now w'. split.
  - change (multi_frame_messages (ctl ?x)) with (table x). subst w'.
    rewrite table_cleanup_stale_sessions, lookup_erase_all. fold now.
    destruct (decide (k ∈ stale_keys now (table w))) as [Hin|Hout].
    + apply elem_of_stale_keys in Hin as (v & Hl & Hs).
      rewrite Hl, Hs. reflexivity.
    + destruct (table w !! k) as [mfm|] eqn:Hl; [|reflexivity].
      destruct (is_stale now mfm) eqn:Hs; [|reflexivity].
      contradiction Hout. apply elem_of_stale_keys. eauto.
  - pose proof (keeps_cleanup_stale_sessions w) as H.
    unfold surroundings in H. injection H. auto.
Qed.

(** ** Data frames open nothing *)

Lemma parse_tp_dt_ignored (frame : can_frame) (src_addr : Z) (w : World) :
  let key :=
    make_session_id (Z.land (Z.shiftr (frame_byte frame 0) 4) 0x0F) src_addr in
  let w' := exec (parse_tp_dt frame src_addr) w in
  Z.land (frame_byte frame 0) 0x0F = 0 \/ table w !! key = None ->
  ctl w' = ctl w /\ stdout w' = stdout w.
Proof.
  intros key w' H. subst w'. unfold parse_tp_dt. fold key.
  destruct ((Z.land (frame_byte frame 0) 15 =? 0)
            || (15 <? Z.land (frame_byte frame 0) 15)) eqn:Hseq;
    [split; reflexivity|].
  destruct H as [H0|Hnone].
  - rewrite H0 in Hseq. discriminate.
  - rewrite exec_bind_get_ctl. unfold table in Hnone. rewrite Hnone.
    split; reflexivity.
Qed.

Lemma parse_tp_dt_opens_nothing (frame : can_frame) (src_addr : Z) (w : World)
    (k : Z) :
  table w !! k = None -> table (exec (parse_tp_dt frame src_addr) w) !! k = None.
Proof.
  intros Hk. unfold parse_tp_dt.
  destruct (_ || _); [exact Hk|].
  rewrite exec_bind_get_ctl.
  set (session_id := make_session_id _ src_addr).
  destruct (multi_frame_messages (ctl w) !! session_id) as [mfm|] eqn:Hl;
    [|exact Hk].
  rewrite exec_bind.
  assert (forall w0, table w0 = table w ->
            table (exec (_ ← erase_session session_id; release_bus session_id) w0)
              !! k = None) as Hrel.
  { intros w0 H0. rewrite exec_bind, table_release_bus, table_erase_session, H0.
    rewrite lookup_delete. destruct (decide (session_id = k)); [reflexivity|exact Hk]. }
  destruct (negb _).
  { rewrite exec_bind. apply Hrel. reflexivity. }
  destruct (total_size mfm <=? packets_received mfm * 7).
  { rewrite !exec_bind, table_erase_session.
    rewrite lookup_delete. destruct (decide (session_id = k)); [reflexivity|exact Hk]. }
  cbn [total_packets packets_received].
  destruct (total_packets mfm <=? wrap16 (packets_received mfm + 1)).
  { rewrite exec_bind. apply Hrel. reflexivity. }
  unfold table. mrun. rewrite lookup_insert.
  destruct (decide (session_id = k)) as [<-|]; [|exact Hk].
  unfold table in Hk. congruence.
Qed.

(** X7.  [parse_tp_dt] never opens a session: a key that is free before
    the call is free after it.  A data frame whose sequence field is 0,
    or whose key holds no session, changes neither the controller nor
    stdout. *)
Theorem data_frame_opens_no_session (frame : can_frame) (src_addr : Z)
    (w : World) :
  let key :=
    make_session_id (Z.land (Z.shiftr (frame_byte frame 0) 4) 0x0F) src_addr in
  let w' := exec (parse_tp_dt frame src_addr) w in
  (forall k, multi_frame_messages (ctl w) !! k = None ->
             multi_frame_messages (ctl w') !! k = None)
  /\ (Z.land (frame_byte frame 0) 0x0F = 0
      \/ multi_frame_messages (ctl w) !! key = None ->
      ctl w' = ctl w /\ stdout w' = stdout w).
Proof.
  intros key w'. split.
  - intros k. apply parse_tp_dt_opens_nothing.
  - apply parse_tp_dt_ignored.
Qed.

Lemma data_frame_opens_no_session_witness :
  ctl (exec (parse_tp_dt data_seq1 0x32) quiet_world) = ctl quiet_world
  /\ multi_frame_messages (ctl (exec (parse_tp_dt data_seq0 0x32) announced_world))
       !! 0x0332 = None.
Proof.
  split.
  - apply (data_frame_opens_no_session data_seq1 0x32 quiet_world).
    right. reflexivity.
  - apply (data_frame_opens_no_session data_seq0 0x32 announced_world).
    reflexivity.
Defined.

(** ** An announce for a live session *)

(** X8.  An announce whose key holds a session that is not stale is
    refused: [parse_tp_cm] leaves the controller as it was, the session
    under way included, writes nothing to stdout and logs the
    busy-session warning. *)
Theorem announce_for_live_session_refused (frame : can_frame) (src_addr : Z)
    (w : World) (mfm : MultiFrameMessage) :
  let key :=
    make_session_id (Z.land (Z.shiftr (frame_byte frame 0) 4) 0x0F) src_addr in
  let now := wrap32 (timestamps w (ts_read w)) in
  let w' := exec (parse_tp_cm frame src_addr) w in
  multi_frame_messages (ctl w) !! key = Some mfm ->
  is_stale now mfm = false ->
  ctl w' = ctl w
  /\ stdout w' = stdout w
  /\ esp_log w' = esp_log w ++ [(LogW, busy_session_warning)].
Proof.
  intros key now w' Hl Hlive. subst w'.
  destruct (is_session_valid_run (Z.land (Z.shiftr (frame_byte frame 0) 4) 0x0F)
              src_addr w) as (Hr & Hsame & _).
  fold key now in Hr. unfold table in Hr. rewrite Hl, Hlive, andb_false_r in Hr.
  specialize (Hsame Hr).
  split; [|split; [apply stdout_parse_tp_cm|]].
  - unfold parse_tp_cm. rewrite exec_bind, Hr. exact Hsame.
  - unfold parse_tp_cm. rewrite exec_bind, Hr. cbn [negb].
    change (esp_log (exec (ESP_LOGW ?m) ?x)) with (esp_log x ++ [(LogW, m)]).
    f_equal.
    assert (keeps esp_log (is_session_valid (Z.land (Z.shiftr (frame_byte frame 0) 4) 0x0F) src_addr)) as Hk.
    { unfold is_session_valid, release_bus. keeps_go. }
    apply Hk.
Qed.

Lemma announce_for_live_session_refused_witness :
  ctl (exec (parse_tp_cm announce_21 0x32) announced_world) = ctl announced_world.
Proof.
  eapply (announce_for_live_session_refused announce_21 0x32 announced_world).
  - vm_compute. reflexivity.
  - vm_compute. reflexivity.
Defined.

(** ** What every stored session satisfies *)

Lemma table_sound_subseteq w w' :
  table w' ⊆ table w -> table_sound w -> table_sound w'.
Proof.
  intros Hsub Hok k mfm Hl. apply (Hok k).
  eapply lookup_weaken; eassumption.
Qed.

Lemma table_sound_same w w' : table w' = table w -> table_sound w -> table_sound w'.
Proof. intros Heq. apply table_sound_subseteq. rewrite Heq. reflexivity. Qed.

Lemma announced_packets_nonneg (frame : can_frame) : 0 <= announced_packets frame.
Proof.
  unfold announced_packets.
  destruct (_ || _).
  - apply Z.mod_pos_bound. reflexivity.
  - apply u8_range.
Qed.

Lemma table_sound_open_session size pgn src sn tp w :
  is_valid_session sn = true -> 0 <= size <= 65535 -> 0 <= tp ->
  table_sound w ->
  table_sound (exec (open_session (make_session_id sn src) size pgn src sn tp) w).
Proof.
  intros Hsn Hsize Htp Hok k' mfm. unfold open_session, table. mrun.
  rewrite lookup_insert. destruct (decide (make_session_id sn src = k')).
  - intros [= <-]. unfold session_sound. cbn.
    repeat split; try assumption; try reflexivity; lia.
  - apply Hok.
Qed.

Lemma table_sound_parse_tp_cm frame src w :
  table_sound w -> table_sound (exec (parse_tp_cm frame src) w).
Proof.
  intros Hok. unfold parse_tp_cm. rewrite exec_bind.
  set (sn := Z.land (Z.shiftr (frame_byte frame 0) 4) 15).
  assert (table_sound (exec (is_session_valid sn src) w)) as H1.
  { eapply table_sound_subseteq; [apply table_is_session_valid_subseteq | exact Hok]. }
  destruct (is_session_valid_run sn src w) as (Hr & _ & _).
  destruct (result (is_session_valid sn src) w); cbn [negb]; [|exact H1].
  symmetry in Hr. apply andb_prop in Hr as [Hsn _].
  rewrite exec_bind.
  assert (table_sound (exec cleanup_stale_sessions
            (exec (is_session_valid sn src) w))) as H2.
  { eapply table_sound_subseteq; [apply table_cleanup_subseteq | exact H1]. }
  pose proof (announced_size_range frame) as Hr.
  pose proof (announced_packets_nonneg frame) as Hp.
  destruct (Z.land (frame_byte frame 0) 15 =? 0).
  - destruct (_ || _); [exact H2|].
    rewrite exec_bind. apply table_sound_open_session; [assumption | lia | lia |].
    eapply table_sound_same; [|exact H2].
    apply (off_bus_table _ (keeps_acquire_bus _ _)).
  - destruct (Z.land (frame_byte frame 0) 15 =? 1).
    + apply table_sound_open_session; [assumption | lia | lia | exact H2].
    + destruct (frame_byte frame 0 =? 255); [|exact H2].
      rewrite exec_bind. eapply table_sound_subseteq; [|exact H2].
      rewrite table_release_bus, table_erase_session. apply delete_subseteq.
Qed.

Lemma table_sound_parse_tp_dt frame src w :
  table_sound w -> table_sound (exec (parse_tp_dt frame src) w).
Proof.
  intros Hok. unfold parse_tp_dt.
  destruct (_ || _); [exact Hok|].
  rewrite exec_bind_get_ctl.
  set (session_id := make_session_id _ src).
  destruct (multi_frame_messages (ctl w) !! session_id) as [mfm|] eqn:Hl;
    [|exact Hok].
  destruct (Hok _ _ Hl) as (Hkey & Hsn & Hts & Hpr & Hlen & Hc).
  rewrite exec_bind.
  destruct (negb _).
  { rewrite !exec_bind. eapply table_sound_subseteq; [|exact Hok].
    rewrite table_release_bus, table_erase_session. apply delete_subseteq. }
  destruct (Z.leb_spec (total_size mfm) (packets_received mfm * 7)) as [|Hstart].
  { rewrite !exec_bind. eapply table_sound_subseteq; [|exact Hok].
    rewrite table_erase_session. apply delete_subseteq. }
  cbn [total_packets packets_received].
  assert (wrap16 (packets_received mfm + 1) = packets_received mfm + 1) as Hw.
  { apply Z.mod_small. change (2 ^ 16) with 65536. lia. }
  rewrite Hw.
  destruct (Z.leb_spec (total_packets mfm) (packets_received mfm + 1)) as [|Hmore].
  { rewrite !exec_bind. eapply table_sound_subseteq; [|exact Hok].
    rewrite table_release_bus, table_erase_session. apply delete_subseteq. }
  intros k' m'. unfold table. mrun. rewrite lookup_insert.
  destruct (decide (session_id = k')); [|apply Hok].
  intros [= <-]. unfold session_sound.
  cbn [packets_received mfm_data total_size mfm_session_number source_addr
       total_packets complete].
  rewrite length_store_bytes, length_frame_bytes.
  repeat split; try assumption; try lia.
  destruct (Z.ltb_spec (total_size mfm - packets_received mfm * 7) 7); lia.
Qed.

Lemma table_sound_decode frame w :
  table_sound w -> table_sound (exec (decode_j1939_message frame) w).
Proof.
  intros Hok. unfold decode_j1939_message.
  destruct (_ =? 0); [exact Hok|].
  destruct (_ =? PGN_TP_CM); [apply table_sound_parse_tp_cm; exact Hok|].
  destruct (_ =? PGN_TP_DT); [apply table_sound_parse_tp_dt; exact Hok|].
  destruct (_ =? PGN_REQUEST); exact Hok.
Qed.

Lemma table_sound_run_operation op w :
  table_sound w -> table_sound (exec (run_operation op) w).
Proof.
  intros Hok. destruct op; cbn [run_operation].
  - apply table_sound_decode; exact Hok.
  - eapply table_sound_subseteq; [apply table_cleanup_subseteq | exact Hok].
  - rewrite exec_bind. eapply table_sound_same; [|exact Hok].
    apply (off_bus_table _ keeps_is_bus_available).
  - rewrite exec_bind. eapply table_sound_same; [|exact Hok].
    apply keeps_table_send_single.
  - rewrite exec_bind. eapply table_sound_same; [|exact Hok].
    apply keeps_table_send_multi.
Qed.

Lemma table_sound_run_operations ops w :
  table_sound w -> table_sound (exec (run_operations ops) w).
Proof.
  revert w. induction ops as [|op ops IH]; intros w Hok; [exact Hok|].
  cbn [run_operations]. rewrite exec_bind. apply IH, table_sound_run_operation, Hok.
Qed.

Lemma table_sound_new source ts sem tx : table_sound (World_new source ts sem tx).
Proof. intros k mfm Hl. discriminate. Qed.

(** X9.  Whatever operations a freshly constructed controller has gone
    through, every session of its table is stored under the key made of
    its own tag and source address, its tag is one of the six valid
    tags, and it is not marked complete. *)
Theorem sessions_stored_under_their_own_key (source : Z) (ts : nat -> Z)
    (sem tx : nat -> bool) (ops : list Operation) (k : Z)
    (mfm : MultiFrameMessage) :
  let w := exec (run_operations ops) (World_new source ts sem tx) in
  multi_frame_messages (ctl w) !! k = Some mfm ->
  k = make_session_id (mfm_session_number mfm) (source_addr mfm)
  /\ is_valid_session (mfm_session_number mfm) = true
  /\ complete mfm = false.
Proof.
  intros w Hl.
  destruct (table_sound_run_operations ops _ (table_sound_new source ts sem tx)
              k mfm Hl) as (H1 & H2 & _ & _ & _ & H3).
  auto.
Qed.

Lemma sessions_stored_under_their_own_key_witness :
  exists mfm,
    multi_frame_messages
      (ctl (exec (run_operations [Receive announce_21; Receive data_seq1])
              quiet_world)) !! 0x0232 = Some mfm
    /\ 0x0232 = make_session_id (mfm_session_number mfm) (source_addr mfm)
    /\ is_valid_session (mfm_session_number mfm) = true
    /\ complete mfm = false.
Proof.
  eexists. split; [vm_compute; reflexivity|].
  apply (sessions_stored_under_their_own_key 0x10 (fun _ => 5) (fun _ => true)
           (fun _ => true) [Receive announce_21; Receive data_seq1] 0x0232).
  vm_compute. reflexivity.
Defined.

(** X10.  Whatever operations a freshly constructed controller has gone
    through, the buffer of every stored session holds exactly
    [min (7 * packets_received) total_size] bytes, and
    [packets_received] lies between 0 and [total_packets]. *)
Theorem buffer_holds_the_packets_received (source : Z) (ts : nat -> Z)
    (sem tx : nat -> bool) (ops : list Operation) (k : Z)
    (mfm : MultiFrameMessage) :
  let w := exec (run_operations ops) (World_new source ts sem tx) in
  multi_frame_messages (ctl w) !! k = Some mfm ->
  Z.of_nat (length (mfm_data mfm)) =
    Z.min (7 * packets_received mfm) (total_size mfm)
  /\ 0 <= packets_received mfm <= total_packets mfm.
Proof.
  intros w Hl.
  destruct (table_sound_run_operations ops _ (table_sound_new source ts sem tx)
              k mfm Hl) as (_ & _ & _ & H1 & H2 & _).
  auto.
Qed.

Lemma buffer_holds_the_packets_received_witness :
  exists mfm,
    multi_frame_messages
      (ctl (exec (run_operations [Receive announce_21; Receive data_seq1])
              quiet_world)) !! 0x0232 = Some mfm
    /\ Z.of_nat (length (mfm_data mfm)) =
       Z.min (7 * packets_received mfm) (total_size mfm)
    /\ 0 <= packets_received mfm <= total_packets mfm.
Proof.
  eexists. split; [vm_compute; reflexivity|].
  apply (buffer_holds_the_packets_received 0x10 (fun _ => 5) (fun _ => true)
           (fun _ => true) [Receive announce_21; Receive data_seq1] 0x0232).
  vm_compute. reflexivity.
Defined.

(** ** The oracles *)

Lemma keeps_oracles_release_bus k : keeps oracles (release_bus k).
Proof. unfold release_bus. keeps_go. Qed.

Lemma keeps_oracles_collect_stale now items acc :
  keeps oracles (collect_stale now items acc).
Proof.
  revert acc. induction items as [|item rest IH]; intros acc;
    cbn [collect_stale]; keeps_go.
Qed.

Lemma keeps_oracles_remove_sessions ids : keeps oracles (remove_sessions ids).
Proof.
  induction ids; cbn [remove_sessions]; [keeps_go|].
  apply keeps_bind; [keeps_go|]. intros _.
  apply keeps_bind; [apply keeps_oracles_release_bus|]. intros _. assumption.
Qed.

Lemma keeps_oracles_cleanup : keeps oracles cleanup_stale_sessions.
Proof.
  unfold cleanup_stale_sessions.
  apply keeps_bind; [keeps_go|]. intros now.
  apply keeps_bind; [keeps_go|]. intros c.
  apply keeps_bind; [apply keeps_oracles_collect_stale|]. intros ids.
  apply keeps_oracles_remove_sessions.
Qed.

Lemma always_granted_oracles w w' :
  oracles w' = oracles w -> always_granted w -> always_granted w'.
Proof.
  unfold oracles, always_granted. intros H Hg n. injection H as _ -> _. apply Hg.
Qed.

(** ** The bus after a completed transfer *)

Lemma release_bus_no_owner k w :
  owners w = ∅ -> ctl (exec (release_bus k) w) = ctl w.
Proof.
  unfold owners. intros He. unfold release_bus. mrun.
  destruct (sem_grants w (sem_taken w)); mrun; [|reflexivity].
  rewrite He, lookup_empty. reflexivity.
Qed.

Lemma bus_view_remove_sessions ids : forall w,
  owners w = ∅ -> bus_view (exec (remove_sessions ids) w) = bus_view w.
Proof.
  induction ids as [|i ids IH]; intros w He; [reflexivity|].
  cbn [remove_sessions]. rewrite !exec_bind.
  set (w1 := exec (erase_session i) w).
  assert (owners w1 = ∅) as H1 by exact He.
  pose proof (release_bus_no_owner i w1 H1) as Hc.
  rewrite IH.
  - unfold bus_view, owners. rewrite Hc. reflexivity.
  - unfold owners. rewrite Hc. exact H1.
Qed.

Lemma bus_view_cleanup w :
  owners w = ∅ -> bus_view (exec cleanup_stale_sessions w) = bus_view w.
Proof.
  intros He. unfold cleanup_stale_sessions.
  rewrite !exec_bind. rewrite bus_view_remove_sessions.
  - unfold bus_view, owners. rewrite ctl_collect_stale. reflexivity.
  - unfold owners. rewrite ctl_collect_stale. exact He.
Qed.

Lemma release_bus_last_owner k w :
  sem_grants w (sem_taken w) = true ->
  owners w = {[ k := true ]} ->
  owners (exec (release_bus k) w) = ∅
  /\ bus_busy (ctl (exec (release_bus k) w)) = false.
Proof.
  unfold owners. intros Hg Ho. unfold release_bus. mrun. rewrite Hg. mrun.
  rewrite Ho, lookup_singleton_eq. mrun.
  rewrite delete_singleton_eq.
  destruct (decide (∅ = ∅)) as [_|Hne]; [|contradiction Hne; reflexivity].
  mrun. split; reflexivity.
Qed.

Section Transfer.
Variables (P : list byte) (pgn sa session : Z).
Hypothesis P_range : 0 < Z.of_nat (length P) < 65536.
Hypothesis sa_range : 0 <= sa < 256.
Hypothesis session_valid : is_valid_session session = true.

Let size := Z.of_nat (length P).
Let tp := (size + 6) / 7.
Let key := make_session_id session sa.

Lemma decode_bam_frame_run w :
  exec (decode_j1939_message (bam_frame sa pgn size session)) w =
  exec (parse_tp_cm (bam_frame sa pgn size session) sa) w.
Proof.
  destruct (transport_id _ _ sa transport_cm_id_check sa_range)
    as (Hflag & Hsrc & Hpgn).
  unfold decode_j1939_message.
  change (can_id (bam_frame sa pgn size session)) with
    (Z.lor (Z.lor (Z.lor 0x18EC0000 (Z.shiftl 0xFF 8)) sa) CAN_EFF_FLAG).
  rewrite Hflag, Hsrc, Hpgn. reflexivity.
Qed.

Lemma decode_bam_frame_bus w :
  multi_frame_messages (ctl w) !! key = None ->
  owners w = ∅ -> always_granted w ->
  let w' := exec (decode_j1939_message (bam_frame sa pgn size session)) w in
  owners w' = {[ key := true ]} /\ always_granted w'.
Proof.
  intros Hfree He Hg w'. subst w'.
  destruct (bam_control_byte sa pgn size session session_valid) as [Hcode Hsess].
  assert (exec (is_session_valid session sa) w = w) as Hsame.
  { unfold is_session_valid. rewrite session_valid. cbn [negb].
    rewrite exec_bind_get_ctl. fold key. rewrite Hfree. reflexivity. }
  assert (result (is_session_valid session sa) w = true) as Hvalid.
  { unfold is_session_valid. rewrite session_valid. cbn [negb].
    rewrite result_bind_get_ctl. fold key. rewrite Hfree. reflexivity. }
  rewrite decode_bam_frame_run.
  rewrite parse_tp_cm_bam_run; rewrite ?Hsess; try assumption.
  2: { rewrite announced_size_bam_frame by (unfold size in *; lia).
       unfold size in *. lia. }
  rewrite Hsame. fold key.
  set (w2 := exec cleanup_stale_sessions w).
  assert (always_granted w2) as Hg2
    by (apply (always_granted_oracles w); [apply keeps_oracles_cleanup | exact Hg]).
  assert (owners w2 = ∅) as He2.
  { pose proof (bus_view_cleanup w He) as Hv. unfold bus_view in Hv.
    injection Hv as _ Hv. unfold w2. rewrite Hv. exact He. }
  set (w3 := exec (acquire_bus key _) w2).
  destruct (open_session_bus key (announced_size (bam_frame sa pgn size session))
              (announced_pgn (bam_frame sa pgn size session)) sa session
              (announced_packets (bam_frame sa pgn size session)) w3)
    as (_ & _ & Ho).
  split.
  - unfold owners. rewrite Ho. unfold w3.
    rewrite acquire_bus_granted by apply Hg2. cbn.
    unfold owners in He2. rewrite He2. reflexivity.
  - apply (always_granted_oracles w2); [|exact Hg2].
    transitivity (oracles w3); [reflexivity|].
    assert (keeps oracles (acquire_bus key (announced_packets (bam_frame sa pgn size session)))) as Hk
      by (unfold acquire_bus; keeps_go).
    apply Hk.
Qed.

Lemma decode_burst_bus n : forall k w,
  0 <= k -> k + Z.of_nat (S n) = tp -> collecting P pgn sa session k w ->
  owners w = {[ key := true ]} -> always_granted w ->
  let w' := exec (decode_all (burst_frames P sa session (S n) k)) w in
  multi_frame_messages (ctl w') !! key = None
  /\ owners w' = ∅ /\ bus_busy (ctl w') = false.
Proof.
  pose proof (tp_bounds P P_range) as Hb. fold size tp in Hb.
  induction n as [|n IH];
    intros k w Hk Hn (mfm & Hl & Hd & Hs & Hp & Ht & Hg & Ha) Ho Hgr.
  - cbn [burst_frames decode_all]. rewrite exec_bind, exec_ret.
    rewrite (decode_burst_frame P pgn sa session P_range sa_range session_valid
               k w mfm) by (assumption || (fold size tp; lia)).
    cbv zeta. fold size tp key. destruct (Z.leb_spec tp (k + 1)); [|lia].
    rewrite !exec_bind.
    set (w1 := exec (erase_session key) _).
    assert (owners w1 = {[ key := true ]}) as Ho1 by exact Ho.
    destruct (release_bus_last_owner key w1 (Hgr _) Ho1) as [H1 H2].
    split; [|split; assumption].
    change (multi_frame_messages (ctl ?x)) with (table x).
    rewrite table_release_bus. unfold w1. rewrite table_erase_session.
    apply lookup_delete_eq.
  - cbn [burst_frames decode_all]. rewrite exec_bind.
    rewrite (decode_burst_frame P pgn sa session P_range sa_range session_valid
               k w mfm) by (assumption || (fold size tp; lia)).
    cbv zeta. fold size tp key. destruct (Z.leb_spec tp (k + 1)); [lia|].
    apply (IH (k + 1)); [lia | lia | | exact Ho | exact Hgr].
    eexists. split; [unfold modify_ctl; mrun; apply lookup_insert_eq|].
    cbn [mfm_data total_size packets_received total_packets mfm_pgn
         source_addr].
    repeat split; assumption.
Qed.

Lemma completed_transfer w :
  multi_frame_messages (ctl w) !! key = None ->
  owners w = ∅ -> always_granted w ->
  let w' := exec (decode_all (burst P pgn sa session)) w in
  multi_frame_messages (ctl w') !! key = None
  /\ owners w' = ∅ /\ bus_busy (ctl w') = false.
Proof.
  intros Hfree He Hg. unfold burst. fold size tp.
  cbn [decode_all]. rewrite exec_bind.
  destruct (decode_bam_frame P pgn sa session P_range sa_range session_valid w Hfree)
    as [Hcol _].
  destruct (decode_bam_frame_bus w Hfree He Hg) as [Ho Hg'].
  pose proof (tp_bounds P P_range) as Hb. fold size tp in Hb.
  destruct (Z.to_nat tp) as [|n] eqn:En; [lia|].
  apply decode_burst_bus; [lia | lia | exact Hcol | exact Ho | exact Hg'].
Qed.
End Transfer.

(** X11.  On a receiver whose bus mutex is never contended, that holds no
    session under the burst's key and has no bus owner, decoding a whole
    burst (the announce, then every data frame) of a payload of 1 to
    65535 bytes leaves the key free again, no owner of the bus and
    [bus_busy] cleared. *)
Theorem completed_transfer_frees_the_bus (P : list byte) (pgn sa session : Z)
    (w : World) :
  let key := make_session_id session sa in
  let w' := exec (decode_all (burst P pgn sa session)) w in
  0 < Z.of_nat (length P) < 65536 ->
  0 <= sa < 256 ->
  is_valid_session session = true ->
  multi_frame_messages (ctl w) !! key = None ->
  active_bam_sessions (ctl w) = ∅ ->
  always_granted w ->
  multi_frame_messages (ctl w') !! key = None
  /\ active_bam_sessions (ctl w') = ∅
  /\ bus_busy (ctl w') = false.
Proof.
  intros key w' HP Hsa Hs Hfree He Hg.
  apply (completed_transfer P pgn sa session HP Hsa Hs w Hfree He Hg).
Qed.

Lemma completed_transfer_frees_the_bus_witness :
  bus_busy (ctl (exec (decode_all (burst hello 0xEF20 0x32 2)) quiet_world)) = false
  /\ bus_busy (ctl (exec (decode_j1939_message (bam_frame 0x32 0xEF20 21 2))
                      quiet_world)) = true.
Proof.
  split; [|reflexivity].
  apply (completed_transfer_frees_the_bus hello 0xEF20 0x32 2 quiet_world).
  - vm_compute. split; reflexivity.
  - lia.
  - reflexivity.
  - reflexivity.
  - reflexivity.
  - intros n. reflexivity.
Defined.

(** ** Identifiers of every PDU format *)

Lemma extended_id_fields (pf ps sa : Z) :
  0 <= pf < 256 -> 0 <= ps < 256 -> 0 <= sa < 256 ->
  let id :=
    Z.lor (Z.lor (Z.lor (Z.lor 0x18000000 (Z.shiftl pf 16)) (Z.shiftl ps 8)) sa)
      CAN_EFF_FLAG in
  (Z.land id CAN_EFF_FLAG =? 0) = false
  /\ Z.land (Z.land id CAN_EFF_MASK) 0xFF = sa
  /\ decode_pgn (Z.land id CAN_EFF_MASK) =
     if pf <? 240 then pf * 256 else pf * 256 + ps.
Proof.
  intros Hpf Hps Hsa id.
  assert (Z.lor (Z.lor (Z.lor 0x18000000 (Z.shiftl pf 16)) (Z.shiftl ps 8)) sa
          = 0x18000000 + pf * 65536 + ps * 256 + sa) as Hlow.
  { rewrite !Z.shiftl_mul_pow2 by lia.
    change (2 ^ 16) with 65536. change (2 ^ 8) with 256.
    rewrite (lor_add_aligned 402653184 (pf * 65536) 24).
    2: lia. 2: reflexivity. 2: change (2 ^ 24) with 16777216; lia.
    rewrite (lor_add_aligned _ (ps * 256) 16).
    2: lia. 2: change (2 ^ 16) with 65536; Z.div_mod_to_equations; lia.
    2: change (2 ^ 16) with 65536; lia.
    rewrite (lor_add_aligned _ sa 8).
    2: lia. 2: change (2 ^ 8) with 256; Z.div_mod_to_equations; lia.
    2: change (2 ^ 8) with 256; lia.
    reflexivity. }
  split; [|split].
  - apply Z.eqb_neq. unfold id. rewrite Z.land_lor_distr_l, Z.land_diag.
    intros H0. apply Z.lor_eq_0_iff in H0 as [_ H0]. discriminate H0.
  - unfold id. rewrite Hlow.
    change CAN_EFF_FLAG with (Z.shiftl 1 31).
    rewrite Z.lor_comm, (lor_shiftl_add _ _ 31)
      by (change (2 ^ 31) with 2147483648; lia).
    change CAN_EFF_MASK with (Z.ones 29). rewrite Z.land_ones, land_255 by lia.
    change (2 ^ 31) with 2147483648. change (2 ^ 29) with 536870912.
    Z.div_mod_to_equations. lia.
  - unfold id. rewrite Hlow.
    change CAN_EFF_FLAG with (Z.shiftl 1 31).
    rewrite Z.lor_comm, (lor_shiftl_add _ _ 31)
      by (change (2 ^ 31) with 2147483648; lia).
    change CAN_EFF_MASK with (Z.ones 29). rewrite Z.land_ones by lia.
    change (2 ^ 31) with 2147483648. change (2 ^ 29) with 536870912.
    set (y := 402653184 + pf * 65536 + ps * 256 + sa).
    assert ((1 * 2147483648 + y) mod 536870912 = y) as ->
      by (unfold y; Z.div_mod_to_equations; lia).
    rewrite decode_pgn_bits. unfold spec_pgn.
    rewrite !land_255, shiftr_8, shiftr_16.
    rewrite (Z.shiftr_div_pow2 y 24) by lia. change (2 ^ 24) with 16777216.
    assert (y / 16777216 = 24) as -> by (unfold y; Z.div_mod_to_equations; lia).
    assert (y / 65536 mod 256 = pf) as ->
      by (unfold y; Z.div_mod_to_equations; lia).
    assert (y / 256 mod 256 = ps) as ->
      by (unfold y; Z.div_mod_to_equations; lia).
    change (Z.shiftl (Z.land 24 3) 16) with 0. rewrite Z.lor_0_l.
    destruct (Z.ltb_spec pf 240).
    + rewrite Z.shiftl_mul_pow2 by lia. reflexivity.
    + rewrite (lor_shiftl_add _ _ 8) by (change (2 ^ 8) with 256; lia).
      reflexivity.
Qed.

Lemma received_pgn_value (pgn : Z) :
  let pf := Z.land (Z.shiftr pgn 8) 0xFF in
  let ps := Z.land pgn 0xFF in
  0 <= pf < 256 /\ 0 <= ps < 256
  /\ received_pgn pgn = if pf <? 240 then pf * 256 else pf * 256 + ps.
Proof.
  intros pf ps.
  assert (0 <= pf < 256 /\ 0 <= ps < 256) as [Hpf Hps].
  { unfold pf, ps. rewrite !land_255. split; apply Z.mod_pos_bound; lia. }
  split; [exact Hpf|]. split; [exact Hps|].
  unfold received_pgn. fold pf ps.
  destruct (pf <? 240).
  - rewrite Z.shiftl_mul_pow2 by lia. reflexivity.
  - rewrite (lor_shiftl_add _ _ 8) by (change (2 ^ 8) with 256; lia).
    reflexivity.
Qed.

(** Decoding the one frame of a single-frame send. *)
Lemma decode_single_frame (P : list byte) (pgn sa : Z) (w : World) :
  let pf := Z.land (Z.shiftr pgn 8) 0xFF in
  0 <= sa < 256 ->
  pf <> 0xEC -> pf <> 0xEB -> pf <> 0xEA ->
  exec (decode_j1939_message
          (mk_can_frame (single_frame_id_of pgn sa) (Z.of_nat (length P)) P)) w =
  exec (printf_record (mkRecord (received_pgn pgn) sa SF (hex_of_bytes P))) w.
Proof.
  intros pf Hsa HnCM HnDT HnRQ.
  destruct (received_pgn_value pgn) as (Hpf & Hps & Hrx). fold pf in Hpf, Hrx.
  set (ps := Z.land pgn 0xFF) in *.
  destruct (extended_id_fields pf ps sa Hpf Hps Hsa) as (Hflag & Hsrc & Hpgn).
  unfold decode_j1939_message, single_frame_id_of. cbn [can_id can_dlc].
  fold pf ps. rewrite Hflag, Hsrc, Hpgn, <- Hrx.
  assert (received_pgn pgn <> PGN_TP_CM /\ received_pgn pgn <> PGN_TP_DT
          /\ received_pgn pgn <> PGN_REQUEST) as (H1 & H2 & H3).
  { rewrite Hrx. unfold PGN_TP_CM, PGN_TP_DT, PGN_REQUEST.
    destruct (Z.ltb_spec pf 240); lia. }
  destruct (Z.eqb_spec (received_pgn pgn) PGN_TP_CM); [contradiction|].
  destruct (Z.eqb_spec (received_pgn pgn) PGN_TP_DT); [contradiction|].
  destruct (Z.eqb_spec (received_pgn pgn) PGN_REQUEST); [contradiction|].
  rewrite Nat2Z.id, frame_bytes_all. reflexivity.
Qed.

Lemma single_frame_round_trip_any (P : list byte) (pgn dst : Z) (ws wr : World) :
  let size := Z.of_nat (length P) in
  let sa := source_address (ctl ws) in
  let pf := Z.land (Z.shiftr pgn 8) 0xFF in
  0 <= sa < 256 ->
  pf <> 0xEC -> pf <> 0xEB -> pf <> 0xEA ->
  result (send_single_frame_message pgn dst P size) ws = true ->
  stdout (exec (decode_all (emitted (send_single_frame_message pgn dst P size) ws)) wr)
  = stdout wr ++ [mkRecord (received_pgn pgn) sa SF (hex_of_bytes P)].
Proof.
  intros size sa pf Hsa H1 H2 H3 Hres.
  rewrite send_single_frame_emits by assumption. fold size sa.
  cbn [decode_all]. rewrite exec_bind, exec_ret.
  change (Z.lor _ CAN_EFF_FLAG) with (single_frame_id_of pgn sa).
  unfold size. rewrite decode_single_frame by assumption. reflexivity.
Qed.

(** X12.  A single frame sent with any PGN other than those of TP.CM, TP.DT
    and request (PDU formats 0xEC, 0xEB, 0xEA) decodes to exactly one
    record of size "SF" carrying the payload; its PGN keeps the low byte
    of the PGN sent only from PDU format 240 on, and is
    [pdu_format << 8] below, so that 0xEF10 arrives as 0xEF00. *)
Theorem single_frame_loses_pdu_specific (P : list byte) (pgn dst : Z)
    (ws wr : World) :
  let size := Z.of_nat (length P) in
  let sa := source_address (ctl ws) in
  let pdu_format := Z.land (Z.shiftr pgn 8) 0xFF in
  0 <= sa < 256 ->
  pdu_format <> 0xEC -> pdu_format <> 0xEB -> pdu_format <> 0xEA ->
  result (send_single_frame_message pgn dst P size) ws = true ->
  stdout (exec (decode_all (emitted (send_single_frame_message pgn dst P size) ws)) wr)
  = stdout wr ++ [mkRecord (received_pgn pgn) sa SF (hex_of_bytes P)].
Proof. apply single_frame_round_trip_any. Qed.

Lemma single_frame_loses_pdu_specific_witness :
  stdout (exec (decode_all (emitted (send_single_frame_message PGN_GROUP_MESSAGE 0xFF
                                       (take 3 hello) 3) sender_world)) quiet_world)
  = [mkRecord 0xEF00 0x32 SF "48656C"].
Proof.
  apply (single_frame_loses_pdu_specific (take 3 hello) PGN_GROUP_MESSAGE 0xFF
           sender_world quiet_world).
  - vm_compute. split; [discriminate | reflexivity].
  - vm_compute. discriminate.
  - vm_compute. discriminate.
  - vm_compute. discriminate.
  - reflexivity.
Defined.

(** ** Data packets *)

Lemma send_data_packet_emits (seq_num dst : Z) (payload : list byte)
    (len session : Z) (w : World) :
  result (send_data_packet seq_num dst payload len session) w = true ->
  emitted (send_data_packet seq_num dst payload len session) w =
  [ mk_can_frame
      (Z.lor (Z.lor (Z.lor 0x18EB0000 (Z.shiftl dst 8)) (source_address (ctl w)))
         CAN_EFF_FLAG)
      8
      (to_byte (Z.lor seq_num (Z.shiftl (Z.land session 0x0F) 4))
       :: take (Z.to_nat (if 7 <? len then 7 else len)) payload
       ++ replicate (Z.to_nat (7 - (if 7 <? len then 7 else len))) xff) ].
Proof.
  unfold emitted, send_data_packet.
  rewrite exec_bind_get_ctl, result_bind_get_ctl, result_sendMessage.
  intros Hok. unfold exec, sendMessage. cbn [snd wire]. rewrite Hok.
  apply drop_app_length.
Qed.

Lemma data_packet_id (dst sa : Z) :
  0 <= dst < 256 -> 0 <= sa < 256 ->
  let id := Z.lor (Z.lor (Z.lor 0x18EB0000 (Z.shiftl dst 8)) sa) CAN_EFF_FLAG in
  (Z.land id CAN_EFF_FLAG =? 0) = false
  /\ Z.land (Z.land id CAN_EFF_MASK) 0xFF = sa
  /\ decode_pgn (Z.land id CAN_EFF_MASK) = PGN_TP_DT.
Proof.
  intros Hdst Hsa.
  change 0x18EB0000 with (Z.lor 0x18000000 (Z.shiftl 0xEB 16)).
  destruct (extended_id_fields 0xEB dst sa ltac:(lia) Hdst Hsa) as (H1 & H2 & H3).
  auto.
Qed.

(** X13.  A frame sent by [send_data_packet], to whatever destination
    byte, has 8 data bytes, carries the sequence number and the session
    tag in the two halves of its first byte, and is handed by
    [decode_j1939_message] to [parse_tp_dt] with the sender's source
    address. *)
Theorem data_packet_reaches_parse_tp_dt (seq_num dst : Z) (payload : list byte)
    (len session : Z) (ws wr : World) :
  let sa := source_address (ctl ws) in
  0 <= dst < 256 -> 0 <= sa < 256 ->
  0 <= seq_num < 16 -> 0 <= session < 16 ->
  result (send_data_packet seq_num dst payload len session) ws = true ->
  exists frame,
    emitted (send_data_packet seq_num dst payload len session) ws = [frame]
    /\ can_dlc frame = 8
    /\ Z.land (frame_byte frame 0) 0x0F = seq_num
    /\ Z.land (Z.shiftr (frame_byte frame 0) 4) 0x0F = session
    /\ exec (decode_j1939_message frame) wr = exec (parse_tp_dt frame sa) wr.
Proof.
  intros sa Hdst Hsa Hseq Hsess Hres.
  eexists. split; [apply send_data_packet_emits; exact Hres|].
  split; [reflexivity|].
  destruct (first_byte_fields seq_num session Hseq Hsess) as [Hf Hs].
  split; [exact Hf|]. split; [exact Hs|].
  destruct (data_packet_id dst sa Hdst Hsa) as (Hflag & Hsrc & Hpgn).
  unfold decode_j1939_message. cbn [can_id]. fold sa.
  rewrite Hflag, Hsrc, Hpgn. reflexivity.
Qed.

Lemma data_packet_reaches_parse_tp_dt_witness :
  exists frame,
    emitted (send_data_packet 1 0x10 hello 21 2) sender_world = [frame]
    /\ can_dlc frame = 8
    /\ Z.land (frame_byte frame 0) 0x0F = 1
    /\ Z.land (Z.shiftr (frame_byte frame 0) 4) 0x0F = 2
    /\ exec (decode_j1939_message frame) quiet_world =
       exec (parse_tp_dt frame 0x32) quiet_world.
Proof.
  apply (data_packet_reaches_parse_tp_dt 1 0x10 hello 21 2 sender_world quiet_world);
    try lia; try reflexivity; vm_compute; split; (discriminate || reflexivity).
Defined.

(** X14.  [send_data_packet] called with sequence field, destination 0xFF,
    slice and slice length of data frame [k + 1] of a payload puts on
    the wire exactly the frame that the loop of
    [send_multi_frame_message] builds for that packet. *)
Theorem data_packet_is_burst_frame (P : list byte) (session k : Z) (w : World) :
  let packet :=
    send_data_packet (seq_field (k + 1)) 0xFF (drop (Z.to_nat (k * 7)) P)
      (chunk P k) session in
  0 < Z.of_nat (length P) < 65536 ->
  0 <= k < (Z.of_nat (length P) + 6) / 7 ->
  result packet w = true ->
  emitted packet w = [burst_frame P (source_address (ctl w)) session k].
Proof.
  intros packet HP Hk Hres. subst packet.
  rewrite send_data_packet_emits by exact Hres.
  destruct (chunk_range P 0 0 HP k Hk) as [Hc _].
  destruct (Z.ltb_spec 7 (chunk P k)); [lia|].
  f_equal. unfold burst_frame at 1, data_frame at 1.
  pose proof (burst_frame_data P (source_address (ctl w)) session HP k Hk) as Hd.
  unfold burst_frame, data_frame in Hd. cbn [data] in Hd.
  f_equal. symmetry. exact Hd.
Qed.

Lemma data_packet_is_burst_frame_witness :
  emitted (send_data_packet 3 0xFF (drop 14 hello) 7 2) sender_world
  = [burst_frame hello 0x32 2 2].
Proof.
  apply (data_packet_is_burst_frame hello 2 2 sender_world).
  - vm_compute. split; reflexivity.
  - vm_compute. split; [discriminate | reflexivity].
  - reflexivity.
Defined.

(** ** Bursts of every size *)

Lemma multi_frame_round_trip_any (P : list byte) (pgn : Z) (ws wr : World) :
  let size := Z.of_nat (length P) in
  let sa := source_address (ctl ws) in
  let session := nth (Z.to_nat (session_index (ctl ws))) working_sessions 0 in
  0 < size < 65536 ->
  0 <= sa < 256 ->
  0 <= session_index (ctl ws) < 6 ->
  result (send_multi_frame_message pgn P size) ws = true ->
  multi_frame_messages (ctl wr) !! make_session_id session sa = None ->
  emitted (send_multi_frame_message pgn P size) ws = burst P pgn sa session
  /\ stdout (exec (decode_all (burst P pgn sa session)) wr)
     = stdout wr ++ [mkRecord (Z.land pgn 0xFFFFFF) sa (Bytes size) (hex_of_bytes P)].
Proof.
  intros size sa session Hrange Hsa Hidx Hres Hfree.
  pose proof (working_session_valid _ Hidx) as Hvalid. fold session in Hvalid.
  split; [apply send_multi_frame_emits; assumption|].
  unfold burst. fold size.
  cbn [decode_all]. rewrite exec_bind.
  destruct (decode_bam_frame P pgn sa session Hrange Hsa Hvalid wr Hfree)
    as [Hcol Hout].
  fold size in Hcol, Hout.
  pose proof (packet_count_bounds size Hrange) as Hb.
  destruct (Z.to_nat ((size + 6) / 7)) as [|n] eqn:En; [lia|].
  rewrite (decode_burst P pgn sa session Hrange Hsa Hvalid n 0);
    [ | lia | fold size; lia | exact Hcol ].
  fold size. rewrite Hout, announced_pgn_bam_frame. reflexivity.
Qed.

(** X15.  The multi-frame round trip holds for every payload of 1 to 65535
    bytes, the whole range of the 16-bit size: if
    [send_multi_frame_message] returns true, decoding the frames it put
    on the wire on a controller whose key for the burst is free emits
    exactly one record with the payload's size, its hex and the low 24
    bits of the PGN. *)
Theorem multi_frame_round_trip_up_to_65535 (P : list byte) (pgn : Z)
    (ws wr : World) :
  let size := Z.of_nat (length P) in
  let sa := source_address (ctl ws) in
  let session := nth (Z.to_nat (session_index (ctl ws))) working_sessions 0 in
  0 < size < 65536 ->
  0 <= sa < 256 ->
  0 <= session_index (ctl ws) < 6 ->
  result (send_multi_frame_message pgn P size) ws = true ->
  multi_frame_messages (ctl wr) !! make_session_id session sa = None ->
  stdout (exec (decode_all (emitted (send_multi_frame_message pgn P size) ws)) wr)
  = stdout wr ++ [mkRecord (Z.land pgn 0xFFFFFF) sa (Bytes size) (hex_of_bytes P)].
Proof.
  intros size sa session Hrange Hsa Hidx Hres Hfree.
  destruct (multi_frame_round_trip_any P pgn ws wr Hrange Hsa Hidx Hres Hfree)
    as [He H].
  unfold size. rewrite He. exact H.
Qed.

Lemma multi_frame_round_trip_up_to_65535_witness :
  stdout (exec (decode_all (emitted (send_multi_frame_message 0xEF10
                                       (hello ++ hello) 42) sender_world))
            quiet_world)
  = [mkRecord 0xEF10 0x32 (Bytes 42) (hex_of_bytes (hello ++ hello))].
Proof.
  apply (multi_frame_round_trip_up_to_65535 (hello ++ hello) 0xEF10
           sender_world quiet_world).
  - vm_compute. split; reflexivity.
  - vm_compute. split; [discriminate | reflexivity].
  - vm_compute. split; [discriminate | reflexivity].
  - vm_compute. reflexivity.
  - vm_compute. reflexivity.
Defined.

(** ** Keys and the hex of the sink *)

Lemma make_session_id_value (s a : Z) :
  0 <= s < 256 -> 0 <= a < 256 -> make_session_id s a = s * 256 + a.
Proof.
  intros Hs Ha. unfold make_session_id, wrap16.
  rewrite (lor_shiftl_add _ _ 8) by (change (2 ^ 8) with 256; lia).
  change (2 ^ 8) with 256. change (2 ^ 16) with 65536.
  apply Z.mod_small. lia.
Qed.

(** X16.  Two pairs of a tag byte and a source-address byte that get the
    same session key are the same pair: sessions of different sources
    or tags never share an entry of the table. *)
Theorem make_session_id_injective (s1 a1 s2 a2 : Z) :
  0 <= s1 < 256 -> 0 <= a1 < 256 -> 0 <= s2 < 256 -> 0 <= a2 < 256 ->
  make_session_id s1 a1 = make_session_id s2 a2 -> s1 = s2 /\ a1 = a2.
Proof.
  intros H1 H2 H3 H4. rewrite !make_session_id_value by assumption. lia.
Qed.

Lemma make_session_id_injective_witness :
  make_session_id 2 0x32 = 0x0232
  /\ (make_session_id 2 0x32 = make_session_id 2 0x32 -> 2 = 2 /\ 0x32 = 0x32).
Proof.
  split; [reflexivity|].
  apply (make_session_id_injective 2 0x32 2 0x32); lia.
Defined.

Lemma hex_digit_injective (a b : Z) :
  0 <= a < 16 -> 0 <= b < 16 -> hex_digit a = hex_digit b -> a = b.
Proof.
  intros Ha Hb Heq.
  assert (check_from hex_digits_differ 0 256 = true) as Hc by (vm_compute; reflexivity).
  pose proof (check_from_sound _ _ 0 (a * 16 + b) Hc ltac:(lia)) as H.
  unfold hex_digits_differ in H.
  replace ((a * 16 + b) / 16) with a in H by (Z.div_mod_to_equations; lia).
  replace ((a * 16 + b) mod 16) with b in H by (Z.div_mod_to_equations; lia).
  rewrite Heq, Ascii.eqb_refl in H. cbn [negb orb] in H.
  apply Z.eqb_eq. exact H.
Qed.

Lemma u8_injective (b1 b2 : byte) : u8 b1 = u8 b2 -> b1 = b2.
Proof.
  unfold u8. intros H. apply N2Z.inj in H.
  pose proof (Byte.of_to_N b1) as H1. pose proof (Byte.of_to_N b2) as H2.
  rewrite H in H1. congruence.
Qed.

Lemma hex_of_bytes_cons (b : byte) (l : list byte) :
  hex_of_bytes (b :: l) =
  String (hex_digit (u8 b / 16)) (String (hex_digit (u8 b mod 16)) (hex_of_bytes l)).
Proof. reflexivity. Qed.

Lemma hex_of_bytes_injective (l1 : list byte) : forall l2,
  hex_of_bytes l1 = hex_of_bytes l2 -> l1 = l2.
Proof.
  induction l1 as [|b1 l1 IH]; intros [|b2 l2] H.
  - reflexivity.
  - rewrite hex_of_bytes_cons in H. discriminate.
  - rewrite hex_of_bytes_cons in H. discriminate.
  - rewrite !hex_of_bytes_cons in H. injection H as Hhi Hlo Hrest.
    pose proof (u8_range b1). pose proof (u8_range b2).
    apply hex_digit_injective in Hhi; [|Z.div_mod_to_equations; lia ..].
    apply hex_digit_injective in Hlo; [|Z.div_mod_to_equations; lia ..].
    f_equal; [|apply IH; exact Hrest].
    apply u8_injective. Z.div_mod_to_equations. lia.
Qed.

Lemma length_hex_of_bytes (l : list byte) :
  String.length (hex_of_bytes l) = (2 * length l)%nat.
Proof.
  induction l as [|b l IH]; [reflexivity|].
  rewrite hex_of_bytes_cons. cbn [String.length length]. rewrite IH. lia.
Qed.

(** X17.  The data field of a record has two characters per payload byte,
    and two payloads with the same data field are the same payload. *)
Theorem sink_data_is_lossless (l1 l2 : list byte) :
  String.length (hex_of_bytes l1) = (2 * length l1)%nat
  /\ (hex_of_bytes l1 = hex_of_bytes l2 <-> l1 = l2).
Proof.
  split; [apply length_hex_of_bytes|].
  split; [apply hex_of_bytes_injective | intros ->; reflexivity].
Qed.

(** ** The sender task *)

Lemma select_pgn_cases (data : list byte) :
  (fst (select_pgn data) = PGN_PEER_TO_PEER_MESSAGE
   \/ fst (select_pgn data) = PGN_GROUP_MESSAGE
   \/ fst (select_pgn data) = PGN_EXTRA)
  /\ (snd (select_pgn data) = data \/ snd (select_pgn data) = drop 2 data).
Proof.
  unfold select_pgn.
  destruct (_ && _); cbn [fst snd]; [|auto].
  split; [|auto].
  destruct (_ =? 1); [auto|]. destruct (_ =? 2); [auto|].
  destruct (_ =? 3); auto.
Qed.

Lemma length_strip_line_end (data : list byte) :
  (length (strip_line_end data) <= length data)%nat.
Proof.
  unfold strip_line_end.
  destruct data as [|x l _] using rev_ind; [cbn; lia|].
  rewrite last_snoc. destruct (_ || _); [|lia].
  rewrite removelast_last, length_app. lia.
Qed.

Lemma length_select_pgn (data : list byte) :
  (length (snd (select_pgn data)) <= length data)%nat.
Proof.
  destruct (select_pgn_cases data) as [_ [-> | ->]]; [lia|].
  rewrite length_drop. lia.
Qed.

Lemma send_now_sent (pgn : Z) (message : list byte) (w : World) :
  let len := Z.of_nat (length message) in
  let w1 := exec xSemaphoreTake (exec is_bus_available w) in
  let send :=
    if len <=? 8 then send_single_frame_message pgn 0xFF message (wrap8 len)
    else send_multi_frame_message pgn message (wrap16 len) in
  result (send_now pgn message) w = true ->
  result send w1 = true
  /\ emitted (send_now pgn message) w = emitted send w1
  /\ surroundings w1 = surroundings w.
Proof.
  intros len w1 send. unfold send_now. fold len.
  rewrite result_bind. unfold emitted. rewrite exec_bind.
  assert (surroundings w1 = surroundings w) as Hs.
  { transitivity (surroundings (exec is_bus_available w)); [reflexivity|].
    apply (off_bus_surroundings _ keeps_is_bus_available). }
  destruct (result is_bus_available w); [|discriminate].
  rewrite result_bind, exec_bind.
  destruct (result xSemaphoreTake (exec is_bus_available w)); [|discriminate].
  fold w1. rewrite !result_bind, !exec_bind. fold send.
  change (result (mret (result send w1)) ?x) with (result send w1).
  change (exec (mret (result send w1)) ?x) with x.
  change (exec xSemaphoreGive ?x) with x.
  intros Hres. split; [exact Hres|]. split; [|exact Hs].
  unfold surroundings in Hs. injection Hs as _ _ _ Hw _ _ _ _.
  replace (wire w1) with (wire w) by (symmetry; exact Hw). reflexivity.
Qed.

Lemma application_pgn_received (pgn : Z) :
  pgn = PGN_PEER_TO_PEER_MESSAGE \/ pgn = PGN_GROUP_MESSAGE \/ pgn = PGN_EXTRA ->
  received_pgn pgn = PGN_PEER_TO_PEER_MESSAGE
  /\ Z.land pgn 0xFFFFFF = pgn
  /\ Z.land (Z.shiftr pgn 8) 0xFF = 0xEF.
Proof. intros [-> | [-> | ->]]; repeat split. Qed.

Lemma line_round_trip (pgn : Z) (message : list byte) (ws wr : World) :
  let len := Z.of_nat (length message) in
  let sa := source_address (ctl ws) in
  let session := nth (Z.to_nat (session_index (ctl ws))) working_sessions 0 in
  pgn = PGN_PEER_TO_PEER_MESSAGE \/ pgn = PGN_GROUP_MESSAGE \/ pgn = PGN_EXTRA ->
  len < 65536 ->
  0 <= sa < 256 ->
  0 <= session_index (ctl ws) < 6 ->
  (8 < len -> multi_frame_messages (ctl wr) !! make_session_id session sa = None) ->
  result (send_now pgn message) ws = true ->
  stdout (exec (decode_all (emitted (send_now pgn message) ws)) wr) =
  stdout wr ++
  [ if len <=? 8
    then mkRecord PGN_PEER_TO_PEER_MESSAGE sa SF (hex_of_bytes message)
    else mkRecord pgn sa (Bytes len) (hex_of_bytes message) ].
Proof.
  intros len sa session Hpgn Hlen Hsa Hidx Hfree Hres.
  destruct (send_now_sent pgn message ws Hres) as (Hsent & -> & Hs).
  fold len in Hsent |- *.
  set (w1 := exec xSemaphoreTake (exec is_bus_available ws)) in *.
  assert (source_address (ctl w1) = sa) as Hsa1
    by (unfold surroundings in Hs; injection Hs; auto).
  assert (session_index (ctl w1) = session_index (ctl ws)) as Hsi1
    by (unfold surroundings in Hs; injection Hs; auto).
  destruct (application_pgn_received pgn Hpgn) as (Hrx & Hmask & Hpf).
  destruct (Z.leb_spec len 8) as [Hshort|Hlong].
  - assert (wrap8 len = len) as Hw
      by (apply Z.mod_small; change (2 ^ 8) with 256; lia).
    rewrite Hw in *. unfold len in Hsent |- *.
    rewrite single_frame_round_trip_any;
      rewrite ?Hsa1, ?Hpf, ?Hrx; try assumption; try lia. reflexivity.
  - assert (wrap16 len = len) as Hw
      by (apply Z.mod_small; change (2 ^ 16) with 65536; lia).
    rewrite Hw in *. unfold len in Hsent |- *.
    destruct (multi_frame_round_trip_any message pgn w1 wr) as [-> Hout];
      rewrite ?Hsa1, ?Hsi1; try assumption; try lia.
    + apply Hfree. exact Hlong.
    + rewrite Hsa1, Hsi1 in Hout. rewrite Hout, Hmask. reflexivity.
Qed.

Lemma handle_line_result (data : list byte) (queue : list message_entry_t)
    (w : World) :
  let line := strip_line_end data in
  let pgn := fst (select_pgn line) in
  let message := snd (select_pgn line) in
  let len := Z.of_nat (length message) in
  let w1 := exec (send_now pgn message) w in
  result (handle_line data queue) w =
    (if result (send_now pgn message) w then queue
     else queue ++ [mk_message_entry pgn message len (8 <? len)
                      (wrap32 (timestamps w1 (ts_read w1)))])
  /\ wire (exec (handle_line data queue) w) = wire w1.
Proof.
  intros line pgn message len w1. unfold handle_line.
  fold line. fold pgn message. fold len.
  rewrite result_bind, exec_bind. fold w1.
  destruct (result (send_now pgn message) w); cbn [negb].
  - split; reflexivity.
  - rewrite result_bind, exec_bind. split; reflexivity.
Qed.

(** X18.  A line of the sender task that is sent at once (the queue comes
    back unchanged) reaches a receiver as exactly one record carrying
    the bytes after the optional PGN prefix: a message of up to 8 bytes
    as a record of size "SF" whose PGN is 0xEF00 whichever of the three
    PGNs the prefix selected, a longer one as a record with its length
    and the selected PGN. *)
Theorem line_sent_at_once_round_trip (data : list byte)
    (queue : list message_entry_t) (ws wr : World) :
  let line := strip_line_end data in
  let pgn := fst (select_pgn line) in
  let message := snd (select_pgn line) in
  let len := Z.of_nat (length message) in
  let sa := source_address (ctl ws) in
  let session := nth (Z.to_nat (session_index (ctl ws))) working_sessions 0 in
  Z.of_nat (length data) < BUF_SIZE ->
  0 <= sa < 256 ->
  0 <= session_index (ctl ws) < 6 ->
  (8 < len -> multi_frame_messages (ctl wr) !! make_session_id session sa = None) ->
  result (handle_line data queue) ws = queue ->
  stdout (exec (decode_all (emitted (handle_line data queue) ws)) wr) =
  stdout wr ++
  [ if len <=? 8
    then mkRecord PGN_PEER_TO_PEER_MESSAGE sa SF (hex_of_bytes message)
    else mkRecord pgn sa (Bytes len) (hex_of_bytes message) ].
Proof.
  intros line pgn message len sa session Hbuf Hsa Hidx Hfree Hres.
  destruct (handle_line_result data queue ws) as [Hr Hw].
  fold line pgn message len in Hr, Hw.
  rewrite Hr in Hres.
  destruct (result (send_now pgn message) ws) eqn:Hsent.
  2: { apply (f_equal length) in Hres. rewrite length_app in Hres.
       cbn [length] in Hres. lia. }
  unfold emitted. rewrite Hw.
  change (drop (length (wire ws)) (wire (exec (send_now pgn message) ws)))
    with (emitted (send_now pgn message) ws).
  apply line_round_trip; try assumption.
  - apply select_pgn_cases.
  - pose proof (length_select_pgn line) as H1.
    pose proof (length_strip_line_end data) as H2.
    fold message in H1. fold line in H2. unfold BUF_SIZE in Hbuf.
    change (Z.of_nat (length message) < 65536). lia.
Qed.

Lemma line_sent_at_once_round_trip_witness :
  stdout (exec (decode_all (emitted (handle_line
                                       (map to_byte [50; 44; 72; 105; 10]) [])
                              sender_world)) quiet_world)
  = [mkRecord 0xEF00 0x32 SF "4869"]
  /\ fst (select_pgn (map to_byte [50; 44; 72; 105])) = PGN_GROUP_MESSAGE.
Proof.
  split; [|reflexivity].
  apply (line_sent_at_once_round_trip (map to_byte [50; 44; 72; 105; 10]) []
           sender_world quiet_world).
  - reflexivity.
  - vm_compute. split; [discriminate | reflexivity].
  - vm_compute. split; [discriminate | reflexivity].
  - vm_compute. discriminate.
  - reflexivity.
Defined.

(** X19.  One pass of the sender task over its queue leaves a sublist of
    the queue, the entries kept in their order; when the pass reports a
    message sent, the queue has become shorter. *)
Theorem retry_queue_keeps_order (queue : list message_entry_t) : forall w,
  fst (result (retry_queue queue) w) `sublist_of` queue
  /\ (snd (result (retry_queue queue) w) = true ->
      (length (fst (result (retry_queue queue) w)) < length queue)%nat).
Proof.
  induction queue as [|it rest IH]; intros w; cbn [retry_queue].
  - rewrite result_ret. cbn [fst snd length]. split; [constructor|discriminate].
  - rewrite result_bind.
    destruct (result is_bus_available w).
    2: { rewrite result_ret. cbn [fst snd]. split; [reflexivity|discriminate]. }
    rewrite result_bind.
    destruct (result xSemaphoreTake _).
    2: { rewrite result_bind.
         match goal with |- context [result (retry_queue rest) ?x] =>
           destruct (IH x) as [Hs Hl] end.
         rewrite result_ret. cbn [fst snd length].
         split; [apply sublist_skip; exact Hs | intros H; specialize (Hl H); lia]. }
    rewrite !result_bind.
    match goal with |- context [if ?b then mret (rest, true) else _] =>
      destruct b end.
    { rewrite result_ret. cbn [fst snd length].
      split; [apply sublist_cons; reflexivity | lia]. }
    rewrite result_bind.
    destruct (5000 <? _).
    + rewrite result_bind.
      match goal with |- context [result (retry_queue rest) ?x] =>
        destruct (IH x) as [Hs Hl] end.
      split; [apply sublist_cons; exact Hs |].
      intros H. specialize (Hl H). cbn [length]. lia.
    + rewrite result_bind.
      match goal with |- context [result (retry_queue rest) ?x] =>
        destruct (IH x) as [Hs Hl] end.
      rewrite result_ret. cbn [fst snd length].
      split; [apply sublist_skip; exact Hs | intros H; specialize (Hl H); lia].
Qed.

(** X20.  While the bus is held, a pass of the sender task over its queue
    leaves the queue as it was and a completed line is appended to the
    queue as one entry with its PGN, its bytes, its length and the
    multi-frame flag [8 < length]; neither puts a frame on the wire nor
    changes the controller. *)
Theorem sender_task_on_held_bus (data : list byte)
    (queue : list message_entry_t) (w : World) :
  let line := strip_line_end data in
  let message := snd (select_pgn line) in
  let len := Z.of_nat (length message) in
  bus_held w ->
  (result (retry_queue queue) w = (queue, false)
   /\ wire (exec (retry_queue queue) w) = wire w
   /\ ctl (exec (retry_queue queue) w) = ctl w)
  /\ ((exists now,
         result (handle_line data queue) w =
         queue ++ [mk_message_entry (fst (select_pgn line)) message len
                     (8 <? len) now])
      /\ wire (exec (handle_line data queue) w) = wire w
      /\ ctl (exec (handle_line data queue) w) = ctl w).
Proof.
  intros line message len Hheld.
  destruct (is_bus_available_held w Hheld) as (Hr & Hv & _ & _).
  unfold held_view in Hv. injection Hv as Hc _ Hw _ _.
  split.
  - destruct queue as [|it rest]; cbn [retry_queue].
    + rewrite result_ret, exec_ret. auto.
    + rewrite result_bind, exec_bind, Hr. rewrite result_ret, exec_ret. auto.
  - destruct (handle_line_result data queue w) as [Hres Hwire].
    fold line in Hres, Hwire. fold message in Hres, Hwire. fold len in Hres.
    assert (result (send_now (fst (select_pgn line)) message) w = false) as Hsent.
    { unfold send_now. rewrite result_bind, Hr. reflexivity. }
    assert (exec (send_now (fst (select_pgn line)) message) w
            = exec is_bus_available w) as Hex.
    { unfold send_now. rewrite exec_bind, Hr. reflexivity. }
    rewrite Hsent in Hres. rewrite Hex in Hwire.
    split; [eexists; exact Hres|]. split; [rewrite Hwire; exact Hw|].
    unfold handle_line. fold line. fold message. fold len.
    rewrite exec_bind, Hsent, Hex. cbn [negb]. rewrite exec_bind, exec_ret.
    exact Hc.
Qed.

Lemma sender_task_on_held_bus_witness :
  result (retry_queue [mk_message_entry PGN_EXTRA hello 21 true 0]) busy_world
  = ([mk_message_entry PGN_EXTRA hello 21 true 0], false)
  /\ wire (exec (handle_line hello []) busy_world) = [].
Proof.
  assert (bus_held busy_world) as H.
  { split; [reflexivity|]. intros n. vm_compute. discriminate. }
  split.
  - apply (sender_task_on_held_bus hello
             [mk_message_entry PGN_EXTRA hello 21 true 0] busy_world H).
  - apply (sender_task_on_held_bus hello [] busy_world H).
Defined.

(** ** Receiving never transmits, transmitting never receives *)

Lemma surroundings_tx_view {A} (m : M A) :
  keeps surroundings m -> keeps tx_view m.
Proof.
  intros H w. specialize (H w). unfold surroundings in H. unfold tx_view.
  injection H. congruence.
Qed.

Lemma off_bus_rx_view {A} (m : M A) : keeps off_bus m -> keeps rx_view m.
Proof.
  intros H w. specialize (H w). unfold off_bus, surroundings in H.
  unfold rx_view. injection H. congruence.
Qed.

Lemma keeps_tx_view_parse_tp_cm frame src : keeps tx_view (parse_tp_cm frame src).
Proof.
  unfold parse_tp_cm.
  apply keeps_bind; [apply surroundings_tx_view, keeps_is_session_valid|].
  intros valid. destruct (negb valid); [keeps_go|].
  apply keeps_bind; [apply surroundings_tx_view, keeps_cleanup_stale_sessions|].
  intros _.
  assert (forall k, keeps tx_view (release_bus k)) as Hrel
    by (intros k; apply surroundings_tx_view, off_bus_surroundings, keeps_release_bus).
  assert (forall k tp, keeps tx_view (acquire_bus k tp)) as Hacq
    by (intros k tp; apply surroundings_tx_view, off_bus_surroundings,
          keeps_acquire_bus).
  repeat first
    [ apply keeps_ret
    | apply Hrel
    | apply Hacq
    | apply keeps_bind; [ | intros ? ]
    | match goal with
      | |- keeps _ (if ?b then _ else _) => destruct b
      end
    | (intros ?; reflexivity) ].
Qed.

Lemma keeps_tx_view_parse_tp_dt frame src : keeps tx_view (parse_tp_dt frame src).
Proof.
  unfold parse_tp_dt, process_complete_message.
  assert (forall k, keeps tx_view (release_bus k)) as Hrel
    by (intros k; apply surroundings_tx_view, off_bus_surroundings, keeps_release_bus).
  repeat first
    [ apply keeps_ret
    | apply Hrel
    | apply keeps_bind; [ | intros ? ]
    | match goal with
      | |- keeps _ (if ?b then _ else _) => destruct b
      | |- keeps _ (match ?o with _ => _ end) => destruct o
      end
    | (intros ?; reflexivity) ].
Qed.

Lemma keeps_tx_view_decode frame : keeps tx_view (decode_j1939_message frame).
Proof.
  unfold decode_j1939_message.
  destruct (_ =? 0); [apply keeps_ret|].
  destruct (_ =? PGN_TP_CM); [apply keeps_tx_view_parse_tp_cm|].
  destruct (_ =? PGN_TP_DT); [apply keeps_tx_view_parse_tp_dt|].
  destruct (_ =? PGN_REQUEST); [apply keeps_ret|].
  intros w. reflexivity.
Qed.

Lemma keeps_tx_view_decode_all frames : keeps tx_view (decode_all frames).
Proof.
  induction frames as [|frame rest IH]; cbn [decode_all]; [apply keeps_ret|].
  apply keeps_bind; [apply keeps_tx_view_decode | intros _; exact IH].
Qed.

(** X21.  Decoding frames and sweeping stale sessions never transmit: the
    wire, the count of transceiver calls, the index into the tag pool
    and the source address are what they were before. *)
Theorem receiving_never_transmits (frames : list can_frame) (w : World) :
  let w1 := exec (decode_all frames) w in
  let w2 := exec cleanup_stale_sessions w in
  (wire w1 = wire w /\ tx_calls w1 = tx_calls w
   /\ session_index (ctl w1) = session_index (ctl w)
   /\ source_address (ctl w1) = source_address (ctl w))
  /\ (wire w2 = wire w /\ tx_calls w2 = tx_calls w
      /\ session_index (ctl w2) = session_index (ctl w)
      /\ source_address (ctl w2) = source_address (ctl w)).
Proof.
  intros w1 w2.
  pose proof (keeps_tx_view_decode_all frames w) as H1.
  pose proof (surroundings_tx_view _ keeps_cleanup_stale_sessions w) as H2.
  unfold tx_view in H1, H2. injection H1 as ? ? ? ?. injection H2 as ? ? ? ?.
  repeat split; assumption.
Qed.

Lemma keeps_rx_view_send_with_retry n frame msg :
  keeps rx_view (send_with_retry n frame msg).
Proof. induction n; cbn [send_with_retry]; keeps_go. Qed.

Lemma keeps_rx_view_bus_gate busy n delay msg :
  keeps rx_view (bus_gate busy n delay msg).
Proof. apply off_bus_rx_view, keeps_bus_gate. Qed.

Lemma keeps_rx_view_send_data_frames n : forall seq size sess payload,
  keeps rx_view (send_data_frames n seq size sess payload).
Proof.
  induction n as [|n IH]; intros seq size sess payload; cbn [send_data_frames];
    [apply keeps_ret|].
  apply keeps_bind; [keeps_go|]. intros field.
  apply keeps_bind; [keeps_go|]. intros c.
  apply keeps_bind; [apply keeps_rx_view_send_with_retry|]. intros sent.
  destruct (negb sent); [keeps_go|].
  apply keeps_bind; [keeps_go|]. intros _. apply IH.
Qed.

Lemma keeps_rx_view_send_single pgn dst payload len :
  keeps rx_view (send_single_frame_message pgn dst payload len).
Proof.
  unfold send_single_frame_message, single_frame_gate.
  apply keeps_bind; [apply keeps_rx_view_bus_gate|]. intros proceed.
  keeps_go.
Qed.

Lemma keeps_rx_view_send_multi pgn payload size :
  keeps rx_view (send_multi_frame_message pgn payload size).
Proof.
  unfold send_multi_frame_message, multi_frame_gate.
  apply keeps_bind; [apply keeps_rx_view_bus_gate|]. intros proceed.
  destruct (negb proceed); [keeps_go|].
  apply keeps_bind; [keeps_go|]. intros c.
  apply keeps_bind; [keeps_go|]. intros _.
  apply keeps_bind; [apply keeps_rx_view_send_with_retry|]. intros sent.
  destruct (negb sent); [keeps_go|].
  apply keeps_bind; [keeps_go|]. intros _. apply keeps_rx_view_send_data_frames.
Qed.

(** X22.  The three send functions never touch the receive side: the
    reassembly table and stdout are what they were before the call,
    whether it succeeds or not. *)
Theorem transmitting_never_touches_reassembly (pgn dst : Z) (payload : list byte)
    (len seq_num session : Z) (w : World) :
  let w1 := exec (send_single_frame_message pgn dst payload len) w in
  let w2 := exec (send_multi_frame_message pgn payload len) w in
  let w3 := exec (send_data_packet seq_num dst payload len session) w in
  (multi_frame_messages (ctl w1) = multi_frame_messages (ctl w)
   /\ stdout w1 = stdout w)
  /\ (multi_frame_messages (ctl w2) = multi_frame_messages (ctl w)
      /\ stdout w2 = stdout w)
  /\ (ctl w3 = ctl w /\ stdout w3 = stdout w).
Proof.
  intros w1 w2 w3.
  pose proof (keeps_rx_view_send_single pgn dst payload len w) as H1.
  pose proof (keeps_rx_view_send_multi pgn payload len w) as H2.
  unfold rx_view, table in H1, H2.
  injection H1 as ? ?. injection H2 as ? ?.
  repeat split; assumption.
Qed.

(** ** What a multi-frame send puts on the wire *)

Lemma tx_calls_send_with_retry n frame msg : forall w,
  (tx_calls (exec (send_with_retry n frame msg) w) <= tx_calls w + n)%nat.
Proof.
  induction n as [|n IH]; intros w; cbn [send_with_retry].
  - rewrite exec_ret. lia.
  - rewrite exec_bind.
    destruct (result (sendMessage frame) w).
    + rewrite exec_ret. cbn. lia.
    + rewrite !exec_bind. etransitivity; [apply IH|]. cbn. lia.
Qed.

Lemma burst_frames_prefix P sa session (m n : nat) : forall k,
  (m <= n)%nat ->
  burst_frames P sa session m k `prefix_of` burst_frames P sa session n k.
Proof.
  revert n. induction m as [|m IH]; intros n k Hmn; [apply prefix_nil|].
  destruct n as [|n]; [lia|]. cbn [burst_frames].
  apply prefix_cons, IH. lia.
Qed.

Lemma length_burst_frames P sa session (n : nat) : forall k,
  length (burst_frames P sa session n k) = n.
Proof.
  induction n as [|n IH]; intros k; [reflexivity|].
  cbn [burst_frames length]. rewrite IH. reflexivity.
Qed.

Lemma send_data_frames_emits (P : list byte) (sa session : Z) (n : nat) :
  forall k w,
  0 <= k -> k + Z.of_nat n <= 65534 ->
  source_address (ctl w) = sa ->
  let run := send_data_frames n (k + 1) (Z.of_nat (length P)) session P in
  exists m,
    wire (exec run w) = wire w ++ burst_frames P sa session m k
    /\ (if result run w then m = n else (m < n)%nat)
    /\ (tx_calls (exec run w) <= tx_calls w + 3 * n)%nat.
Proof.
  induction n as [|n IH]; intros k w Hk Hn Hsa run; subst run.
  { exists 0%nat. cbn. rewrite app_nil_r.
    split; [reflexivity|]. split; [reflexivity|lia]. }
  cbn [send_data_frames].
  pose proof (seq_field_range (k + 1)) as Hf.
  rewrite seq_to_send_field by lia.
  destruct (Z.ltb_spec (seq_field (k + 1)) 1); [lia|].
  destruct (Z.ltb_spec 15 (seq_field (k + 1))); [lia|].
  cbn [orb].
  rewrite exec_bind, result_bind, exec_ret, result_ret.
  rewrite exec_bind_get_ctl, result_bind_get_ctl, Hsa.
  change (data_frame sa (Z.of_nat (length P)) session (k + 1) (seq_field (k + 1)) P)
    with (burst_frame P sa session k).
  rewrite exec_bind, result_bind.
  pose proof (send_with_retry_wire 3 (burst_frame P sa session k)
                packet_retry_warning w) as Hw.
  pose proof (keeps_ctl_send_with_retry 3 (burst_frame P sa session k)
                packet_retry_warning w) as Hc.
  pose proof (tx_calls_send_with_retry 3 (burst_frame P sa session k)
                packet_retry_warning w) as Ht.
  destruct (result (send_with_retry 3 (burst_frame P sa session k)
                      packet_retry_warning) w); cbn [negb].
  2: { exists 0%nat. rewrite exec_bind, result_bind, exec_ret, result_ret.
       change (wire (exec (ESP_LOGE ?s) ?x)) with (wire x).
       change (tx_calls (exec (ESP_LOGE ?s) ?x)) with (tx_calls x).
       rewrite Hw. cbn [burst_frames]. rewrite app_nil_r.
       split; [reflexivity|]. split; lia. }
  rewrite exec_bind, result_bind.
  assert (wrap16 (k + 1 + 1) = k + 1 + 1) as Hwrap
    by (apply Z.mod_small; change (2 ^ 16) with 65536; lia).
  rewrite Hwrap.
  set (w1 := exec (vTaskDelay 50) _).
  destruct (IH (k + 1) w1) as (m & Hm1 & Hm2 & Hm3); [lia | lia | |].
  { unfold w1. change (ctl (exec (vTaskDelay 50) ?w0)) with (ctl w0).
    rewrite Hc. exact Hsa. }
  exists (S m). cbn [burst_frames].
  split; [|split].
  - rewrite Hm1. unfold w1.
    change (wire (exec (vTaskDelay 50) ?w0)) with (wire w0).
    rewrite Hw, <- app_assoc. reflexivity.
  - destruct (result _ w1); lia.
  - etransitivity; [exact Hm3|]. unfold w1.
    change (tx_calls (exec (vTaskDelay 50) ?w0)) with (tx_calls w0). lia.
Qed.

Lemma send_multi_frame_run (P : list byte) (pgn : Z) (w : World) :
  let size := Z.of_nat (length P) in
  let sa := source_address (ctl w) in
  let session := nth (Z.to_nat (session_index (ctl w))) working_sessions 0 in
  let tp := Z.to_nat ((size + 6) / 7) in
  let run := send_multi_frame_message pgn P size in
  0 < size < 65536 ->
  exists l,
    emitted run w = l
    /\ l `prefix_of` burst P pgn sa session
    /\ (if result run w then l = burst P pgn sa session
        else (length l < length (burst P pgn sa session))%nat)
    /\ (tx_calls (exec run w) <= tx_calls w + 3 * (1 + tp))%nat.
Proof.
  intros size sa session tp run Hsize. subst run.
  pose proof (packet_count_bounds size Hsize) as Hb.
  pose proof (off_bus_surroundings _
                (keeps_bus_gate _ _ _ _ : keeps off_bus multi_frame_gate) w) as Hs.
  unfold emitted, send_multi_frame_message.
  rewrite exec_bind, result_bind.
  set (w1 := exec multi_frame_gate w) in *.
  assert (Hsa : source_address (ctl w1) = sa) by (injection Hs; auto).
  assert (Hsi : session_index (ctl w1) = session_index (ctl w)) by (injection Hs; auto).
  assert (Hwire : wire w1 = wire w) by (injection Hs; auto).
  assert (Htx : tx_calls w1 = tx_calls w) by (injection Hs; auto).
  assert (length (burst P pgn sa session) = S tp) as Hlen.
  { unfold burst. cbn [length]. rewrite length_burst_frames. reflexivity. }
  destruct (result multi_frame_gate w); cbn [negb].
  2: { exists []. rewrite exec_ret, result_ret, Hwire, Htx, drop_all.
       split; [reflexivity|]. split; [apply prefix_nil|].
       split; [rewrite Hlen; cbn; lia | lia]. }
  rewrite exec_bind_get_ctl, result_bind_get_ctl, Hsa, Hsi. fold session.
  rewrite !exec_bind, !result_bind.
  set (w2 := exec (modify_ctl _) w1).
  pose proof (send_with_retry_wire 3 (bam_frame sa pgn size session)
                bam_retry_warning w2) as Hw.
  pose proof (keeps_ctl_send_with_retry 3 (bam_frame sa pgn size session)
                bam_retry_warning w2) as Hc.
  pose proof (tx_calls_send_with_retry 3 (bam_frame sa pgn size session)
                bam_retry_warning w2) as Ht.
  destruct (result (send_with_retry 3 _ bam_retry_warning) w2); cbn [negb].
  2: { exists []. rewrite exec_bind, result_bind, exec_ret, result_ret.
       change (wire (exec (ESP_LOGE ?s) ?x)) with (wire x).
       change (tx_calls (exec (ESP_LOGE ?s) ?x)) with (tx_calls x).
       rewrite Hw. subst w2.
       change (wire (exec (modify_ctl ?f) ?w0)) with (wire w0).
       change (tx_calls (exec (modify_ctl ?f) ?w0)) with (tx_calls w0) in Ht.
       rewrite Hwire, drop_all.
       split; [reflexivity|]. split; [apply prefix_nil|].
       split; [rewrite Hlen; cbn; lia | lia]. }
  rewrite exec_bind, result_bind.
  assert (wrap16 ((size + 6) / 7) = (size + 6) / 7) as ->
    by (apply Z.mod_small; change (2 ^ 16) with 65536; lia).
  fold tp.
  change (send_data_frames ?n 1 ?a ?b ?c) with (send_data_frames n (0 + 1) a b c).
  set (w3 := exec (vTaskDelay 10) _).
  destruct (send_data_frames_emits P sa session tp 0 w3) as (m & Hm1 & Hm2 & Hm3);
    [lia | unfold tp; lia | |].
  { unfold w3. change (ctl (exec (vTaskDelay 10) ?w0)) with (ctl w0).
    rewrite Hc. subst w2. cbn. exact Hsa. }
  fold size in Hm1, Hm2, Hm3.
  exists (bam_frame sa pgn size session :: burst_frames P sa session m 0).
  assert (wire w3 = wire w ++ [bam_frame sa pgn size session]) as Hw3.
  { unfold w3. change (wire (exec (vTaskDelay 10) ?w0)) with (wire w0).
    rewrite Hw. subst w2. change (wire (exec (modify_ctl ?f) ?w0)) with (wire w0).
    rewrite Hwire. reflexivity. }
  assert (tx_calls w3 <= tx_calls w + 3)%nat as Ht3.
  { unfold w3. change (tx_calls (exec (vTaskDelay 10) ?w0)) with (tx_calls w0).
    etransitivity; [exact Ht|]. subst w2.
    change (tx_calls (exec (modify_ctl ?f) ?w0)) with (tx_calls w0). lia. }
  split; [|split; [|split]].
  - rewrite Hm1, Hw3, <- app_assoc, drop_app_length. reflexivity.
  - unfold burst. fold size. apply prefix_cons, burst_frames_prefix.
    destruct (result _ w3); lia.
  - destruct (result _ w3).
    + subst m. reflexivity.
    + rewrite Hlen. cbn [length]. rewrite length_burst_frames. lia.
  - lia.
Qed.

(** X23.  For a payload of 1 to 65535 bytes, the frames
    [send_multi_frame_message] puts on the wire are always a prefix of
    the burst (the announce, then the data frames in order); the call
    returns true exactly when it is the whole burst, and it calls the
    transceiver at most three times per frame of the burst. *)
Theorem multi_frame_sends_a_prefix_of_the_burst (P : list byte) (pgn : Z)
    (w : World) :
  let size := Z.of_nat (length P) in
  let sa := source_address (ctl w) in
  let session := nth (Z.to_nat (session_index (ctl w))) working_sessions 0 in
  let run := send_multi_frame_message pgn P size in
  0 < size < 65536 ->
  emitted run w `prefix_of` burst P pgn sa session
  /\ (result run w = true <-> emitted run w = burst P pgn sa session)
  /\ (tx_calls (exec run w) <=
      tx_calls w + 3 * (1 + Z.to_nat ((size + 6) / 7)))%nat.
Proof.
  intros size sa session run Hsize.
  destruct (send_multi_frame_run P pgn w Hsize) as (l & He & Hp & Hr & Ht).
  fold size sa session run in He, Hp, Hr, Ht.
  rewrite He. split; [exact Hp|]. split; [|exact Ht].
  destruct (result run w).
  - split; [intros _; exact Hr | reflexivity].
  - split; [discriminate|]. intros Heq. rewrite Heq in Hr. lia.
Qed.

Lemma multi_frame_sends_a_prefix_of_the_burst_witness :
  emitted (send_multi_frame_message 0xEF20 hello 21) sender_world
    `prefix_of` burst hello 0xEF20 0x32 2
  /\ (tx_calls (exec (send_multi_frame_message 0xEF20 hello 21) sender_world)
      <= 12)%nat.
Proof.
  destruct (multi_frame_sends_a_prefix_of_the_burst hello 0xEF20 sender_world)
    as (H1 & _ & H2).
  - vm_compute. split; reflexivity.
  - split; [exact H1 | exact H2].
Defined.

(** ** The tag pool *)

Lemma keeps_ctl_send_data_frames n : forall seq size sess payload,
  keeps ctl (send_data_frames n seq size sess payload).
Proof.
  induction n as [|n IH]; intros seq size sess payload; cbn [send_data_frames];
    [apply keeps_ret|].
  apply keeps_bind; [keeps_go|]. intros field.
  apply keeps_bind; [keeps_go|]. intros c.
  apply keeps_bind; [apply keeps_ctl_send_with_retry|]. intros sent.
  destruct (negb sent); [keeps_go|].
  apply keeps_bind; [keeps_go|]. intros _. apply IH.
Qed.

Lemma sender_ok_send_multi sa pgn payload size :
  preserves (sender_ok sa) (send_multi_frame_message pgn payload size).
Proof.
  intros w [Hidx Hsrc]. unfold sender_ok.
  unfold send_multi_frame_message. rewrite exec_bind.
  pose proof (keeps_tx_view_bus_gate
                "Bus is busy with another BAM session, delaying multi-frame send"
                10 200
                "Bus still busy after extended retry, aborting multi-frame send" w)
    as Hk.
  fold multi_frame_gate in Hk. unfold tx_view in Hk. injection Hk as _ _ Hsa Hsi.
  destruct (negb _); [rewrite exec_ret, Hsi, Hsa; auto|].
  rewrite exec_bind_get_ctl, !exec_bind.
  set (w2 := exec (modify_ctl _) _).
  assert (0 <= session_index (ctl w2) < 6 /\ source_address (ctl w2) = sa) as H2.
  { split.
    - unfold w2. mrun. apply Z.mod_pos_bound. lia.
    - change (source_address (ctl w2))
        with (source_address (ctl (exec multi_frame_gate w))).
      rewrite Hsa. exact Hsrc. }
  pose proof (keeps_ctl_send_with_retry 3
                (bam_frame (source_address (ctl (exec multi_frame_gate w))) pgn size
                   (nth (Z.to_nat (session_index (ctl (exec multi_frame_gate w))))
                      working_sessions 0))
                bam_retry_warning w2) as Hc.
  destruct (negb _).
  { rewrite exec_bind, exec_ret.
    change (ctl (exec (ESP_LOGE ?s) ?x)) with (ctl x). rewrite Hc. exact H2. }
  rewrite exec_bind, keeps_ctl_send_data_frames.
  change (ctl (exec (vTaskDelay 10) ?w0)) with (ctl w0). rewrite Hc. exact H2.
Qed.

Lemma sender_ok_tx_view {A} sa (m : M A) :
  keeps tx_view m -> preserves (sender_ok sa) m.
Proof.
  intros Hk w Hok. specialize (Hk w). unfold tx_view in Hk.
  unfold sender_ok in *. injection Hk as _ _ -> ->. exact Hok.
Qed.

Lemma sender_ok_send_single sa pgn dst payload len :
  preserves (sender_ok sa) (send_single_frame_message pgn dst payload len).
Proof.
  intros w Hok. unfold sender_ok in *.
  unfold send_single_frame_message. rewrite exec_bind.
  pose proof (keeps_tx_view_bus_gate
                "Bus is busy with BAM session, delaying single frame send" 5 100
                "Bus still busy after retry, aborting single frame send" w) as Hk.
  fold single_frame_gate in Hk. unfold tx_view in Hk. injection Hk as _ _ Hsa Hsi.
  destruct (negb _); [rewrite exec_ret, Hsi, Hsa; exact Hok|].
  destruct (8 <? len).
  - rewrite exec_bind, exec_ret.
    change (ctl (exec (ESP_LOGE ?s) ?x)) with (ctl x). rewrite Hsi, Hsa. exact Hok.
  - rewrite exec_bind_get_ctl.
    change (ctl (exec (sendMessage ?f) ?x)) with (ctl x). rewrite Hsi, Hsa.
    exact Hok.
Qed.

Lemma sender_ok_run_operation sa op : preserves (sender_ok sa) (run_operation op).
Proof.
  destruct op; cbn [run_operation].
  - apply sender_ok_tx_view, keeps_tx_view_decode.
  - apply sender_ok_tx_view, surroundings_tx_view, keeps_cleanup_stale_sessions.
  - apply preserves_bind; [|intros _; apply preserves_ret].
    apply sender_ok_tx_view, surroundings_tx_view, off_bus_surroundings,
      keeps_is_bus_available.
  - apply preserves_bind; [|intros _; apply preserves_ret].
    apply sender_ok_send_single.
  - apply preserves_bind; [|intros _; apply preserves_ret].
    apply sender_ok_send_multi.
Qed.

Lemma sender_ok_run_operations sa ops :
  preserves (sender_ok sa) (run_operations ops).
Proof.
  induction ops as [|op ops IH]; cbn [run_operations];
    [apply preserves_ret|].
  apply preserves_bind; [apply sender_ok_run_operation | intros _; exact IH].
Qed.

(** X24.  Whatever operations a freshly constructed controller has gone
    through, the index into the tag pool lies in 0..5, the tag the next
    multi-frame send will use is one of the six valid tags, and the
    source address is still the byte given at construction. *)
Theorem announces_carry_a_valid_tag (source : Z) (ts : nat -> Z)
    (sem tx : nat -> bool) (ops : list Operation) :
  let w := exec (run_operations ops) (World_new source ts sem tx) in
  0 <= session_index (ctl w) < 6
  /\ is_valid_session
       (nth (Z.to_nat (session_index (ctl w))) working_sessions 0) = true
  /\ source_address (ctl w) = wrap8 source
  /\ 0 <= source_address (ctl w) < 256.
Proof.
  intros w.
  assert (sender_ok (wrap8 source) w) as [Hidx Hsa].
  { apply sender_ok_run_operations. split; [cbn; lia | reflexivity]. }
  split; [exact Hidx|]. split; [apply working_session_valid; exact Hidx|].
  split; [exact Hsa|]. rewrite Hsa. apply Z.mod_pos_bound. reflexivity.
Qed.

(** ** What an announce opens *)

Lemma open_session_lookup k size pgn src sn tp w :
  exists t,
    table (exec (open_session k size pgn src sn tp) w) !! k =
    Some (mkMFM [] size pgn src sn 0 tp false t).
Proof.
  eexists. unfold open_session, table. mrun. apply lookup_insert_eq.
Qed.

(** X25.  An announce with a valid tag whose key is free or holds a stale
    session opens a fresh session under that key, be it a BAM announce
    of a size other than 0 or an RTS announce of any size: the session
    has an empty buffer, no packet received, and the size, PGN and
    packet count read from the announce. *)
Theorem announce_opens_a_fresh_session (frame : can_frame) (src_addr : Z)
    (w : World) :
  let code := Z.land (frame_byte frame 0) 0x0F in
  let sn := Z.land (Z.shiftr (frame_byte frame 0) 4) 0x0F in
  let key := make_session_id sn src_addr in
  let now := wrap32 (timestamps w (ts_read w)) in
  let w' := exec (parse_tp_cm frame src_addr) w in
  is_valid_session sn = true ->
  match multi_frame_messages (ctl w) !! key with
  | None => True
  | Some mfm => is_stale now mfm = true
  end ->
  (code = 0 /\ announced_size frame <> 0) \/ code = 1 ->
  exists t,
    multi_frame_messages (ctl w') !! key =
    Some (mkMFM [] (announced_size frame) (announced_pgn frame) src_addr sn 0
            (announced_packets frame) false t).
Proof.
  intros code sn key now w' Hsn Hfree Hcode. subst w'.
  destruct (is_session_valid_run sn src_addr w) as (Hr & _ & _).
  fold key now in Hr. unfold table in Hr. rewrite Hsn in Hr. cbn [andb] in Hr.
  assert (result (is_session_valid sn src_addr) w = true) as Hvalid.
  { rewrite Hr. destruct (multi_frame_messages (ctl w) !! key); auto. }
  destruct Hcode as [[Hc Hsize] | Hc].
  - rewrite parse_tp_cm_bam_run by assumption. fold sn. fold key.
    apply open_session_lookup.
  - unfold parse_tp_cm. fold sn. fold key. fold code.
    rewrite exec_bind, Hvalid. cbn [negb]. rewrite exec_bind, Hc.
    cbn [Z.eqb]. apply open_session_lookup.
Qed.

Lemma announce_opens_a_fresh_session_witness :
  exists t,
    multi_frame_messages (ctl (exec (parse_tp_cm announce_21 0x32) sweep_world))
      !! 0x0232 = Some (mkMFM [] 21 0xEF20 0x32 2 0 3 false t).
Proof.
  apply (announce_opens_a_fresh_session announce_21 0x32 sweep_world).
  - reflexivity.
  - vm_compute. reflexivity.
  - left. split; [reflexivity | vm_compute; discriminate].
Defined.

(** ** Sender and receiver count the packets alike *)

(** X26.  The sequence field the sender puts in data frame [k + 1] is the
    one the receiver expects after [k] packets, for every [k >= 0]; it
    lies in 1..15 and fits the low four bits of the first byte. *)
Theorem sequence_fields_agree (k : Z) :
  0 <= k ->
  seq_to_send (k + 1) = expected_sequence k
  /\ 1 <= seq_to_send (k + 1) <= 15
  /\ Z.land (seq_to_send (k + 1)) 0x0F = seq_to_send (k + 1).
Proof.
  intros Hk.
  rewrite seq_to_send_field by lia. rewrite expected_sequence_mod.
  pose proof (seq_field_range (k + 1)) as Hr.
  unfold seq_field in *. replace (k + 1 - 1) with k in * by lia.
  split; [reflexivity|]. split; [exact Hr|].
  change (Z.land ?x 15) with (Z.land x (Z.ones 4)). rewrite Z.land_ones by lia.
  apply Z.mod_small. change (2 ^ 4) with 16. lia.
Qed.

Lemma sequence_fields_agree_witness :
  seq_to_send 16 = 1 /\ expected_sequence 15 = 1 /\ seq_to_send 15 = 15.
Proof.
  destruct (sequence_fields_agree 15 ltac:(lia)) as (H & _ & _).
  split; [reflexivity|]. split; [rewrite <- H; reflexivity | reflexivity].
Defined.

(** ** The announce carries its fields across *)

(** X27.  The announce built by [send_multi_frame_message] carries its
    fields across: the receiver reads back the size, the packet count
    [(size + 6) / 7] (recomputed when it does not fit the count byte),
    the low 24 bits of the PGN, control code 0 and the session tag. *)
Theorem announce_fields_round_trip (sa pgn size session : Z) :
  let frame := bam_frame sa pgn size session in
  0 < size < 65536 ->
  is_valid_session session = true ->
  announced_size frame = size
  /\ announced_packets frame = (size + 6) / 7
  /\ announced_pgn frame = Z.land pgn 0xFFFFFF
  /\ Z.land (frame_byte frame 0) 0x0F = 0
  /\ Z.land (Z.shiftr (frame_byte frame 0) 4) 0x0F = session.
Proof.
  intros frame Hsize Hs. subst frame.
  split; [apply announced_size_bam_frame; exact Hsize|].
  split; [apply announced_packets_bam_frame; exact Hsize|].
  split; [apply announced_pgn_bam_frame|].
  apply bam_control_byte. exact Hs.
Qed.

Lemma announce_fields_round_trip_witness :
  announced_size (bam_frame 0x32 0xFEDA 2000 6) = 2000
  /\ announced_packets (bam_frame 0x32 0xFEDA 2000 6) = 286
  /\ frame_byte (bam_frame 0x32 0xFEDA 2000 6) 3 = 0xFF.
Proof.
  destruct (announce_fields_round_trip 0x32 0xFEDA 2000 6) as (H1 & H2 & _).
  - lia.
  - reflexivity.
  - split; [exact H1|]. split; [exact H2 | reflexivity].
Defined.

(** ** A queued line *)

(** X28.  A queued entry is retried the way the line was first tried: a
    pass over a queue holding one entry made from a message reports
    sent, puts on the wire and leaves in the controller exactly what the
    immediate attempt would have in the same world, and empties the
    queue when the send succeeds. *)
Theorem queued_line_is_sent_like_a_fresh_one (pgn : Z) (message : list byte)
    (t : Z) (w : World) :
  let len := Z.of_nat (length message) in
  let entry := mk_message_entry pgn message len (8 <? len) t in
  snd (result (retry_queue [entry]) w) = result (send_now pgn message) w
  /\ wire (exec (retry_queue [entry]) w) = wire (exec (send_now pgn message) w)
  /\ ctl (exec (retry_queue [entry]) w) = ctl (exec (send_now pgn message) w)
  /\ (result (send_now pgn message) w = true ->
      fst (result (retry_queue [entry]) w) = []).
Proof.
  intros len entry. unfold send_now. fold len. cbn [retry_queue].
  rewrite !result_bind, !exec_bind.
  destruct (result is_bus_available w).
  2: { rewrite !result_ret, !exec_ret. cbn [fst snd]. repeat split; discriminate. }
  rewrite !result_bind, !exec_bind.
  destruct (result xSemaphoreTake _).
  2: { rewrite !result_bind, !exec_bind, !result_ret, !exec_ret. cbn [fst snd].
       repeat split; discriminate. }
  cbn [is_multi_frame entry_pgn entry_data entry_len entry].
  rewrite !result_bind, !exec_bind.
  set (w1 := exec xSemaphoreTake _).
  assert ((if 8 <? len
           then send_multi_frame_message pgn message (wrap16 len)
           else send_single_frame_message pgn 255 message (wrap8 len)) =
          (if len <=? 8
           then send_single_frame_message pgn 255 message (wrap8 len)
           else send_multi_frame_message pgn message (wrap16 len))) as ->.
  { destruct (Z.ltb_spec 8 len), (Z.leb_spec len 8); (reflexivity || lia). }
  set (send := if len <=? 8 then _ else _).
  change (exec xSemaphoreGive ?x) with x.
  change (result (mret (result send w1)) ?x) with (result send w1).
  change (exec (mret (result send w1)) ?x) with x.
  destruct (result send w1).
  - rewrite result_ret, exec_ret. cbn [fst snd]. repeat split.
  - rewrite !result_bind, !exec_bind.
    destruct (5000 <? _).
    + rewrite !result_bind, !exec_bind. cbn [retry_queue].
      rewrite !result_ret, !exec_ret. cbn [fst snd]. repeat split; discriminate.
    + rewrite !result_bind, !exec_bind. cbn [retry_queue].
      rewrite !result_ret, !exec_ret. cbn [fst snd]. repeat split; discriminate.
Qed.

(** ** The clock wraps *)

(** X29.  Staleness is computed in 32-bit unsigned arithmetic: a session
    last active at [t] is stale at clock value [(t + elapsed) mod 2^32]
    exactly when more than [SESSION_TIMEOUT_MS] have elapsed, also when
    the clock has wrapped in between. *)
Theorem staleness_survives_clock_wrap (mfm : MultiFrameMessage) (elapsed : Z) :
  0 <= last_activity_time mfm < 2 ^ 32 ->
  0 <= elapsed < 2 ^ 32 ->
  is_stale (wrap32 (last_activity_time mfm + elapsed)) mfm =
  (SESSION_TIMEOUT_MS <? elapsed).
Proof.
  intros Hl He. unfold is_stale, wrap32.
  change (2 ^ 32) with 4294967296 in *.
  replace (((last_activity_time mfm + elapsed) mod 4294967296
            - last_activity_time mfm) mod 4294967296) with elapsed;
    [reflexivity|].
  Z.div_mod_to_equations. lia.
Qed.

Lemma staleness_survives_clock_wrap_witness :
  is_stale 500 (idle_session (2 ^ 32 - 300)) = false
  /\ is_stale 701 (idle_session (2 ^ 32 - 300)) = true.
Proof.
  split.
  - apply (staleness_survives_clock_wrap (idle_session (2 ^ 32 - 300)) 800);
      cbn; lia.
  - apply (staleness_survives_clock_wrap (idle_session (2 ^ 32 - 300)) 1001);
      cbn; lia.
Defined.

(** X30.  The bus deadline is compared without wrap-around: when
    [now + total_packets * 200 + 500] reaches 2^32, the deadline stored
    by the BAM branch is smaller than [now], and the next
    [is_bus_available] under the mutex, at a clock value not before
    [now], releases the bus by force. *)
Theorem bus_deadline_does_not_survive_clock_wrap (session_id total_packets : Z)
    (w : World) :
  let now := wrap32 (timestamps w (ts_read w)) in
  let w1 := exec (acquire_bus session_id total_packets) w in
  let w2 := exec is_bus_available w1 in
  sem_grants w (sem_taken w) = true ->
  sem_grants w1 (sem_taken w1) = true ->
  0 <= total_packets <= 65535 ->
  2 ^ 32 <= now + total_packets * 200 + 500 ->
  now <= wrap32 (timestamps w1 (ts_read w1)) ->
  bus_busy (ctl w1) = true
  /\ bus_busy_timeout (ctl w1) < now
  /\ result is_bus_available w1 = true
  /\ bus_busy (ctl w2) = false
  /\ active_bam_sessions (ctl w2) = ∅.
Proof.
  intros now w1 w2 Hg Hg1 Htp Hwrap Hclock.
  pose proof (acquire_bus_granted session_id total_packets w Hg) as Hc.
  fold now w1 in Hc. cbv zeta in Hc.
  assert (0 <= now < 2 ^ 32) as Hnow by (apply Z.mod_pos_bound; reflexivity).
  assert (bus_busy (ctl w1) = true) as Hbusy by (rewrite Hc; reflexivity).
  assert (bus_busy_timeout (ctl w1) < now) as Hdead.
  { rewrite Hc. cbn. unfold wrap32. change (2 ^ 32) with 4294967296 in *.
    Z.div_mod_to_equations. lia. }
  split; [exact Hbusy|]. split; [exact Hdead|].
  destruct (is_bus_available_granted w1 Hg1) as (_ & Hforce & _).
  destruct (Hforce Hbusy ltac:(lia)) as (H1 & H2 & H3 & _).
  auto.
Qed.

Lemma bus_deadline_does_not_survive_clock_wrap_witness :
  let w := World_new 0x10 (fun _ => 2 ^ 32 - 100) (fun _ => true) (fun _ => true) in
  result is_bus_available (exec (acquire_bus 0x0232 3) w) = true
  /\ bus_busy (ctl (exec (acquire_bus 0x0232 3) w)) = true.
Proof.
  intros w.
  destruct (bus_deadline_does_not_survive_clock_wrap 0x0232 3 w)
    as (H1 & _ & H2 & _); try reflexivity; try (vm_compute; discriminate).
  - lia.
  - split; [exact H2 | exact H1].
Defined.

(** ** The keys a controller can hold *)

Lemma keys_ok_view w w' : keys_view w' = keys_view w -> keys_ok w -> keys_ok w'.
Proof.
  unfold keys_view, keys_ok. intros H. injection H as -> ->. auto.
Qed.

Lemma preserves_keeps_keys_view {A} (m : M A) :
  keeps keys_view m -> preserves keys_ok m.
Proof. intros Hk w H. apply (keys_ok_view w); [apply Hk | exact H]. Qed.

Lemma keys_ok_erase_session k : preserves keys_ok (erase_session k).
Proof.
  intros w [Ht Ho]. split; [|exact Ho].
  intros k' mfm. rewrite table_erase_session. intros Hl.
  apply lookup_delete_Some in Hl as [_ Hl]. eapply Ht, Hl.
Qed.

Lemma keys_ok_release_bus k : preserves keys_ok (release_bus k).
Proof.
  intros w [Ht Ho]. split.
  - intros k' mfm. rewrite table_release_bus. apply Ht.
  - unfold owners in *. unfold release_bus. mrun.
    destruct (sem_grants w (sem_taken w)); mrun; [|exact Ho].
    destruct (active_bam_sessions (ctl w) !! k); mrun; [|exact Ho].
    destruct (decide (delete k (active_bam_sessions (ctl w)) = ∅)); mrun;
      intros k' v Hl; apply lookup_delete_Some in Hl as [_ Hl]; eapply Ho, Hl.
Qed.

Lemma keys_ok_is_bus_available : preserves keys_ok is_bus_available.
Proof.
  intros w [Ht Ho]. split.
  - intros k mfm. rewrite (off_bus_table _ keeps_is_bus_available). apply Ht.
  - unfold owners in *. unfold is_bus_available. mrun.
    destruct (sem_grants w (sem_taken w)); mrun; [|exact Ho].
    destruct (bus_busy (ctl w)); mrun; [|exact Ho].
    destruct (bus_busy_timeout (ctl w) <? _); mrun; [|exact Ho].
    intros k v Hl. rewrite lookup_empty in Hl. discriminate.
Qed.

Lemma keys_ok_acquire_bus k tp :
  key_of_valid_tag k -> preserves keys_ok (acquire_bus k tp).
Proof.
  intros Hk w [Ht Ho]. split.
  - intros k' mfm. rewrite (off_bus_table _ (keeps_acquire_bus k tp)). apply Ht.
  - unfold owners in *. unfold acquire_bus. mrun.
    destruct (sem_grants w (sem_taken w)); mrun; [|exact Ho].
    intros k' v Hl. apply lookup_insert_Some in Hl as [[<- _] | [_ Hl]];
      [exact Hk | eapply Ho, Hl].
Qed.

Lemma keys_ok_open_session k size pgn src sn tp :
  key_of_valid_tag k -> preserves keys_ok (open_session k size pgn src sn tp).
Proof.
  intros Hk w [Ht Ho]. split; [|exact Ho].
  intros k' mfm. unfold open_session, table. mrun. intros Hl.
  apply lookup_insert_Some in Hl as [[<- _] | [_ Hl]]; [exact Hk | eapply Ht, Hl].
Qed.

Create HintDb keys.

#[export] Hint Resolve keys_ok_erase_session keys_ok_release_bus
  keys_ok_is_bus_available : keys.

Ltac keys_go :=
  repeat first
    [ solve [ auto with keys ]
    | apply preserves_ret
    | apply preserves_bind; [ | intros ? ]
    | match goal with
      | |- preserves _ (if ?b then _ else _) => destruct b
      | |- preserves _ (match ?o with _ => _ end) => destruct o
      end
    | (apply preserves_keeps_keys_view; intros ?; reflexivity) ].

Lemma keys_ok_is_session_valid sn src :
  preserves keys_ok (is_session_valid sn src).
Proof. unfold is_session_valid. keys_go. Qed.

Lemma keys_ok_collect_stale now items acc :
  preserves keys_ok (collect_stale now items acc).
Proof.
  revert acc. induction items as [|item rest IH]; intros acc;
    cbn [collect_stale]; keys_go.
Qed.

Lemma keys_ok_remove_sessions ids : preserves keys_ok (remove_sessions ids).
Proof. induction ids; cbn [remove_sessions]; keys_go. Qed.

#[export] Hint Resolve keys_ok_is_session_valid keys_ok_collect_stale
  keys_ok_remove_sessions : keys.

Lemma keys_ok_cleanup : preserves keys_ok cleanup_stale_sessions.
Proof. unfold cleanup_stale_sessions. keys_go. Qed.

Lemma keys_ok_parse_tp_cm frame src :
  0 <= src < 256 -> preserves keys_ok (parse_tp_cm frame src).
Proof.
  intros Hsrc w Hok. unfold parse_tp_cm. rewrite exec_bind.
  set (sn := Z.land (Z.shiftr (frame_byte frame 0) 4) 15).
  pose proof (keys_ok_is_session_valid sn src w Hok) as H1.
  destruct (is_session_valid_run sn src w) as (Hr & _ & _).
  destruct (result (is_session_valid sn src) w); cbn [negb]; [|exact H1].
  symmetry in Hr. apply andb_prop in Hr as [Hsn _].
  assert (key_of_valid_tag (make_session_id sn src)) as Hkey
    by (exists sn, src; auto).
  rewrite exec_bind.
  pose proof (keys_ok_cleanup _ H1) as H2.
  destruct (Z.land (frame_byte frame 0) 15 =? 0).
  - destruct (_ || _); [exact H2|].
    rewrite exec_bind.
    apply keys_ok_open_session; [exact Hkey|].
    apply keys_ok_acquire_bus; [exact Hkey | exact H2].
  - destruct (Z.land (frame_byte frame 0) 15 =? 1).
    + apply keys_ok_open_session; [exact Hkey | exact H2].
    + destruct (frame_byte frame 0 =? 255); [|exact H2].
      rewrite exec_bind. apply keys_ok_release_bus, keys_ok_erase_session, H2.
Qed.

Lemma keys_ok_parse_tp_dt frame src : preserves keys_ok (parse_tp_dt frame src).
Proof.
  intros w Hok. unfold parse_tp_dt.
  destruct (_ || _); [exact Hok|].
  rewrite exec_bind_get_ctl.
  set (session_id := make_session_id _ src).
  destruct (multi_frame_messages (ctl w) !! session_id) as [mfm|] eqn:Hl;
    [|exact Hok].
  rewrite exec_bind.
  set (w1 := exec esp_log_timestamp w).
  assert (keys_ok w1) as H1 by exact Hok.
  destruct (negb _).
  { rewrite !exec_bind. apply keys_ok_release_bus, keys_ok_erase_session, H1. }
  destruct (total_size mfm <=? packets_received mfm * 7).
  { rewrite !exec_bind. apply keys_ok_erase_session, H1. }
  cbn [total_packets packets_received].
  destruct (total_packets mfm <=? wrap16 (packets_received mfm + 1)).
  { rewrite !exec_bind. apply keys_ok_release_bus, keys_ok_erase_session, H1. }
  destruct Hok as [Ht Ho]. split; [|exact Ho].
  intros k' m'. unfold table. mrun. intros Hl'.
  apply lookup_insert_Some in Hl' as [[<- _] | [_ Hl']];
    [eapply Ht, Hl | eapply Ht, Hl'].
Qed.

Lemma keys_ok_decode frame : preserves keys_ok (decode_j1939_message frame).
Proof.
  intros w Hok. unfold decode_j1939_message.
  destruct (_ =? 0); [exact Hok|].
  destruct (_ =? PGN_TP_CM).
  { apply keys_ok_parse_tp_cm; [|exact Hok].
    rewrite land_255. apply Z.mod_pos_bound. reflexivity. }
  destruct (_ =? PGN_TP_DT); [apply keys_ok_parse_tp_dt; exact Hok|].
  destruct (_ =? PGN_REQUEST); exact Hok.
Qed.

Lemma keys_ok_wait_for_bus n delay msg :
  preserves keys_ok (wait_for_bus n delay msg).
Proof. induction n; cbn [wait_for_bus]; keys_go. Qed.

#[export] Hint Resolve keys_ok_wait_for_bus : keys.

Lemma keys_ok_bus_gate busy n delay msg :
  preserves keys_ok (bus_gate busy n delay msg).
Proof. unfold bus_gate. keys_go. Qed.

Lemma keys_ok_send_with_retry n frame msg :
  preserves keys_ok (send_with_retry n frame msg).
Proof. induction n; cbn [send_with_retry]; keys_go. Qed.

#[export] Hint Resolve keys_ok_bus_gate keys_ok_send_with_retry : keys.

Lemma keys_ok_send_data_frames n seq size sess payload :
  preserves keys_ok (send_data_frames n seq size sess payload).
Proof.
  revert seq. induction n; intros seq; cbn [send_data_frames]; keys_go.
Qed.

#[export] Hint Resolve keys_ok_send_data_frames : keys.

Lemma keys_ok_run_operation op : preserves keys_ok (run_operation op).
Proof.
  destruct op; cbn [run_operation].
  - apply keys_ok_decode.
  - apply keys_ok_cleanup.
  - keys_go.
  - unfold send_single_frame_message, single_frame_gate. keys_go.
  - unfold send_multi_frame_message, multi_frame_gate. keys_go.
Qed.

Lemma keys_ok_run_operations ops : preserves keys_ok (run_operations ops).
Proof.
  induction ops as [|op ops IH]; cbn [run_operations];
    [apply preserves_ret|].
  apply preserves_bind; [apply keys_ok_run_operation | intros _; exact IH].
Qed.

Lemma keys_ok_new source ts sem tx : keys_ok (World_new source ts sem tx).
Proof. split; intros k x Hl; discriminate. Qed.

(** Tag 15 makes no key of a valid tag. *)
Lemma key_of_tag_15 (src_addr : Z) :
  0 <= src_addr < 256 -> ~ key_of_valid_tag (make_session_id 15 src_addr).
Proof.
  intros Hsrc (sn & src & Hsn & Hr & Heq).
  apply valid_session_cases in Hsn.
  rewrite !make_session_id_value in Heq by lia. lia.
Qed.

(** ** TP.CM: the abort frame, on every controller *)



(** ** TP.CM: the announce of nothing, entry by entry *)

Lemma is_session_valid_clock sn src w :
  timestamps (exec (is_session_valid sn src) w) = timestamps w
  /\ (ts_read (exec (is_session_valid sn src) w) = ts_read w
      \/ (ts_read (exec (is_session_valid sn src) w) = S (ts_read w)
          /\ is_Some (table w !! make_session_id sn src))).
Proof.
  split.
  { pose proof (keeps_is_session_valid sn src w) as H.
    unfold surroundings in H. injection H. auto. }
  unfold is_session_valid, table.
  destruct (negb (is_valid_session sn)); [left; reflexivity|].
  rewrite exec_bind_get_ctl.
  destruct (multi_frame_messages (ctl w) !! make_session_id sn src) as [mfm|];
    [|left; reflexivity].
  right. split; [|eauto]. rewrite exec_bind.
  destruct (SESSION_TIMEOUT_MS <? _).
  - rewrite !exec_bind, exec_ret, ts_read_release_bus. reflexivity.
  - reflexivity.
Qed.

Lemma table_cleanup_lookup w k :
  table (exec cleanup_stale_sessions w) !! k =
  match table w !! k with
  | Some mfm =>
      if is_stale (wrap32 (timestamps w (ts_read w))) mfm then None else Some mfm
  | None => None
  end.
Proof.
  rewrite table_cleanup_stale_sessions, lookup_erase_all.
  set (now := wrap32 (timestamps w (ts_read w))).
  destruct (decide (k ∈ stale_keys now (table w))) as [Hin|Hout].
  - apply elem_of_stale_keys in Hin as (v & Hl & Hs).
    rewrite Hl, Hs. reflexivity.
  - destruct (table w !! k) as [mfm|] eqn:Hl; [|reflexivity].
    destruct (is_stale now mfm) eqn:Hs; [|reflexivity].
    contradiction Hout. apply elem_of_stale_keys. eauto.
Qed.

Lemma announce_of_nothing_losses (frame : can_frame) (src_addr : Z) (w : World)
    (k : Z) (mfm : MultiFrameMessage) :
  let t1 := wrap32 (timestamps w (ts_read w)) in
  let t2 := wrap32 (timestamps w (S (ts_read w))) in
  Z.land (frame_byte frame 0) 0x0F = 0 ->
  announced_size frame = 0 ->
  table w !! k = Some mfm ->
  table (exec (parse_tp_cm frame src_addr) w) !! k = None ->
  is_stale t1 mfm = true \/ is_stale t2 mfm = true.
Proof.
  intros t1 t2 Hcode Hsize Hl.
  unfold parse_tp_cm. rewrite exec_bind.
  set (sn := Z.land (Z.shiftr (frame_byte frame 0) 4) 15).
  set (key := make_session_id sn src_addr).
  destruct (is_session_valid_run sn src_addr w) as (Hr & Hsame & Hdel).
  destruct (is_session_valid_clock sn src_addr w) as (Hts & Hread).
  fold key t1 in Hr, Hdel, Hread.
  destruct (result (is_session_valid sn src_addr) w) eqn:Hres; cbn [negb].
  2: { change (table (exec (ESP_LOGW ?m) ?x)) with (table x).
       unfold table. rewrite (Hsame eq_refl). fold (table w).
       rewrite Hl. discriminate. }
  specialize (Hdel eq_refl).
  rewrite exec_bind, Hcode, Hsize. cbn [Z.eqb orb].
  change (table (exec (ESP_LOGW ?m) ?x)) with (table x).
  rewrite table_cleanup_lookup, Hdel, Hts.
  symmetry in Hr. apply andb_prop in Hr as [_ Hr].
  destruct (decide (key = k)) as [<-|Hne].
  - intros _. left. rewrite Hl in Hr. exact Hr.
  - rewrite lookup_delete_ne, Hl by exact Hne.
    destruct Hread as [-> | [-> _]].
    + fold t1. destruct (is_stale t1 mfm); [auto | discriminate].
    + fold t2. destruct (is_stale t2 mfm); [auto | discriminate].
Qed.

(** C4 (as amended).  A BAM announce (control code 0) whose announced
    size is 0 is rejected with a warning, either the one of the session
    check or the one of the parameter check: nothing is written to
    stdout and no session is opened or altered, every entry of the
    table afterwards being an entry it held before.  The table can
    differ from before only by stale sessions reaped before the check:
    a session it has lost had been idle for more than
    [SESSION_TIMEOUT_MS] at one of the two clock values the call can
    read, the one of the session check and the one of the sweep. *)
Theorem bam_announce_of_nothing_rejected (frame : can_frame) (src_addr : Z)
    (w : World) :
  let t1 := wrap32 (timestamps w (ts_read w)) in
  let t2 := wrap32 (timestamps w (S (ts_read w))) in
  let w' := exec (parse_tp_cm frame src_addr) w in
  Z.land (frame_byte frame 0) 0x0F = 0 ->
  announced_size frame = 0 ->
  multi_frame_messages (ctl w') ⊆ multi_frame_messages (ctl w)
  /\ (forall k mfm,
        multi_frame_messages (ctl w) !! k = Some mfm ->
        multi_frame_messages (ctl w') !! k = None ->
        is_stale t1 mfm = true \/ is_stale t2 mfm = true)
  /\ (last (esp_log w') = Some (LogW, busy_session_warning)
      \/ last (esp_log w') = Some (LogW, invalid_bam_warning))
  /\ stdout w' = stdout w.
Proof.
  intros t1 t2 w' Hcode Hsize.
  split; [|split; [|split]]; [| | |apply stdout_parse_tp_cm].
  - subst w'. change (table (exec (parse_tp_cm frame src_addr) w) ⊆ table w).
    unfold parse_tp_cm. rewrite exec_bind.
    etransitivity; [|apply table_is_session_valid_subseteq].
    destruct (result (is_session_valid _ src_addr) w); cbn [negb]; [|same_table].
    rewrite exec_bind. etransitivity; [|apply table_cleanup_subseteq].
    rewrite Hcode, Hsize. same_table.
  - intros k mfm. apply announce_of_nothing_losses; assumption.
  - subst w'. unfold parse_tp_cm. rewrite exec_bind.
    destruct (result (is_session_valid _ src_addr) w); cbn [negb].
    + right. rewrite exec_bind, Hcode, Hsize. mrun. apply last_snoc.
    + left. mrun. apply last_snoc.
Qed.

Lemma bam_announce_of_nothing_rejected_witness :
  multi_frame_messages (ctl (exec (parse_tp_cm bam_of_nothing 0x32) sweep_world))
    ⊆ multi_frame_messages (ctl sweep_world)
  /\ multi_frame_messages (ctl (exec (parse_tp_cm bam_of_nothing 0x32) sweep_world))
     = <[0x0332 := idle_session 4500]> ∅
  /\ is_stale 5000 (idle_session 0) = true
  /\ last (esp_log (exec (parse_tp_cm bam_of_nothing 0x32) sweep_world))
     = Some (LogW, invalid_bam_warning).
Proof.
  destruct (bam_announce_of_nothing_rejected bam_of_nothing 0x32 sweep_world)
    as (Hsub & Hlost & _ & _); [reflexivity | reflexivity |].
  split; [exact Hsub|]. split; [vm_compute; reflexivity|].
  split; [|reflexivity].
  destruct (Hlost 0x0232 (idle_session 0)) as [H | H];
    [vm_compute; reflexivity | vm_compute; reflexivity | exact H | exact H].
Defined.
